(** * QR-code attendance backend: session lifecycle and report aggregation

    A shallow embedding of [src/controllers/attendanceController.js] and
    [src/routes/attendanceRoutes.js].  The document store is a list of
    attendance documents in natural (insertion) order; every handler is a
    function from the request, the environment it reads (clock, random
    source, fresh identifier) and the store to an HTTP response and the new
    store.  Timestamps are milliseconds since the epoch, as in [Date].  A
    [string] is a JavaScript string given by its code units, one [ascii] per
    code unit, so [String.length] is [.length]; text with a code unit above
    255 has no counterpart here.

    Store operations are functions on that list.  They fail where the
    request itself makes the store reject the operation: a session identifier
    that does not cast, a [qrCode] value that does not cast, the insertion of
    a document whose [_id] is already taken; the handlers' [catch] blocks
    answer these with status 500.  A lost connection has no counterpart here.

    A handler that awaits the store twice can be overtaken between the two
    awaits.  [markAttendance] is given both as the handler run to its end
    and as its two halves, and the transition system at the end of the
    definitions runs the halves of different requests in any order. *)

From Stdlib Require Import ZArith QArith Qround Qpower Lqa.
From Stdlib Require Import String Ascii List Lia Bool.
From Stdlib.Strings Require Byte.
From Stdlib Require PrimFloat FloatOps SpecFloat Uint63.
From stdpp Require Import base list gmap strings.

Close Scope Q_scope.
Open Scope string_scope.
Open Scope list_scope.
Open Scope Z_scope.

(** ** Identifiers and small JavaScript helpers *)

(** An [ObjectId] is handled through its 24-character hexadecimal string. *)
Definition ObjectId := string.

(** JavaScript truthiness of an optional string: [undefined] and [""] are
    falsy. *)
Definition truthy (v : option string) : bool :=
  match v with
  | Some s => negb (String.eqb s "")
  | None => false
  end.

(** A JSON value sent as a date bound, seen through the two things the
    handler does with it: test it for truthiness, and build [new Date(value)]
    from it. *)
Record DateInput := mkDateInput {
  isTruthy : bool;
  asDate : Z
}.

(** A number of milliseconds: [0] is falsy, [new Date(n)] is the instant [n]. *)
Definition ofMillis (n : Z) : DateInput := mkDateInput (negb (n =? 0)) n.

(** JavaScript truthiness of an optional date bound. *)
Definition truthyDate (v : option DateInput) : bool :=
  match v with
  | Some d => isTruthy d
  | None => false
  end.

(** [a || b] on strings. *)
Definition orElse (a b : string) : string :=
  if String.eqb a "" then b else a.

(** ** Hexadecimal encoding, [buffer.toString("hex")] *)

Definition hexDigits : list ascii := list_ascii_of_string "0123456789abcdef".

(** The digit of a nibble. *)
Definition hexDigit (n : N) : ascii :=
  List.nth (N.to_nat n) hexDigits "f"%char.

Fixpoint toHex (bytes : list Byte.byte) : string :=
  match bytes with
  | [] => EmptyString
  | b :: rest =>
      let n := Byte.to_N b in
      String (hexDigit (n / 16)) (String (hexDigit (n mod 16)) (toHex rest))
  end.

(** The inverse reading, [Buffer.from(s, "hex")], used to state that the code
    determines the random bytes it was made from. *)
Fixpoint indexOf (c : ascii) (digits : list ascii) : option N :=
  match digits with
  | [] => None
  | x :: rest =>
      if Ascii.eqb x c then Some 0%N else option_map N.succ (indexOf c rest)
  end.

Definition hexValue (c : ascii) : option N := indexOf c hexDigits.

Definition byteOfHex (hi lo : ascii) : option Byte.byte :=
  match hexValue hi, hexValue lo with
  | Some h, Some l => Byte.of_N (16 * h + l)
  | _, _ => None
  end.

Fixpoint fromHex (s : string) : option (list Byte.byte) :=
  match s with
  | EmptyString => Some []
  | String hi (String lo rest) =>
      match byteOfHex hi lo, fromHex rest with
      | Some b, Some bs => Some (b :: bs)
      | _, _ => None
      end
  | String _ EmptyString => None
  end.

(** A character [toString("hex")] can produce. *)
Definition isHexDigit (c : ascii) : bool := existsb (Ascii.eqb c) hexDigits.

(** ASCII lower case, the only case folding that touches the text handled
    here: hexadecimal identifiers and the literal segments of the routes. *)
Definition toLower (c : ascii) : ascii :=
  let n := N_of_ascii c in
  if ((65 <=? n) && (n <=? 90))%N then ascii_of_N (n + 32) else c.

Definition lowerCase (s : string) : string :=
  string_of_list_ascii (List.map toLower (list_ascii_of_string s)).

(** The cast of a string to an [ObjectId] in a query filter: 24 hexadecimal
    digits, in either case, denote the identifier that prints in lower case;
    on any other string the cast throws and the query is rejected.  (Drivers
    older than bson 5 also read a 12-character string as twelve raw bytes;
    nothing below is said about such a string.) *)
Definition castObjectId (s : string) : option ObjectId :=
  if Nat.eqb (String.length s) 24
     && forallb (fun c => isHexDigit (toLower c)) (list_ascii_of_string s)
  then Some (lowerCase s) else None.

(** ** models/Attendance and models/User *)

Module User.
(** Modelled from the spec: the schema file models/User is not part of the
    sources; a populated student carries identity, name and email. *)
Record doc := mk {
  _id : ObjectId;
  name : string;
  email : string
}.
End User.

Module Attendance.

Inductive Status := active | expired.

Definition Status_eqb (a b : Status) : bool :=
  match a, b with
  | active, active | expired, expired => true
  | _, _ => false
  end.

(** Modelled from the spec: the schema file models/Attendance is not part of
    the sources; the fields are the ones the controller writes in
    [new Attendance({...})] and the status is one of [active], [expired]. *)
Record doc := mk {
  _id : ObjectId;
  faculty : ObjectId;
  subject : string;
  sessionDate : Z;
  qrCode : string;
  classRoom : string;
  markedStudents : list ObjectId;
  status : Status
}.

Abbreviation collection := (list doc).

Definition setStatus (s : Status) (d : doc) : doc :=
  mk (_id d) (faculty d) (subject d) (sessionDate d) (qrCode d)
     (classRoom d) (markedStudents d) s.

(** [session.markedStudents.push(student)] *)
Definition pushStudent (student : ObjectId) (d : doc) : doc :=
  mk (_id d) (faculty d) (subject d) (sessionDate d) (qrCode d)
     (classRoom d) (markedStudents d ++ [student]) (status d).

(** [Attendance.find(query)] with the query given as a predicate. *)
Definition find (query : doc -> bool) (db : collection) : list doc :=
  List.filter query db.

(** [Attendance.findOne(query)]: the first match in natural order. *)
Definition findOne (query : doc -> bool) (db : collection) : option doc :=
  List.find query db.

Definition findById (id : ObjectId) (db : collection) : option doc :=
  findOne (fun d => String.eqb (_id d) id) db.

(** [Attendance.exists({ _id })] *)
Definition exists_ (id : ObjectId) (db : collection) : bool :=
  match findById id db with Some _ => true | None => false end.

(** [doc.save()] on a document obtained from a query and changed since: the
    stored document with the same [_id] takes the change.  Here it is given
    the stored document with the change applied. *)
Fixpoint save (d : doc) (db : collection) : collection :=
  match db with
  | [] => []
  | x :: rest =>
      if String.eqb (_id x) (_id d) then d :: rest else x :: save d rest
  end.

(** [doc.save()] on a document built with [new Attendance(...)]: an insert,
    which the store rejects when the [_id] is already taken. *)
Definition insert (d : doc) (db : collection) : option collection :=
  if exists_ (_id d) db then None else Some (db ++ [d]).

Definition ids (db : collection) : list ObjectId := List.map _id db.

End Attendance.

(** ** Requests, responses, environment *)

(** [req.body.qrCode], which [markAttendance] hands to the store unchecked,
    as the store reads it in a filter on the string field [qrCode]. *)
Inductive QrValue :=
| Plain (code : option string)
    (* a string, or a number or boolean, which the store casts to its text;
       [None] when the field is absent or null *)
| Selector (sel : string -> bool)
    (* an object of query operators such as {"$ne": "x"}, or an array, which
       the store reads as $in: [sel] holds of the stored codes it selects *)
| Uncastable.
    (* any other object: the cast throws and the query is rejected *)

Module Req.
(** The fields of [req.body] the handlers destructure. *)
Record Body := mkBody {
  subject : option string;
  classRoom : option string;
  qrCode : QrValue;
  startDate : option DateInput;
  endDate : option DateInput
}.

(** [req.user] is what the authentication middleware attached, if any. *)
Record t := mk {
  user : option ObjectId;
  body : Body;
  sessionId : string;          (* req.params.sessionId *)
  querySubject : option string (* req.query.subject *)
}.
End Req.

(** What a handler reads from the outside world. *)
Record Env := mkEnv {
  now : Z;                               (* Date.now() / new Date() *)
  randomBytes : option (list Byte.byte); (* crypto.randomBytes(32), None when it throws *)
  objectIdBytes : list Byte.byte         (* the twelve bytes of a new ObjectId *)
}.

(** The [_id] of a new document, as it prints. *)
Definition newObjectId (env : Env) : ObjectId := toHex (objectIdBytes env).

(** The validity window, [2 * 60 * 1000] milliseconds. *)
Definition window : Z := 2 * 60 * 1000.

(** ** JavaScript numbers

    A finite JavaScript number is an IEEE-754 binary64 value, hence a
    rational.  Division and multiplication return the exact result rounded to
    the nearest binary64 value, ties to the even significand.  The exponent
    range is not modelled: the operands below are ratios of session counts,
    far inside it. *)

Module JsNum.

(** [pow2 k] is [2^k] for any integer [k]. *)
Definition pow2 (k : Z) : Q :=
  if 0 <=? k then inject_Z (2 ^ k) else (1 # Z.to_pos (2 ^ (- k)))%Q.

(** [floor (log2 (n/d))] for positive [n]. *)
Definition ilog2 (n : Z) (d : positive) : Z :=
  let e0 := Z.log2 n - Z.log2 (Zpos d) in
  if n * 2 ^ Z.max 0 (- e0) <? Zpos d * 2 ^ Z.max 0 e0 then e0 - 1 else e0.

(** Nearest integer to [n/d], ties to even. *)
Definition roundHalfEven (n d : Z) : Z :=
  let f := n / d in
  let r := n mod d in
  match 2 * r ?= d with
  | Lt => f
  | Gt => f + 1
  | Eq => if Z.even f then f else f + 1
  end.

(** Round a positive rational to 53 significant bits. *)
Definition roundPos (n : Z) (d : positive) : Q :=
  let e := ilog2 n d in
  let m := roundHalfEven (n * 2 ^ Z.max 0 (52 - e))
                         (Zpos d * 2 ^ Z.max 0 (e - 52)) in
  Qred (inject_Z m * pow2 (e - 52))%Q.

(** Round-to-nearest-even onto binary64. *)
Definition RN (q : Q) : Q :=
  match Qnum q with
  | Z0 => 0%Q
  | Zpos _ => roundPos (Qnum q) (Qden q)
  | Zneg p => Qopp (roundPos (Zpos p) (Qden q))
  end.

(** The number held by an integer counter (exact below [2^53]). *)
Definition ofZ (n : Z) : Q := inject_Z n.

(** [a / b] and [a * b] on numbers. *)
Definition div (a b : Q) : Q := RN (a / b)%Q.
Definition mul (a b : Q) : Q := RN (a * b)%Q.

(** [x.toFixed(2)] for [x >= 0], as the integer number of hundredths the
    resulting decimal string denotes: the integer [n] with [n/100] nearest
    to [x], the larger one on a tie. *)
Definition toFixed2 (x : Q) : Z := Qfloor (x * 100 + (1 # 2))%Q.

(** [Number(s)] for the decimal string denoting [n] hundredths. *)
Definition ofFixed2 (n : Z) : Q := RN (n # 100)%Q.

(** [Number(((count / total) * 100).toFixed(2))] *)
Definition percentage (count total : Z) : Q :=
  ofFixed2 (toFixed2 (mul (div (ofZ count) (ofZ total)) (ofZ 100))).

End JsNum.

(** [p] is the percentage the handlers compute from [count] and [total];
    for counts up to [2^37] it is the decimal [n/100] nearest to
    [100 * count / total], that is, within half a hundredth of it. *)
Definition roundedPercent (count total : nat) (p : Q) : Prop :=
  p = JsNum.percentage (Z.of_nat count) (Z.of_nat total)
  /\ (Z.of_nat count <= 2 ^ 37 ->
      exists n,
        p = JsNum.ofFixed2 n
        /\ 2 * Z.abs (Z.of_nat total * n - 10000 * Z.of_nat count)
           <= Z.of_nat total).

(** The rational value of a hardware binary64 number, to compare the model
    with the machine's own arithmetic. *)
Definition ofFloat (f : PrimFloat.float) : option Q :=
  match FloatOps.Prim2SF f with
  | SpecFloat.S754_zero _ => Some 0%Q
  | SpecFloat.S754_finite s m e =>
      Some (Qred ((if s then -1 else 1) * inject_Z (Zpos m) * JsNum.pow2 e)%Q)
  | _ => None
  end.

Definition toFloat (n : Z) : PrimFloat.float :=
  PrimFloat.of_uint63 (Uint63.of_Z n).

Definition sameQ (a : option Q) (b : Q) : bool :=
  match a with Some x => Qeq_bool x b | None => false end.

(** [count / total] and [(count / total) * 100] agree with the machine. *)
Definition agreesWithMachine (count total : Z) : bool :=
  let q := PrimFloat.div (toFloat count) (toFloat total) in
  sameQ (ofFloat q) (JsNum.div (JsNum.ofZ count) (JsNum.ofZ total))
  && sameQ (ofFloat (PrimFloat.mul q (toFloat 100)))
           (JsNum.mul (JsNum.div (JsNum.ofZ count) (JsNum.ofZ total))
                      (JsNum.ofZ 100)).

Definition upTo (n : nat) : list Z := List.map Z.of_nat (List.seq 1 n).

(** The unit roundoff of binary64, [2^-53]. *)
Definition eps : Q := (1 # 9007199254740992)%Q.

(** ** Response bodies *)

Module FacultyReport.
(** One element of [students]: [{ name, email, attendanceCount,
    attendancePercentage }]. *)
Record row := mkRow {
  name : string;
  email : string;
  attendanceCount : nat;
  attendancePercentage : Q
}.

(** [formattedReport[subject] = { totalSessions, students }] *)
Record entry := mk {
  totalSessions : nat;
  students : list row
}.
End FacultyReport.

Module StudentReport.
(** [report[subject] = { totalClasses, attended, attendancePercentage }] *)
Record entry := mk {
  totalClasses : nat;
  attended : nat;
  attendancePercentage : Q
}.
End StudentReport.

Module Details.
Record student := mkStudent {
  id : ObjectId;
  name : string;
  email : string
}.

Record t := mk {
  sessionId : ObjectId;
  subject : string;
  classRoom : string;
  sessionDate : Z;
  status : Attendance.Status;
  students : list student
}.
End Details.

(** A worksheet cell; dates and times keep the timestamp they are rendered
    from ([toLocaleDateString], [toLocaleTimeString]). *)
Inductive Cell :=
| Text (s : string)
| StatusCell (s : Attendance.Status)
| DateCell (t : Z)
| TimeCell (t : Z).

Inductive Payload :=
| Message (message : string)                 (* { message } *)
| Fault (message : string)                   (* { message, error: error.message } *)
| QrGenerated (message qrCode : string) (sessionId : ObjectId) (expiresIn : string)
| FacultyReportBody (report : list (string * FacultyReport.entry))
| StudentReportBody (report : list (string * StudentReport.entry))
| SessionDetailsBody (details : Details.t)
| Workbook (subject : string) (rows : list (list Cell)).

Record Response := json {
  statusCode : Z;
  payload : Payload
}.

Definition InvalidInput (message : string) : Response :=
  json 400 (Message message).
Definition InvalidOrExpired : Response :=
  json 400 (Message "Invalid or expired QR code").
Definition DuplicateRedemption : Response :=
  json 400 (Message "Attendance already marked for this session").
Definition NotFound : Response :=
  json 404 (Message "Session not found").
Definition Forbidden : Response :=
  json 403 (Message "You don't have access to this session").
Definition isInternalFault (r : Response) : Prop := statusCode r = 500.

(** ** System state: the collection, the pending [setTimeout] callbacks and
    the redemptions under way *)

Module Pending.
(** A [markAttendance] between its [findOne] and its [save]: the session it
    read and the student it is about to push. *)
Record t := mk {
  session : ObjectId;
  student : ObjectId
}.
End Pending.

Record Timer := mkTimer {
  due : Z;             (* earliest firing time *)
  target : ObjectId    (* attendanceSession._id captured by the callback *)
}.

Record State := mkState {
  db : Attendance.collection;
  users : list User.doc;
  timers : list Timer;
  pending : list Pending.t
}.

Definition withDb (st : State) (db' : Attendance.collection) : State :=
  mkState db' (users st) (timers st) (pending st).

(** ** generateSessionQR *)

(** The callback handed to [setTimeout]: re-read the session and flip it to
    [expired] only if it is still [active].  Its [save] writes the status and
    nothing else, so what comes between its two awaits (a student pushed onto
    the session) is kept, and the callback acts as if it ran at the time of
    its [save]. *)
Definition expireSession (id : ObjectId) (db : Attendance.collection)
  : Attendance.collection :=
  match Attendance.findById id db with
  | Some session =>
      match Attendance.status session with
      | Attendance.active =>
          Attendance.save (Attendance.setStatus Attendance.expired session) db
      | Attendance.expired => db
      end
  | None => db
  end.

(** The value of a body field already known to be truthy. *)
Definition str (v : option string) : string :=
  match v with Some s => s | None => "" end.

(** [new Date(v)] for a date bound already known to be truthy. *)
Definition date (v : option DateInput) : Z :=
  match v with Some d => asDate d | None => 0 end.

Definition generateSessionQR (env : Env) (req : Req.t) (st : State)
  : Response * State :=
  let subject := Req.subject (Req.body req) in
  let classRoom := Req.classRoom (Req.body req) in
  match Req.user req with
  | None => (json 401 (Message "Unauthorized: Faculty ID missing"), st)
  | Some faculty =>
      if negb (truthy subject) || negb (truthy classRoom)
      then (json 400 (Message "Subject and Classroom are required"), st)
      else
        match randomBytes env with
        | None => (json 500 (Message "Error generating QR code"), st)
        | Some bytes =>
            let qrData := toHex bytes in
            let sessionDate := now env in
            let attendanceSession :=
              Attendance.mk (newObjectId env) faculty (str subject) sessionDate
                            qrData (str classRoom) [] Attendance.active in
            match Attendance.insert attendanceSession (db st) with
            | None => (json 500 (Fault "Error generating QR code"), st)
            | Some db' =>
                (json 200 (QrGenerated "Session QR code generated successfully"
                             qrData (Attendance._id attendanceSession)
                             "2 minutes"),
                 mkState db' (users st)
                   (timers st ++
                    [mkTimer (now env + 2 * 60 * 1000)
                             (Attendance._id attendanceSession)])
                   (pending st))
            end
        end
  end.

(** ** markAttendance *)

(** Whether the filter entry [qrCode: value] holds of a stored code.  Every
    stored code is a string, so an absent or null value holds of none. *)
Definition selects (qrCode : QrValue) (stored : string) : bool :=
  match qrCode with
  | Plain (Some c) => String.eqb stored c
  | Plain None => false
  | Selector sel => sel stored
  | Uncastable => false
  end.

Definition castable (qrCode : QrValue) : bool :=
  match qrCode with Uncastable => false | _ => true end.

(** The [findOne] filter: [{ qrCode, sessionDate: { $gte: now - 2 min },
    status: 'active' }]. *)
Definition redeemable (qrCode : QrValue) (now : Z) (d : Attendance.doc)
  : bool :=
  selects qrCode (Attendance.qrCode d)
  && (now - 2 * 60 * 1000 <=? Attendance.sessionDate d)
  && Attendance.Status_eqb (Attendance.status d) Attendance.active.

(** [markedStudents.includes(student.toString())] *)
Definition includes (student : ObjectId) (l : list ObjectId) : bool :=
  existsb (String.eqb student) l.

(** The handler run to its end, with no other operation between its
    [findOne] and its [save]. *)
Definition markAttendance (env : Env) (req : Req.t) (st : State)
  : Response * State :=
  let qrCode := Req.qrCode (Req.body req) in
  match Req.user req with
  | None => (json 500 (Fault "Error marking attendance"), st)
  | Some student =>
      if negb (castable qrCode)
      then (json 500 (Fault "Error marking attendance"), st)
      else
      match Attendance.findOne (redeemable qrCode (now env)) (db st) with
      | None => (json 400 (Message "Invalid or expired QR code"), st)
      | Some session =>
          if includes student (Attendance.markedStudents session)
          then (json 400 (Message "Attendance already marked for this session"), st)
          else
            (json 200 (Message "Attendance marked successfully"),
             withDb st (Attendance.save (Attendance.pushStudent student session)
                                        (db st)))
      end
  end.

(** The same handler in two halves.  Up to [await Attendance.findOne(...)]
    and the two tests after it: the answer, if the request ends there, or the
    redemption left to complete. *)
Definition markAttendance_lookup (env : Env) (req : Req.t) (st : State)
  : Response + Pending.t :=
  let qrCode := Req.qrCode (Req.body req) in
  match Req.user req with
  | None => inl (json 500 (Fault "Error marking attendance"))
  | Some student =>
      if negb (castable qrCode)
      then inl (json 500 (Fault "Error marking attendance"))
      else
      match Attendance.findOne (redeemable qrCode (now env)) (db st) with
      | None => inl (json 400 (Message "Invalid or expired QR code"))
      | Some session =>
          if includes student (Attendance.markedStudents session)
          then inl (json 400 (Message "Attendance already marked for this session"))
          else inr (Pending.mk (Attendance._id session) student)
      end
  end.

(** From [session.markedStudents.push(student)] on.  [save] sends the change
    made to the document, not the document: the student is pushed onto the
    redeemers the session has in the store by then, and no other field is
    written.  A session that is no longer stored makes [save] throw. *)
Definition markAttendance_save (p : Pending.t) (st : State)
  : Response * State :=
  match Attendance.findById (Pending.session p) (db st) with
  | None => (json 500 (Fault "Error marking attendance"), st)
  | Some stored =>
      (json 200 (Message "Attendance marked successfully"),
       withDb st (Attendance.save
                    (Attendance.pushStudent (Pending.student p) stored)
                    (db st)))
  end.

(** ** Queries shared by the reports *)

(** [.sort({ sessionDate: -1 })]: newest first. *)
Fixpoint insertDesc (d : Attendance.doc) (l : list Attendance.doc)
  : list Attendance.doc :=
  match l with
  | [] => [d]
  | x :: rest =>
      if Attendance.sessionDate x <=? Attendance.sessionDate d
      then d :: l
      else x :: insertDesc d rest
  end.

Definition sortDesc (l : list Attendance.doc) : list Attendance.doc :=
  fold_right insertDesc [] l.

(** A record after [.populate("markedStudents", "name email")]: the student
    identifiers are replaced by the user documents they refer to; identifiers
    without a user document drop out of the array. *)
Record Populated := mkPopulated {
  record : Attendance.doc;
  students : list User.doc
}.

Definition findUser (us : list User.doc) (id : ObjectId) : option User.doc :=
  List.find (fun u => String.eqb (User._id u) id) us.

Definition populate (us : list User.doc) (d : Attendance.doc) : Populated :=
  mkPopulated d (omap (findUser us) (Attendance.markedStudents d)).

(** [date.toISOString().split("T")[0]]: the UTC calendar date, represented by
    the number of the day since the epoch (two timestamps print the same date
    exactly when they fall on the same day). *)
Definition isoDate (t : Z) : Z := t / 86400000.

(** ** getAttendanceReport *)

(** Insertion-ordered string-keyed tables ([Map], plain objects). *)
Section Table.
Context {V : Type}.

Fixpoint get (k : string) (t : list (string * V)) : option V :=
  match t with
  | [] => None
  | (k', v) :: rest => if String.eqb k' k then Some v else get k rest
  end.

(** [t[k] = v]: overwrite in place, or append a new key. *)
Fixpoint set (k : string) (v : V) (t : list (string * V))
  : list (string * V) :=
  match t with
  | [] => [(k, v)]
  | (k', v') :: rest =>
      if String.eqb k' k then (k, v) :: rest else (k', v') :: set k v rest
  end.
(** The keys in insertion order, [Object.keys(t)]. *)
Definition keys (t : list (string * V)) : list string := List.map fst t.
End Table.

Module Agg.
(** [subjectData.students[id]] *)
Record student := mkStudent {
  name : string;
  email : string;
  attendanceCount : nat
}.

(** [{ totalSessions: new Set(), students: {} }] *)
Record subjectData := mk {
  totalSessions : gset Z;
  students : list (string * student)
}.
End Agg.

(** The body of [record.markedStudents.forEach]. *)
Definition countStudent (students : list (string * Agg.student)) (s : User.doc)
  : list (string * Agg.student) :=
  let students :=
    match get (User._id s) students with
    | None => set (User._id s) (Agg.mkStudent (User.name s) (User.email s) 0) students
    | Some _ => students
    end in
  match get (User._id s) students with
  | Some a =>
      set (User._id s)
          (Agg.mkStudent (Agg.name a) (Agg.email a) (S (Agg.attendanceCount a)))
          students
  | None => students
  end.

(** The body of [attendanceRecords.forEach]. *)
Definition addRecord (report : list (string * Agg.subjectData)) (r : Populated)
  : list (string * Agg.subjectData) :=
  let subject := Attendance.subject (record r) in
  let report :=
    match get subject report with
    | None => set subject (Agg.mk ∅ []) report
    | Some _ => report
    end in
  match get subject report with
  | Some subjectData =>
      set subject
          (Agg.mk ({[ isoDate (Attendance.sessionDate (record r)) ]}
                     ∪ Agg.totalSessions subjectData)
                  (fold_left countStudent (students r) (Agg.students subjectData)))
          report
  | None => report
  end.

Definition aggregate (attendanceRecords : list Populated)
  : list (string * Agg.subjectData) :=
  fold_left addRecord attendanceRecords [].

(** One entry of [formattedReport]. *)
Definition formatSubject (data : Agg.subjectData) : FacultyReport.entry :=
  let totalSessions := size (Agg.totalSessions data) in
  FacultyReport.mk totalSessions
    (List.map (fun '(_, s) =>
                 FacultyReport.mkRow (Agg.name s) (Agg.email s)
                   (Agg.attendanceCount s)
                   (JsNum.percentage (Z.of_nat (Agg.attendanceCount s))
                                     (Z.of_nat totalSessions)))
              (Agg.students data)).

(** [formattedReport[subject] = ...] on a plain object: the key ["__proto__"]
    replaces the prototype instead of creating a property, so it never shows
    in the JSON body. *)
Definition formatReport (report : list (string * Agg.subjectData))
  : list (string * FacultyReport.entry) :=
  List.map (fun '(subject, data) => (subject, formatSubject data))
           (List.filter (fun '(subject, _) => negb (String.eqb subject "__proto__"))
                        report).

(** The Mongo filter built from the request. *)
Definition reportQuery (faculty : ObjectId) (subject : option string)
    (startDate endDate : option DateInput) (d : Attendance.doc) : bool :=
  String.eqb (Attendance.faculty d) faculty
  && (if truthy subject then String.eqb (Attendance.subject d) (str subject)
      else true)
  && (if truthyDate startDate && truthyDate endDate
      then (date startDate <=? Attendance.sessionDate d)
           && (Attendance.sessionDate d <=? date endDate)
      else true).

Definition getAttendanceReport (req : Req.t) (st : State) : Response :=
  let subject := Req.subject (Req.body req) in
  let startDate := Req.startDate (Req.body req) in
  let endDate := Req.endDate (Req.body req) in
  match Req.user req with
  | None => json 500 (Fault "Error generating report")
  | Some faculty =>
      let query := reportQuery faculty subject startDate endDate in
      let attendanceRecords :=
        List.map (populate (users st)) (sortDesc (Attendance.find query (db st))) in
      json 200 (FacultyReportBody (formatReport (aggregate attendanceRecords)))
  end.

(** The sessions a faculty report is computed from, as the handler obtains
    them: selected by the query, newest first, populated. *)
Definition selected (faculty : ObjectId) (req : Req.t) (st : State)
  : list Populated :=
  let b := Req.body req in
  List.map (populate (users st))
    (sortDesc (Attendance.find
                 (reportQuery faculty (Req.subject b) (Req.startDate b)
                              (Req.endDate b))
                 (db st))).

(** The records filed under a subject, their distinct calendar dates, and
    whether a record's redeemer set contains a student. *)
Definition ofSubject (subject : string) (rs : list Populated) : list Populated :=
  List.filter (fun r => String.eqb (Attendance.subject (record r)) subject) rs.

Definition datesOf (rs : list Populated) : gset Z :=
  list_to_set (List.map (fun r => isoDate (Attendance.sessionDate (record r))) rs).

Definition isUser (u : ObjectId) (s : User.doc) : bool :=
  String.eqb (User._id s) u.

Definition attends (u : ObjectId) (r : Populated) : bool :=
  existsb (isUser u) (students r).

(** The same request with [startDate] and [endDate] left out of the body. *)
Definition withoutDates (req : Req.t) : Req.t :=
  let b := Req.body req in
  Req.mk (Req.user req)
         (Req.mkBody (Req.subject b) (Req.classRoom b) (Req.qrCode b) None None)
         (Req.sessionId req) (Req.querySubject req).

(** ** getStudentAttendance *)

(** The property names every plain object inherits from [Object.prototype].
    [report[k]] is truthy for them on an empty [report], so the handler never
    creates an own property under such a key and the JSON body never shows
    one. *)
Definition inheritedKeys : list string :=
  [ "constructor"; "__proto__"; "hasOwnProperty"; "isPrototypeOf";
    "propertyIsEnumerable"; "toLocaleString"; "toString"; "valueOf";
    "__defineGetter__"; "__defineSetter__"; "__lookupGetter__";
    "__lookupSetter__" ].

Definition inherited (k : string) : bool :=
  existsb (String.eqb k) inheritedKeys.

(** The body of [attendanceRecords.forEach] in the student report. *)
Definition addClass (report : list (string * StudentReport.entry))
    (r : Attendance.doc) : list (string * StudentReport.entry) :=
  let subject := Attendance.subject r in
  if inherited subject then report
  else
    let report :=
      match get subject report with
      | None => set subject (StudentReport.mk 0 0 0%Q) report
      | Some _ => report
      end in
    match get subject report with
    | Some e =>
        let totalClasses := S (StudentReport.totalClasses e) in
        let attended := S (StudentReport.attended e) in
        set subject
            (StudentReport.mk totalClasses attended
               (JsNum.percentage (Z.of_nat attended) (Z.of_nat totalClasses)))
            report
    | None => report
    end.

(** The Mongo filter [{ markedStudents: student, ...(subject && { subject }) }]. *)
Definition studentQuery (student : ObjectId) (subject : option string)
    (d : Attendance.doc) : bool :=
  includes student (Attendance.markedStudents d)
  && (if truthy subject then String.eqb (Attendance.subject d) (str subject)
      else true).

Definition getStudentAttendance (req : Req.t) (st : State) : Response :=
  match Req.user req with
  | None => json 500 (Fault "Error fetching attendance")
  | Some student =>
      let subject := Req.querySubject req in
      let attendanceRecords :=
        sortDesc (Attendance.find (studentQuery student subject) (db st)) in
      json 200 (StudentReportBody (fold_left addClass attendanceRecords []))
  end.

(** ** getSessionDetails *)

(** [sessionId.length]; identifiers are ASCII, one code unit per character. *)
Definition isValidId (sessionId : string) : bool :=
  Nat.eqb (String.length sessionId) 24.

Definition detailStudent (student : User.doc) : Details.student :=
  Details.mkStudent (User._id student)
                    (orElse (User.name student) "Unknown")
                    (orElse (User.email student) "No email").

(** [{ _id: sessionId, faculty }], the identifier already cast. *)
Definition ownedBy (sessionId faculty : ObjectId) (d : Attendance.doc) : bool :=
  String.eqb (Attendance._id d) sessionId
  && String.eqb (Attendance.faculty d) faculty.

(** The handler awaits the store twice, for [exists] and for [findOne].  No
    operation of this program removes a session or changes its [_id] or its
    owner, so the answer is the one computed with both queries reading the
    store as it is at the second. *)
Definition getSessionDetails (req : Req.t) (st : State) : Response :=
  let sessionId := Req.sessionId req in
  if String.eqb sessionId ""
  then json 400 (Message "Session ID is required")
  else
    match Req.user req with
    | None => json 401 (Message "Unauthorized: Faculty ID missing")
    | Some faculty =>
        if negb (isValidId sessionId)
        then json 400 (Message "Invalid session ID format")
        else
          match castObjectId sessionId with
          | None => json 500 (Message "Error checking session existence")
          | Some id =>
              if negb (Attendance.exists_ id (db st))
              then json 404 (Message "Session not found")
              else
                match Attendance.findOne (ownedBy id faculty) (db st) with
                | None =>
                    json 403 (Message "You don't have access to this session")
                | Some d =>
                    let session := populate (users st) d in
                    json 200 (SessionDetailsBody
                      (Details.mk (Attendance._id d)
                                  (orElse (Attendance.subject d) "Unknown")
                                  (orElse (Attendance.classRoom d) "Unknown")
                                  (Attendance.sessionDate d)
                                  (Attendance.status d)
                                  (List.map detailStudent (students session))))
                end
          end
    end.

(** ** exportSessionToExcel *)

Definition worksheet (session : Populated) : list (list Cell) :=
  let d := record session in
  [ [Text "Student Name"; Text "Email"; Text "Attendance Status"];
    [];
    [Text "Subject"; Text (Attendance.subject d)];
    [Text "Classroom"; Text (Attendance.classRoom d)];
    [Text "Date"; DateCell (Attendance.sessionDate d)];
    [Text "Time"; TimeCell (Attendance.sessionDate d)];
    [Text "Status"; StatusCell (Attendance.status d)];
    [];
    [Text "Student List"];
    [] ]
  ++ List.map (fun student =>
                 [Text (User.name student); Text (User.email student);
                  Text "Present"])
              (students session).

(** A character [res.setHeader] accepts in a header value: a tab, or a code
    unit from 0x20 to 0x7e or from 0x80 to 0xff.  (It throws on any other code
    unit; those above 0xff are not representable in a [string].) *)
Definition validHeaderChar (c : ascii) : bool :=
  let n := N_of_ascii c in
  ((n =? 9) || ((32 <=? n) && (n <=? 126)) || (128 <=? n))%N.

(** Whether [attachment; filename=attendance_${subject}_${date}.xlsx] is a
    valid header value: all of it but the subject always is. *)
Definition validHeaderValue (subject : string) : bool :=
  forallb validHeaderChar (list_ascii_of_string subject).

Definition exportSessionToExcel (req : Req.t) (st : State) : Response :=
  let sessionId := Req.sessionId req in
  match Req.user req with
  | None => json 500 (Fault "Error exporting to Excel")
  | Some faculty =>
      match castObjectId sessionId with
      | None => json 500 (Fault "Error exporting to Excel")
      | Some id =>
          match Attendance.findOne (ownedBy id faculty) (db st) with
          | None => json 404 (Message "Session not found")
          | Some d =>
              let session := populate (users st) d in
              if validHeaderValue (Attendance.subject d)
              then json 200 (Workbook (Attendance.subject d) (worksheet session))
              else json 500 (Fault "Error exporting to Excel")
          end
      end
  end.

(** ** routes/attendanceRoutes.js *)

Inductive Method := GET | POST | HEAD | OPTIONS | PUT | PATCH | DELETE.

Inductive Guard := auth | isFaculty | isStudent.

Inductive Handler :=
| GenerateSessionQR
| MarkAttendance
| GetAttendanceReport
| GetStudentAttendance
| GetSessionDetails
| ExportSessionToExcel.

(** A path pattern, segment by segment. *)
Inductive Segment := Lit (s : string) | Param (name : string).

Record Route := mkRoute {
  method : Method;
  path : list Segment;
  guards : list Guard;
  handler : Handler
}.

(** The router, in registration order. *)
Definition router : list Route :=
  [ mkRoute POST [Lit "generate-qr"] [auth; isFaculty] GenerateSessionQR;
    mkRoute GET [Lit "report"] [auth; isFaculty] GetAttendanceReport;
    mkRoute GET [Lit "session"; Param "sessionId"] [auth; isFaculty] GetSessionDetails;
    mkRoute GET [Lit "export"; Param "sessionId"] [auth; isFaculty] ExportSessionToExcel;
    mkRoute POST [Lit "mark"] [auth; isStudent] MarkAttendance;
    mkRoute GET [Lit "my-attendance"] [auth; isStudent] GetStudentAttendance ].

(** The mount point, [app.use('/api/attendance', attendanceRoutes)]. *)
Definition mount : list string := ["api"; "attendance"].

(** A request path is the list of its segments: [/a/b] is [["a"; "b"]], and
    a slash at the end leaves an empty last segment.  The router is created
    with the defaults of [express.Router()]: letters match in either case, a
    slash at the end is optional, and a route registered with [get] also
    answers HEAD. *)
Definition serves (registered requested : Method) : bool :=
  match registered, requested with
  | GET, GET | GET, HEAD | POST, POST => true
  | _, _ => false
  end.

Definition sameSegment (a b : string) : bool :=
  String.eqb (lowerCase a) (lowerCase b).

Fixpoint matchPath (pattern : list Segment) (url : list string) : bool :=
  match pattern, url with
  | [], [] => true
  | [], [x] => String.eqb x ""
  | Lit s :: p, x :: u => sameSegment s x && matchPath p u
  | Param _ :: p, x :: u => negb (String.eqb x "") && matchPath p u
  | _, _ => false
  end.

Fixpoint stripPrefix (prefix url : list string) : option (list string) :=
  match prefix, url with
  | [], _ => Some url
  | p :: ps, x :: xs => if sameSegment p x then stripPrefix ps xs else None
  | _ :: _, [] => None
  end.

(** What the router sees of a path under the mount point: the mount point
    takes one slash after it along, so one empty segment right behind it is
    dropped. *)
Definition routed (rest : list string) : list string :=
  match rest with
  | x :: y :: more => if String.eqb x "" then y :: more else rest
  | _ => rest
  end.

(** The route whose handlers run for [m url], if any: the first registered
    one that matches. *)
Definition dispatch (m : Method) (url : list string) : option Route :=
  match stripPrefix mount url with
  | Some rest =>
      List.find (fun r => serves (method r) m && matchPath (path r) (routed rest))
                router
  | None => None
  end.

(** ** The system as a transition system *)

(** The operations that change the state: a creation, a redemption handled
    in one piece, the firing of a pending timer, and the two halves of a
    redemption, which let other operations come between them. *)
Inductive Op :=
| Create (env : Env) (req : Req.t)
| Redeem (env : Env) (req : Req.t)
| Fire (clock : Z) (n : nat)
| Lookup (env : Env) (req : Req.t)
| Save (n : nat).

(** Fire the [n]-th pending timer if it is due; it is removed from the
    pending list and its callback runs once. *)
Definition fire (clock : Z) (n : nat) (st : State) : State :=
  match timers st !! n with
  | Some t =>
      if due t <=? clock
      then mkState (expireSession (target t) (db st)) (users st)
                   (delete n (timers st)) (pending st)
      else st
  | None => st
  end.

(** The first half of a redemption: if the request does not end there, it
    joins the redemptions under way. *)
Definition lookup (env : Env) (req : Req.t) (st : State) : State :=
  match markAttendance_lookup env req st with
  | inl _ => st
  | inr p => mkState (db st) (users st) (timers st) (pending st ++ [p])
  end.

(** The second half of the [n]-th redemption under way. *)
Definition complete (n : nat) (st : State) : State :=
  match pending st !! n with
  | Some p =>
      mkState (db (snd (markAttendance_save p st))) (users st) (timers st)
              (delete n (pending st))
  | None => st
  end.

Definition step (op : Op) (st : State) : State :=
  match op with
  | Create env req => snd (generateSessionQR env req st)
  | Redeem env req => snd (markAttendance env req st)
  | Fire clock n => fire clock n st
  | Lookup env req => lookup env req st
  | Save n => complete n st
  end.


Definition run (ops : list Op) (st : State) : State :=
  fold_left (fun s op => step op s) ops st.

(** ** Vocabulary of the report properties *)

(** The number of records filed under a subject. *)
Definition classesOf (subject : string) (rs : list Attendance.doc) : nat :=
  List.length
    (List.filter (fun d => String.eqb (Attendance.subject d) subject) rs).

(** What the student report holds under [k] once the records [seen] have
    been processed. *)
Definition classEntry (k : string) (seen : list Attendance.doc)
  : option StudentReport.entry :=
  if inherited k then None
  else match classesOf k seen with
       | O => None
       | S n => Some (StudentReport.mk (S n) (S n) 100%Q)
       end.

(** What [subjectData.students] holds under [u] once the populated students
    [seen] have been counted, in that order. *)
Definition studentEntry (u : ObjectId) (seen : list User.doc)
  : option Agg.student :=
  match List.filter (isUser u) seen with
  | [] => None
  | first :: rest =>
      Some (Agg.mkStudent (User.name first) (User.email first)
                          (S (List.length rest)))
  end.

(** The populated students counted under a subject, in processing order. *)
Definition flat (subject : string) (rs : list Populated) : list User.doc :=
  List.concat (List.map students (ofSubject subject rs)).

(** The state of the [report] map once the records [seen] are processed. *)
Definition aggregated (report : list (string * Agg.subjectData))
    (seen : list Populated) : Prop :=
  NoDup (keys report)
  /\ forall k,
       match get k report with
       | None => ofSubject k seen = []
       | Some data =>
           ofSubject k seen <> []
           /\ Agg.totalSessions data = datesOf (ofSubject k seen)
           /\ NoDup (keys (Agg.students data))
           /\ forall u, get u (Agg.students data) = studentEntry u (flat k seen)
       end.

(** ** Invariants of the collection *)

(** The collection's primary key: identifiers are unique. *)
Definition wf (st : State) : Prop := NoDup (Attendance.ids (db st)).


(** [evolves d d']: [d'] is a later version of the session [d].  Only the
    redeemer set and the status differ; the former has grown at its end, the
    latter has not left [expired]. *)
Record evolves (d d' : Attendance.doc) : Prop := mkEvolves {
  ev_id : Attendance._id d' = Attendance._id d;
  ev_faculty : Attendance.faculty d' = Attendance.faculty d;
  ev_subject : Attendance.subject d' = Attendance.subject d;
  ev_sessionDate : Attendance.sessionDate d' = Attendance.sessionDate d;
  ev_qrCode : Attendance.qrCode d' = Attendance.qrCode d;
  ev_classRoom : Attendance.classRoom d' = Attendance.classRoom d;
  ev_marked : Attendance.markedStudents d `prefix_of` Attendance.markedStudents d';
  ev_status : Attendance.status d = Attendance.expired ->
              Attendance.status d' = Attendance.expired
}.

(** The collection keeps every session at its position and grows at the
    end. *)
Definition dbEvolves (db db' : Attendance.collection) : Prop :=
  exists l extra, db' = l ++ extra /\ Forall2 evolves db l.

(** ** Worked example: one session, created at time 1000 *)

Module Example.
Definition ann := User.mk "5f1d7f3e9b1e8a0012345601" "Ann" "ann@example.org".
Definition bob := User.mk "5f1d7f3e9b1e8a0012345602" "Bob" "bob@example.org".
Definition prof : ObjectId := "5f1d7f3e9b1e8a00123456f1".
Definition other : ObjectId := "5f1d7f3e9b1e8a00123456f2".
Definition sidBytes : list Byte.byte :=
  [Byte.x64; Byte.xb0; Byte.xc0; Byte.xff; Byte.xee; Byte.x00;
   Byte.x00; Byte.x00; Byte.x00; Byte.x00; Byte.xa0; Byte.x01].
Definition sid : ObjectId := "64b0c0ffee0000000000a001".

Definition empty : State := mkState [] [ann; bob] [] [].

Definition noBody : Req.Body := Req.mkBody None None (Plain None) None None.

Definition createReq : Req.t :=
  Req.mk (Some prof)
         (Req.mkBody (Some "CS101") (Some "A1") (Plain None) None None)
         "" None.

Definition seed : list Byte.byte := List.repeat Byte.x5a 32.

Definition created : State :=
  snd (generateSessionQR (mkEnv 1000 (Some seed) sidBytes) createReq empty).

Definition redeemReq (student : User.doc) : Req.t :=
  Req.mk (Some (User._id student))
         (Req.mkBody None None (Plain (Some (toHex seed))) None None) "" None.

Definition at_ (t : Z) : Env := mkEnv t None [].

(** Ann redeems one second after creation. *)
Definition redeemed : State :=
  snd (markAttendance (at_ 2000) (redeemReq ann) created).

(** A second session of the same subject later on the same day; Ann redeems
    both codes, Bob the second one only. *)
Definition sid2Bytes : list Byte.byte :=
  [Byte.x64; Byte.xb0; Byte.xc0; Byte.xff; Byte.xee; Byte.x00;
   Byte.x00; Byte.x00; Byte.x00; Byte.x00; Byte.xa0; Byte.x02].
Definition sid2 : ObjectId := "64b0c0ffee0000000000a002".

Definition seed2 : list Byte.byte := List.repeat Byte.x3c 32.

Definition redeemReq2 (student : User.doc) : Req.t :=
  Req.mk (Some (User._id student))
         (Req.mkBody None None (Plain (Some (toHex seed2))) None None) "" None.

Definition sameDay : State :=
  run [ Create (mkEnv 3600000 (Some seed2) sid2Bytes) createReq;
        Redeem (at_ 3601000) (redeemReq2 ann);
        Redeem (at_ 3602000) (redeemReq2 bob) ]
      redeemed.

Definition reportReq : Req.t := Req.mk (Some prof) noBody "" None.
End Example.

(** ** Vocabulary of the further properties *)

(** The code a creation response hands to the faculty, [res.qrCode]. *)
Definition issuedCode (res : Response) : option string :=
  match payload res with
  | QrGenerated _ qrCode _ _ => Some qrCode
  | _ => None
  end.

(** A pending timer belongs to a stored session and is due two minutes after
    that session's creation. *)
Definition timerOk (st : State) (t : Timer) : Prop :=
  exists d, d ∈ db st
    /\ Attendance._id d = target t
    /\ due t = Attendance.sessionDate d + window.

(** Every pending timer is such a timer, and no session has two of them. *)
Definition timersOk (st : State) : Prop :=
  Forall (timerOk st) (timers st) /\ NoDup (List.map target (timers st)).

(** What the expiry callback for [id] may do to one stored session. *)
Definition expiredBy (id : ObjectId) (d d' : Attendance.doc) : Prop :=
  d' = d
  \/ (Attendance._id d = id
      /\ Attendance.status d = Attendance.active
      /\ d' = Attendance.setStatus Attendance.expired d).

(** A list of records in which no record is followed, at any distance, by
    one with a later session date. *)
Fixpoint descending (l : list Attendance.doc) : Prop :=
  match l with
  | [] => True
  | x :: rest =>
      Forall (fun y => Attendance.sessionDate y <= Attendance.sessionDate x) rest
      /\ descending rest
  end.

(** A record seen without its status. *)
Definition statusless (d : Attendance.doc) : Attendance.doc :=
  Attendance.setStatus Attendance.active d.

(** Two records the student report cannot tell apart: it reads the subject
    and, for the order, the session date. *)
Definition sameClass (d d' : Attendance.doc) : Prop :=
  Attendance.subject d' = Attendance.subject d
  /\ Attendance.sessionDate d' = Attendance.sessionDate d.

(** * Properties *)

(** ** The collection *)

Section Collection.
Import Attendance.

Lemma findOne_Some q (db : collection) d :
  findOne q db = Some d -> d ∈ db /\ q d = true.
Proof.
  unfold findOne. intros H. apply List.find_some in H as [Hin Hq].
  split; [by apply list_elem_of_In | done].
Qed.

Lemma findOne_None q (db : collection) :
  findOne q db = None -> forall d, d ∈ db -> q d = false.
Proof.
  unfold findOne. intros H d Hd.
  eapply List.find_none in H; [done | by apply list_elem_of_In].
Qed.

Lemma findById_Some id (db : collection) d :
  findById id db = Some d -> d ∈ db /\ _id d = id.
Proof.
  intros H. apply findOne_Some in H. destruct H as [Hin Hq].
  by apply String.eqb_eq in Hq.
Qed.

Lemma exists_true id (db : collection) :
  exists_ id db = true <-> exists d, d ∈ db /\ _id d = id.
Proof.
  unfold exists_. destruct (findById id db) as [d|] eqn:E.
  - destruct (findById_Some _ _ _ E). split; [eauto | done].
  - split; [done|]. intros (d & Hd & Hid).
    eapply findOne_None in E; [|done]. apply String.eqb_neq in E. done.
Qed.

Lemma exists_false id (db : collection) :
  exists_ id db = false <-> id ∉ ids db.
Proof.
  rewrite <- not_true_iff_false, exists_true. unfold ids.
  split.
  - intros H Hin. apply list_elem_of_In, in_map_iff in Hin as (d & ? & Hd).
    apply H. exists d. split; [by apply list_elem_of_In | done].
  - intros H (d & Hd & Hid). apply H. subst id.
    apply list_elem_of_In, in_map. by apply list_elem_of_In.
Qed.

Lemma ids_save d (db : collection) : ids (save d db) = ids db.
Proof.
  induction db as [|x rest IH]; [done|]. simpl.
  destruct (String.eqb (_id x) (_id d)) eqn:E; simpl.
  - apply String.eqb_eq in E. by rewrite E.
  - by rewrite IH.
Qed.


(** With unique identifiers, [save] replaces exactly the stored version of
    the document and leaves every other position alone. *)
Lemma save_Forall2 (R : doc -> doc -> Prop) s d (db : collection) :
  (forall x, R x x) ->
  NoDup (ids db) -> s ∈ db -> _id d = _id s -> R s d ->
  Forall2 R db (save d db).
Proof.
  intros Hrefl Hnd Hin Hid HR.
  induction db as [|x rest IH]; [by apply elem_of_nil in Hin|].
  simpl in *. apply NoDup_cons in Hnd as [Hx Hnd].
  destruct (String.eqb (_id x) (_id d)) eqn:E.
  - apply String.eqb_eq in E.
    apply elem_of_cons in Hin as [->|Hin].
    + constructor; [done|]. clear -Hrefl. induction rest; constructor; auto.
    + exfalso. apply Hx. rewrite E, Hid.
      apply list_elem_of_In, in_map. by apply list_elem_of_In.
  - apply String.eqb_neq in E.
    apply elem_of_cons in Hin as [->|Hin]; [congruence|].
    constructor; [done | by apply IH].
Qed.

End Collection.

(** ** How a stored session may change *)

Lemma evolves_refl d : evolves d d.
Proof. by constructor. Qed.

Lemma evolves_trans d1 d2 d3 : evolves d1 d2 -> evolves d2 d3 -> evolves d1 d3.
Proof.
  intros [] []. constructor; try congruence; [by etrans | auto].
Qed.

Lemma dbEvolves_refl db : dbEvolves db db.
Proof.
  exists db, []. split; [by rewrite app_nil_r|].
  induction db; constructor; auto using evolves_refl.
Qed.

Lemma dbEvolves_trans db1 db2 db3 :
  dbEvolves db1 db2 -> dbEvolves db2 db3 -> dbEvolves db1 db3.
Proof.
  intros (l1 & e1 & -> & H1) (l2 & e2 & -> & H2).
  apply Forall2_app_inv_l in H2 as (l2a & l2b & Ha & Hb & ->).
  exists l2a, (l2b ++ e2). split; [by rewrite app_assoc|].
  clear -H1 Ha. revert l2a Ha.
  induction H1; intros l2a Ha; inversion Ha; subst; constructor;
    eauto using evolves_trans.
Qed.

Lemma dbEvolves_lookup db db' i d :
  dbEvolves db db' -> db !! i = Some d ->
  exists d', db' !! i = Some d' /\ evolves d d'.
Proof.
  intros (l & extra & -> & H) Hi.
  destruct (Forall2_lookup_l _ _ _ _ _ H Hi) as (d' & Hd' & Hev).
  exists d'. split; [by apply lookup_app_l_Some | done].
Qed.

(** *** The three writing operations *)

Lemma evolves_setStatus d :
  evolves d (Attendance.setStatus Attendance.expired d).
Proof. by constructor. Qed.

Lemma evolves_pushStudent u d : evolves d (Attendance.pushStudent u d).
Proof. constructor; simpl; try done. by eexists. Qed.

Lemma expireSession_evolves id db :
  NoDup (Attendance.ids db) -> dbEvolves db (expireSession id db).
Proof.
  intros Hnd. unfold expireSession.
  destruct (Attendance.findById id db) as [s|] eqn:E; [|apply dbEvolves_refl].
  destruct (Attendance.status s) eqn:Hs; [|apply dbEvolves_refl].
  apply findById_Some in E as [Hin _].
  eexists _, []. split; [by rewrite app_nil_r|].
  eapply save_Forall2; eauto using evolves_refl, evolves_setStatus.
Qed.

Lemma selects_Plain code stored :
  selects (Plain code) stored = true <-> code = Some stored.
Proof.
  destruct code as [c|]; simpl; [|done].
  rewrite String.eqb_eq. split; [by intros -> | by intros [= ->]].
Qed.

Lemma redeemable_spec code t d :
  redeemable code t d = true <->
  selects code (Attendance.qrCode d) = true
  /\ t - window <= Attendance.sessionDate d
  /\ Attendance.status d = Attendance.active.
Proof.
  unfold redeemable, window.
  rewrite !andb_true_iff, Z.leb_le.
  destruct (Attendance.status d); simpl; split; intros H;
    destruct_and?; repeat split; try done; lia.
Qed.

Lemma redeemable_active code t d :
  redeemable code t d = true -> Attendance.status d = Attendance.active.
Proof. intros H. by apply redeemable_spec in H as (_ & _ & ?). Qed.

Lemma markAttendance_evolves env req st :
  wf st -> dbEvolves (db st) (db (snd (markAttendance env req st))).
Proof.
  intros Hwf. unfold markAttendance.
  destruct (Req.user req) as [student|]; [|apply dbEvolves_refl].
  destruct (negb _); [apply dbEvolves_refl|].
  destruct (Attendance.findOne _ _) as [s|] eqn:E; [|apply dbEvolves_refl].
  destruct (includes _ _); [apply dbEvolves_refl|]. simpl.
  apply findOne_Some in E as [Hin Hq].
  eexists _, []. split; [by rewrite app_nil_r|].
  eapply save_Forall2; eauto using evolves_refl, evolves_pushStudent.
Qed.

Lemma markAttendance_save_evolves p st :
  wf st -> dbEvolves (db st) (db (snd (markAttendance_save p st))).
Proof.
  intros Hwf. unfold markAttendance_save.
  destruct (Attendance.findById _ _) as [s|] eqn:E; [|apply dbEvolves_refl].
  simpl. apply findById_Some in E as [Hin Hid].
  eexists _, []. split; [by rewrite app_nil_r|].
  eapply save_Forall2; eauto using evolves_refl, evolves_pushStudent.
Qed.

Lemma db_lookup env req st : db (lookup env req st) = db st.
Proof. unfold lookup. by destruct (markAttendance_lookup env req st). Qed.

Lemma db_complete n st :
  db (complete n st)
  = match pending st !! n with
    | Some p => db (snd (markAttendance_save p st))
    | None => db st
    end.
Proof. unfold complete. by destruct (pending st !! n). Qed.

Lemma ids_markAttendance_save p st :
  Attendance.ids (db (snd (markAttendance_save p st))) = Attendance.ids (db st).
Proof.
  unfold markAttendance_save.
  destruct (Attendance.findById _ _); [|done]. simpl. by rewrite ids_save.
Qed.

Lemma generateSessionQR_evolves env req st :
  dbEvolves (db st) (db (snd (generateSessionQR env req st))).
Proof.
  unfold generateSessionQR.
  destruct (Req.user req); [|apply dbEvolves_refl].
  destruct (_ || _); [apply dbEvolves_refl|].
  destruct (randomBytes env); [|apply dbEvolves_refl].
  unfold Attendance.insert.
  destruct (Attendance.exists_ _ _); [apply dbEvolves_refl|]. simpl.
  eexists _, _. split; [done|].
  induction (db st); constructor; auto using evolves_refl.
Qed.

Lemma step_evolves op st : wf st -> dbEvolves (db st) (db (step op st)).
Proof.
  intros Hwf. destruct op as [env req|env req|clock n|env req|n]; simpl.
  - apply generateSessionQR_evolves.
  - by apply markAttendance_evolves.
  - unfold fire. destruct (timers st !! n) as [t|]; [|apply dbEvolves_refl].
    destruct (due t <=? clock); [|apply dbEvolves_refl]. simpl.
    by apply expireSession_evolves.
  - rewrite db_lookup. apply dbEvolves_refl.
  - rewrite db_complete. destruct (pending st !! n); [|apply dbEvolves_refl].
    by apply markAttendance_save_evolves.
Qed.

Lemma step_wf op st : wf st -> wf (step op st).
Proof.
  unfold wf. intros Hwf.
  destruct op as [env req|env req|clock n|env req|n]; simpl.
  - unfold generateSessionQR.
    destruct (Req.user req); [|done].
    destruct (_ || _); [done|].
    destruct (randomBytes env); [|done].
    unfold Attendance.insert.
    destruct (Attendance.exists_ _ _) eqn:E; [done|]. simpl.
    apply exists_false in E. unfold Attendance.ids in *.
    rewrite List.map_app. simpl. apply NoDup_app. split; [done|].
    split; [|apply NoDup_singleton].
    intros x Hx Hx'. apply list_elem_of_singleton in Hx'. by subst.
  - unfold markAttendance.
    destruct (Req.user req); [|done].
    destruct (negb _); [done|].
    destruct (Attendance.findOne _ _); [|done].
    destruct (includes _ _); [done|]. simpl. by rewrite ids_save.
  - unfold fire. destruct (timers st !! n) as [t|]; [|done].
    destruct (due t <=? clock); [|done]. simpl. unfold expireSession.
    destruct (Attendance.findById _ _) as [s|]; [|done].
    destruct (Attendance.status s); [|done]. by rewrite ids_save.
  - by rewrite db_lookup.
  - rewrite db_complete. destruct (pending st !! n); [|done].
    by rewrite ids_markAttendance_save.
Qed.

Lemma run_wf ops st : wf st -> wf (run ops st).
Proof.
  revert st. induction ops as [|op ops IH]; intros st Hwf; [done|].
  simpl. apply IH. by apply step_wf.
Qed.

Lemma run_evolves ops st : wf st -> dbEvolves (db st) (db (run ops st)).
Proof.
  revert st. induction ops as [|op ops IH]; intros st Hwf.
  - apply dbEvolves_refl.
  - simpl. eapply dbEvolves_trans; [by apply step_evolves|].
    apply IH. by apply step_wf.
Qed.

Lemma findById_save id d db s :
  Attendance.findById id db = Some s -> Attendance._id d = id ->
  Attendance.findById id (Attendance.save d db) = Some d.
Proof.
  unfold Attendance.findById, Attendance.findOne. intros H Hid.
  induction db as [|x rest IH]; [done|]. simpl in *. rewrite Hid.
  destruct (String.eqb (Attendance._id x) id) eqn:E; simpl.
  - by rewrite Hid, String.eqb_refl.
  - rewrite E. auto.
Qed.

Lemma findById_evolves id db db' d :
  dbEvolves db db' -> Attendance.findById id db = Some d ->
  exists d', Attendance.findById id db' = Some d' /\ evolves d d'.
Proof.
  intros (l & extra & -> & H). unfold Attendance.findById, Attendance.findOne.
  induction H as [|x x' l l' Hev H IH]; [done|]. simpl.
  rewrite (ev_id _ _ Hev).
  destruct (String.eqb (Attendance._id x) id); [|done].
  intros [= <-]. eauto.
Qed.

Lemma expireSession_expired id db d :
  Attendance.findById id db = Some d ->
  Attendance.status d = Attendance.expired ->
  expireSession id db = db.
Proof. unfold expireSession. by intros -> ->. Qed.

Lemma expireSession_idempotent id db :
  expireSession id (expireSession id db) = expireSession id db.
Proof.
  destruct (Attendance.findById id db) as [s|] eqn:E.
  - destruct (Attendance.status s) eqn:Hs.
    + assert (expireSession id db
              = Attendance.save (Attendance.setStatus Attendance.expired s) db)
        as -> by (unfold expireSession; by rewrite E, Hs).
      eapply expireSession_expired;
        [eapply findById_save; [done | by destruct (findById_Some _ _ _ E)]
        | reflexivity].
    + by rewrite !(expireSession_expired _ _ _ E Hs).
  - assert (expireSession id db = db) as ->
      by (unfold expireSession; by rewrite E).
    unfold expireSession. by rewrite E.
Qed.

Lemma created_wf : wf Example.created.
Proof. unfold wf. vm_compute. apply NoDup_singleton. Qed.

(** C6: along every sequence of creations, redemptions and timer firings a
    stored session keeps its place and identity and, once [expired], stays
    [expired] (so [active -> expired] is the only status change); the expiry
    callback re-checks the status, so running it again, or on a session that
    is already expired, leaves the collection unchanged. *)
Theorem status_only_expires (st : State) (ops : list Op) :
  wf st ->
  (forall i d, db st !! i = Some d ->
     exists d', db (run ops st) !! i = Some d'
       /\ Attendance._id d' = Attendance._id d
       /\ (Attendance.status d = Attendance.expired ->
           Attendance.status d' = Attendance.expired))
  /\ (forall id d, Attendance.findById id (db st) = Some d ->
        Attendance.status d = Attendance.expired ->
        exists d', Attendance.findById id (db (run ops st)) = Some d'
          /\ Attendance.status d' = Attendance.expired)
  /\ (forall id,
        expireSession id (expireSession id (db st)) = expireSession id (db st))
  /\ (forall id d, Attendance.findById id (db st) = Some d ->
        Attendance.status d = Attendance.expired ->
        expireSession id (db st) = db st)
  /\ (forall clock n t d, timers st !! n = Some t ->
        Attendance.findById (target t) (db st) = Some d ->
        Attendance.status d = Attendance.expired ->
        db (fire clock n st) = db st).
Proof.
  intros Hwf. pose proof (run_evolves ops st Hwf) as Hev.
  repeat split.
  - intros i d Hi.
    destruct (dbEvolves_lookup _ _ _ _ Hev Hi) as (d' & Hd' & Hdd').
    exists d'. destruct Hdd'. auto.
  - intros id d Hd Hexp.
    destruct (findById_evolves _ _ _ _ Hev Hd) as (d' & Hd' & Hdd').
    exists d'. destruct Hdd'. auto.
  - intros id. apply expireSession_idempotent.
  - intros id d. apply expireSession_expired.
  - intros clock n t d Ht Hd Hexp. unfold fire. rewrite Ht.
    destruct (due t <=? clock); [|done]. simpl.
    by eapply expireSession_expired.
Qed.

Lemma status_only_expires_witness :
  wf Example.created
  /\ exists d',
       db (run [Fire 121000 0%nat; Redeem (Example.at_ 121500) (Example.redeemReq Example.bob);
                Fire 130000 0%nat] Example.created) !! 0%nat = Some d'
       /\ Attendance.status d' = Attendance.expired.
Proof.
  split; [exact created_wf|].
  destruct (status_only_expires
              (run [Fire 121000 0%nat] Example.created)
              [Redeem (Example.at_ 121500) (Example.redeemReq Example.bob);
               Fire 130000 0%nat]
              (run_wf _ _ created_wf)) as (H & _).
  destruct (H 0%nat _ eq_refl) as (d' & Hd' & _ & Hs).
  exists d'. split; [exact Hd' | exact (Hs eq_refl)].
Defined.

(** ** Redemption *)

Lemma includes_true (student : ObjectId) l :
  includes student l = true <-> student ∈ l.
Proof.
  unfold includes. rewrite existsb_exists. split.
  - intros (x & Hx & Heq). apply String.eqb_eq in Heq. subst.
    by apply list_elem_of_In.
  - intros H. exists student. split; [by apply list_elem_of_In|].
    apply String.eqb_refl.
Qed.

Lemma includes_false (student : ObjectId) l :
  includes student l = false <-> student ∉ l.
Proof. by rewrite <- not_true_iff_false, includes_true. Qed.

Lemma findOne_uncastable qrCode t (db : Attendance.collection) :
  castable qrCode = false ->
  Attendance.findOne (redeemable qrCode t) db = None.
Proof.
  intros Hc. destruct qrCode; try done. unfold Attendance.findOne.
  induction db as [|d rest IH]; [done|]. simpl. exact IH.
Qed.

(** The outcomes of [markAttendance] for an authenticated student. *)
Lemma markAttendance_cases env req st student :
  Req.user req = Some student ->
  let lookup := Attendance.findOne
    (redeemable (Req.qrCode (Req.body req)) (now env)) (db st) in
  (lookup = None
   /\ markAttendance env req st
      = (if castable (Req.qrCode (Req.body req)) then InvalidOrExpired
         else json 500 (Fault "Error marking attendance"), st))
  \/ (exists s, lookup = Some s /\ student ∈ Attendance.markedStudents s
        /\ markAttendance env req st = (DuplicateRedemption, st))
  \/ (exists s, lookup = Some s /\ (student ∉ Attendance.markedStudents s)
        /\ markAttendance env req st =
             (json 200 (Message "Attendance marked successfully"),
              withDb st (Attendance.save (Attendance.pushStudent student s)
                                         (db st)))).
Proof.
  intros Hu lookup. unfold markAttendance. rewrite Hu. fold lookup.
  destruct (castable (Req.qrCode (Req.body req))) eqn:Hc; simpl.
  2:{ left. split; [|done]. by apply findOne_uncastable. }
  destruct lookup as [s|] eqn:E; [|by left].
  right. destruct (includes student (Attendance.markedStudents s)) eqn:Hi.
  - left. exists s. by apply includes_true in Hi.
  - right. exists s. by apply includes_false in Hi.
Qed.

(** The two halves of [markAttendance], run one after the other, are the
    handler run to its end. *)
Lemma markAttendance_halves env req st :
  wf st ->
  markAttendance env req st
  = match markAttendance_lookup env req st with
    | inl res => (res, st)
    | inr p => markAttendance_save p st
    end.
Proof.
  intros Hwf. unfold markAttendance, markAttendance_lookup.
  destruct (Req.user req) as [student|]; [|done].
  destruct (negb _); [done|].
  destruct (Attendance.findOne _ _) as [s|] eqn:E; [|done].
  destruct (includes _ _); [done|].
  unfold markAttendance_save. simpl.
  apply findOne_Some in E as [Hin _].
  assert (Attendance.findById (Attendance._id s) (db st) = Some s) as ->;
    [|done].
  destruct (Attendance.findById _ _) as [d'|] eqn:E'.
  - destruct (findById_Some _ _ _ E') as [Hd' Hid].
    f_equal. unfold wf in Hwf.
    apply list_elem_of_lookup in Hd' as (i & Hi), Hin as (j & Hj).
    assert (i = j) as ->; [|congruence].
    eapply NoDup_lookup; [exact Hwf| |];
      unfold Attendance.ids; rewrite list_lookup_fmap.
    + by rewrite Hi.
    + rewrite Hj. simpl. by rewrite Hid.
  - eapply findOne_None in E'; [|exact Hin]. simpl in E'.
    by rewrite String.eqb_refl in E'.
Qed.

Lemma unique_by_id (db : Attendance.collection) d1 d2 :
  NoDup (Attendance.ids db) -> d1 ∈ db -> d2 ∈ db ->
  Attendance._id d1 = Attendance._id d2 -> d1 = d2.
Proof.
  intros Hnd H1 H2 Heq.
  apply list_elem_of_lookup in H1 as (i & Hi), H2 as (j & Hj).
  assert (i = j) as ->; [|congruence].
  eapply NoDup_lookup; [exact Hnd| |];
    unfold Attendance.ids; rewrite list_lookup_fmap.
  - by rewrite Hi.
  - rewrite Hj. simpl. by rewrite Heq.
Qed.

Lemma save_lookup_ne d (db : Attendance.collection) i x :
  Attendance._id x <> Attendance._id d ->
  db !! i = Some x -> Attendance.save d db !! i = Some x.
Proof.
  intros Hne. revert i.
  induction db as [|y rest IH]; intros i Hi; [done|]. simpl.
  destruct (String.eqb (Attendance._id y) (Attendance._id d)) eqn:E.
  - apply String.eqb_eq in E. destruct i as [|i]; [|done].
    simpl in Hi. congruence.
  - destruct i as [|i]; [done|]. simpl in *. auto.
Qed.

(** A redemption never touches a session that is not the one it resolved
    to; in particular it leaves every expired session as it is. *)
Lemma markAttendance_keeps_expired env req st i d :
  wf st -> db st !! i = Some d ->
  Attendance.status d = Attendance.expired ->
  db (snd (markAttendance env req st)) !! i = Some d.
Proof.
  intros Hwf Hi Hexp. unfold markAttendance.
  destruct (Req.user req) as [student|]; [|done].
  destruct (negb _); [done|].
  destruct (Attendance.findOne _ _) as [s|] eqn:E; [|done].
  destruct (includes _ _); [done|]. simpl.
  apply findOne_Some in E as [Hin Hq]. apply redeemable_active in Hq.
  apply save_lookup_ne; [|done]. simpl. intros Heq.
  assert (d = s); [|congruence].
  eapply unique_by_id; eauto. by eapply list_elem_of_lookup_2.
Qed.



Lemma save_lookup_eq d (db : Attendance.collection) i s :
  NoDup (Attendance.ids db) -> db !! i = Some s ->
  Attendance._id d = Attendance._id s ->
  Attendance.save d db !! i = Some d.
Proof.
  intros Hnd Hi Hid. revert i Hi.
  induction db as [|x rest IH]; intros i Hi; [done|]. simpl in *.
  apply NoDup_cons in Hnd as [Hx Hnd].
  destruct (String.eqb (Attendance._id x) (Attendance._id d)) eqn:E.
  - apply String.eqb_eq in E. destruct i as [|i]; [done|]. simpl in Hi.
    exfalso. apply Hx. rewrite E, Hid.
    apply list_elem_of_In, in_map, list_elem_of_In.
    by eapply list_elem_of_lookup_2.
  - apply String.eqb_neq in E. destruct i as [|i]; simpl in *; [|auto].
    congruence.
Qed.

(** After a successful redemption the student is at the end of the redeemer
    set of the session the code resolved to. *)
Lemma markAttendance_success env req st student :
  wf st -> Req.user req = Some student ->
  statusCode (fst (markAttendance env req st)) = 200 ->
  exists i s,
    db st !! i = Some s
    /\ selects (Req.qrCode (Req.body req)) (Attendance.qrCode s) = true
    /\ Attendance.status s = Attendance.active
    /\ now env - window <= Attendance.sessionDate s
    /\ (student ∉ Attendance.markedStudents s)
    /\ db (snd (markAttendance env req st)) !! i
       = Some (Attendance.pushStudent student s).
Proof.
  intros Hwf Hu Hok.
  destruct (markAttendance_cases env req st student Hu)
    as [[_ Heq]|[(s & _ & _ & Heq)|(s & Hs & Hnin & Heq)]];
    rewrite Heq in *; try done.
  { by destruct (castable _). }
  apply findOne_Some in Hs as [Hin Hq].
  apply redeemable_spec in Hq as (Hc & Ht & Ha).
  apply list_elem_of_lookup in Hin as (i & Hi).
  exists i, s. repeat split; try done. simpl.
  by eapply save_lookup_eq.
Qed.

Lemma selects_spec qrCode stored :
  selects qrCode stored = true <->
  match qrCode with
  | Plain (Some c) => stored = c
  | Selector sel => sel stored = true
  | _ => False
  end.
Proof.
  destruct qrCode as [[c|]| |]; simpl; try done.
  apply String.eqb_eq.
Qed.

(** C1: [markAttendance] hands [req.body.qrCode] to the store as it comes.
    A session matches it by carrying that very code when it is a string and
    by being selected when it is an object of query operators or an array; a
    value the store cannot cast is answered with an internal fault.  The
    lookup accepts a matching session whose creation is no older than two
    minutes, both ends included.  Whenever every active matching session was
    created more than two minutes ago (and so whenever none matches), the
    request fails with [InvalidOrExpired] and changes nothing; a request no
    later than creation + 2 minutes against an active matching session does
    not.  A session that has expired is not changed by a redemption that
    starts afterwards, and while the presented value matches it alone every
    such redemption fails with [InvalidOrExpired]. *)
Theorem redeem_invalid_or_expired (st : State) (ops : list Op) (env : Env)
    (req : Req.t) (student : ObjectId) :
  wf st -> Req.user req = Some student ->
  let st' := run ops st in
  let presented := Req.qrCode (Req.body req) in
  let matches (d : Attendance.doc) : Prop :=
    match presented with
    | Plain (Some code) => Attendance.qrCode d = code
    | Selector sel => sel (Attendance.qrCode d) = true
    | _ => False
    end in
  (presented = Uncastable ->
   markAttendance env req st'
   = (json 500 (Fault "Error marking attendance"), st'))
  /\ (presented <> Uncastable ->
      (forall d, d ∈ db st' -> matches d ->
         Attendance.status d = Attendance.active ->
         Attendance.sessionDate d + window < now env) ->
      markAttendance env req st' = (InvalidOrExpired, st'))
  /\ ((exists d, d ∈ db st' /\ matches d
         /\ Attendance.status d = Attendance.active
         /\ now env <= Attendance.sessionDate d + window) ->
      fst (markAttendance env req st') <> InvalidOrExpired
      /\ statusCode (fst (markAttendance env req st')) <> 500)
  /\ (forall i d, db st !! i = Some d ->
        Attendance.status d = Attendance.expired ->
        db (snd (markAttendance env req st')) !! i = db st' !! i
        /\ (matches d ->
            (forall j d', db st' !! j = Some d' -> matches d' -> j = i) ->
            markAttendance env req st' = (InvalidOrExpired, st'))).
Proof.
  intros Hwf Hu st' presented matches.
  assert (wf st') as Hwf' by by apply run_wf.
  pose proof (run_evolves ops st Hwf) as Hev.
  change (run ops st) with st' in Hev. clearbody st'.
  pose proof (markAttendance_cases env req st' student Hu) as Hcases.
  simpl in Hcases. fold presented in Hcases.
  assert (forall d, matches d <->
            selects presented (Attendance.qrCode d) = true) as Hm.
  { intros d. symmetry. apply selects_spec. }
  assert (forall d, matches d -> castable presented = true) as Hcast.
  { intros d. unfold matches. by destruct presented as [[c|]| |]. }
  assert (forall s,
    Attendance.findOne (redeemable presented (now env)) (db st') = Some s ->
    s ∈ db st' /\ matches s
    /\ now env - window <= Attendance.sessionDate s
    /\ Attendance.status s = Attendance.active) as Hfound.
  { intros s Hs. apply findOne_Some in Hs as [Hin Hq].
    apply redeemable_spec in Hq as (Hsel & Ht & Ha).
    by rewrite Hm. }
  split; [|split; [|split]].
  - intros Hun.
    destruct Hcases as [[_ Heq]|[(s & Hs & _)|(s & Hs & _)]].
    + by rewrite Heq, Hun.
    + apply Hfound in Hs as (_ & Hms & _). apply Hcast in Hms.
      by rewrite Hun in Hms.
    + apply Hfound in Hs as (_ & Hms & _). apply Hcast in Hms.
      by rewrite Hun in Hms.
  - intros Hc Hnone.
    destruct Hcases as [[_ Heq]|[(s & Hs & _)|(s & Hs & _)]].
    + rewrite Heq. by destruct presented.
    + apply Hfound in Hs as (Hin & Hms & Ht & Ha).
      specialize (Hnone s Hin Hms Ha). lia.
    + apply Hfound in Hs as (Hin & Hms & Ht & Ha).
      specialize (Hnone s Hin Hms Ha). lia.
  - intros (d & Hin & Hmd & Ha & Ht).
    destruct Hcases as [[Hnone Heq]|[(s & _ & _ & Heq)|(s & _ & _ & Heq)]];
      rewrite Heq; simpl; [|done..].
    eapply findOne_None in Hnone; [|exact Hin].
    assert (redeemable presented (now env) d = true); [|congruence].
    apply redeemable_spec. split; [by apply Hm|]. split; [lia | done].
  - intros i d Hi Hexp.
    destruct (dbEvolves_lookup _ _ _ _ Hev Hi) as (d' & Hi' & Hdd').
    pose proof (ev_status _ _ Hdd' Hexp) as Hexp'.
    split.
    + rewrite Hi'. by apply markAttendance_keeps_expired.
    + intros Hmd Huniq.
      destruct Hcases as [[_ Heq]|[(s & Hs & _)|(s & Hs & _)]].
      * rewrite Heq. by rewrite (Hcast d Hmd).
      * apply Hfound in Hs as (Hin & Hms & _ & Ha).
        apply list_elem_of_lookup in Hin as (j & Hj).
        assert (j = i) as -> by by apply (Huniq j s Hj). congruence.
      * apply Hfound in Hs as (Hin & Hms & _ & Ha).
        apply list_elem_of_lookup in Hin as (j & Hj).
        assert (j = i) as -> by by apply (Huniq j s Hj). congruence.
Qed.

Lemma redeem_invalid_or_expired_witness :
  wf Example.created
  /\ Req.user (Example.redeemReq Example.bob) = Some (User._id Example.bob)
  /\ markAttendance (Example.at_ 121001) (Example.redeemReq Example.bob)
                    Example.created
     = (InvalidOrExpired, Example.created).
Proof.
  split; [exact created_wf|]. split; [reflexivity|].
  apply (proj1 (proj2 (redeem_invalid_or_expired Example.created []
                  (Example.at_ 121001) (Example.redeemReq Example.bob)
                  (User._id Example.bob) created_wf eq_refl))).
  - discriminate.
  - intros d Hd _ _. vm_compute in Hd.
    apply list_elem_of_singleton in Hd. subst d. vm_compute. reflexivity.
Defined.

(** A [qrCode] that is an object of query operators, here [{"$ne": "x"}],
    redeems the session although no session carries a code equal to anything
    the request presents. *)
Lemma operator_object_redeems :
  fst (markAttendance (Example.at_ 2000)
         (Req.mk (Some (User._id Example.ann))
                 (Req.mkBody None None
                    (Selector (fun stored => negb (String.eqb stored "x")))
                    None None)
                 "" None)
         Example.created)
  = json 200 (Message "Attendance marked successfully").
Proof. vm_compute. reflexivity. Qed.

(** A redemption that found the session active and is overtaken by the
    expiry timer before its [save] still lands: the student is stored in a
    session that is already expired. *)
Lemma redemption_overtaken_by_expiry :
  List.map (fun d => (Attendance.status d, Attendance.markedStudents d))
           (db (run [Lookup (Example.at_ 120500) (Example.redeemReq Example.ann);
                     Fire 121000 0%nat;
                     Save 0%nat]
                    Example.created))
  = [(Attendance.expired, [User._id Example.ann])].
Proof. vm_compute. reflexivity. Qed.

(** C1, as stated, fails at the end of the window: a session created at time
    1000 and still active is redeemed at exactly 1000 + 2 minutes. *)
Lemma redeem_at_window_end_accepted :
  List.map (fun d => (Attendance.sessionDate d, Attendance.status d))
           (db Example.created) = [(1000, Attendance.active)]
  /\ now (Example.at_ (1000 + 2 * 60 * 1000)) = 1000 + 2 * 60 * 1000
  /\ fst (markAttendance (Example.at_ (1000 + 2 * 60 * 1000))
                         (Example.redeemReq Example.ann) Example.created)
     = json 200 (Message "Attendance marked successfully")
  /\ fst (markAttendance (Example.at_ (1000 + 2 * 60 * 1000))
                         (Example.redeemReq Example.ann) Example.created)
     <> InvalidOrExpired.
Proof. vm_compute. repeat split; discriminate. Qed.



(** Two redemptions by one student that overlap: both lookups run before
    either [save], both are answered 200, and the student is stored twice. *)
Lemma overlapping_redemptions_store_twice :
  exists p st1 st2,
    markAttendance_lookup (Example.at_ 2000) (Example.redeemReq Example.ann)
                          Example.created = inr p
    /\ markAttendance_lookup (Example.at_ 2001) (Example.redeemReq Example.ann)
                             Example.created = inr p
    /\ markAttendance_save p Example.created
       = (json 200 (Message "Attendance marked successfully"), st1)
    /\ markAttendance_save p st1
       = (json 200 (Message "Attendance marked successfully"), st2)
    /\ List.map Attendance.markedStudents (db st2)
       = [[User._id Example.ann; User._id Example.ann]]
    /\ db st2
       = db (run [Lookup (Example.at_ 2000) (Example.redeemReq Example.ann);
                  Lookup (Example.at_ 2001) (Example.redeemReq Example.ann);
                  Save 0%nat; Save 0%nat]
                 Example.created).
Proof. do 3 eexists. vm_compute. repeat split. Qed.


(** ** Session creation *)

Lemma byteOfHex_hexDigit b :
  byteOfHex (hexDigit (Byte.to_N b / 16)) (hexDigit (Byte.to_N b mod 16)) = Some b.
Proof. destruct b; reflexivity. Qed.

Lemma fromHex_toHex bytes : fromHex (toHex bytes) = Some bytes.
Proof.
  induction bytes as [|b rest IH]; [done|].
  cbn [toHex fromHex]. by rewrite byteOfHex_hexDigit, IH.
Qed.

Lemma toHex_inj b1 b2 : toHex b1 = toHex b2 -> b1 = b2.
Proof.
  intros H. apply (f_equal fromHex) in H. rewrite !fromHex_toHex in H.
  congruence.
Qed.

Lemma length_toHex bytes :
  String.length (toHex bytes) = (2 * List.length bytes)%nat.
Proof. induction bytes as [|b rest IH]; simpl; [done|]. rewrite IH. lia. Qed.



(** ** Session detail and export *)

Lemma ownedBy_spec sessionId faculty d :
  ownedBy sessionId faculty d = true <->
  Attendance._id d = sessionId /\ Attendance.faculty d = faculty.
Proof. unfold ownedBy. by rewrite andb_true_iff, !String.eqb_eq. Qed.

Lemma findOne_ownedBy_None sessionId faculty (db : Attendance.collection) :
  (forall d, d ∈ db -> Attendance._id d = sessionId ->
             Attendance.faculty d <> faculty) ->
  Attendance.findOne (ownedBy sessionId faculty) db = None.
Proof.
  intros H. destruct (Attendance.findOne _ _) as [d|] eqn:E; [|done].
  apply findOne_Some in E as [Hin Hq]. apply ownedBy_spec in Hq as [Hid Hf].
  by destruct (H d Hin Hid).
Qed.

Lemma findOne_ownedBy_Some sessionId faculty (db : Attendance.collection) d :
  NoDup (Attendance.ids db) -> d ∈ db ->
  Attendance._id d = sessionId -> Attendance.faculty d = faculty ->
  Attendance.findOne (ownedBy sessionId faculty) db = Some d.
Proof.
  intros Hnd Hin Hid Hf.
  destruct (Attendance.findOne _ _) as [d'|] eqn:E.
  - apply findOne_Some in E as [Hin' Hq]. apply ownedBy_spec in Hq as [Hid' _].
    f_equal. eapply unique_by_id; eauto. congruence.
  - eapply findOne_None in E; [|exact Hin].
    assert (ownedBy sessionId faculty d = true) by by apply ownedBy_spec.
    congruence.
Qed.

Lemma castObjectId_Some s id :
  castObjectId s = Some id <->
  String.length s = 24%nat
  /\ forallb (fun c => isHexDigit (toLower c)) (list_ascii_of_string s) = true
  /\ id = lowerCase s.
Proof.
  unfold castObjectId.
  destruct (Nat.eqb (String.length s) 24) eqn:Hlen; simpl.
  - apply Nat.eqb_eq in Hlen.
    destruct (forallb _ _); split; try done.
    + intros [= <-]. done.
    + intros (_ & _ & ->). done.
    + by intros (_ & ? & _).
  - apply Nat.eqb_neq in Hlen. split; [done | by intros (? & _)].
Qed.

Lemma castObjectId_None s :
  String.length s = 24%nat ->
  forallb (fun c => isHexDigit (toLower c)) (list_ascii_of_string s) = false ->
  castObjectId s = None.
Proof.
  intros Hlen Hhex. unfold castObjectId. by rewrite Hhex, andb_false_r.
Qed.

Lemma length_24_nonempty s :
  String.length s = 24%nat -> String.eqb s "" = false.
Proof. intros Hlen. apply String.eqb_neq. intros E. by rewrite E in Hlen. Qed.

(** [getSessionDetails] past its two format checks. *)
Lemma getSessionDetails_cast req st faculty :
  Req.user req = Some faculty ->
  String.length (Req.sessionId req) = 24%nat ->
  getSessionDetails req st
  = match castObjectId (Req.sessionId req) with
    | None => json 500 (Message "Error checking session existence")
    | Some id =>
        if Attendance.exists_ id (db st)
        then match Attendance.findOne (ownedBy id faculty) (db st) with
             | None => Forbidden
             | Some d =>
                 json 200 (SessionDetailsBody
                   (Details.mk (Attendance._id d)
                      (orElse (Attendance.subject d) "Unknown")
                      (orElse (Attendance.classRoom d) "Unknown")
                      (Attendance.sessionDate d)
                      (Attendance.status d)
                      (List.map detailStudent
                         (omap (findUser (users st))
                               (Attendance.markedStudents d)))))
             end
        else NotFound
    end.
Proof.
  intros Hu Hlen. unfold getSessionDetails.
  rewrite Hu, (length_24_nonempty _ Hlen). unfold isValidId. rewrite Hlen.
  simpl. destruct (castObjectId _) as [id|]; [|done].
  by destruct (Attendance.exists_ id (db st)).
Qed.

(** An existing session none of whose holders is the requester. *)
Lemma getSessionDetails_other_owner req st faculty id d :
  Req.user req = Some faculty ->
  castObjectId (Req.sessionId req) = Some id ->
  d ∈ db st -> Attendance._id d = id ->
  (forall d', d' ∈ db st -> Attendance._id d' = id ->
              Attendance.faculty d' <> faculty) ->
  getSessionDetails req st = Forbidden.
Proof.
  intros Hu Hcast Hin Hid Hother.
  pose proof (proj1 (castObjectId_Some _ _) Hcast) as (Hlen & _).
  rewrite (getSessionDetails_cast req st faculty Hu Hlen), Hcast.
  assert (Attendance.exists_ id (db st) = true) as ->
    by (apply exists_true; eauto).
  by rewrite findOne_ownedBy_None.
Qed.

(** C4: for an authenticated faculty, [getSessionDetails] rejects an
    identifier that is not 24 characters long with [InvalidInput] whatever the
    store holds.  A 24-character identifier that is not hexadecimal passes
    that check, makes the existence query fail and is answered with an
    internal fault, again whatever the store holds.  A hexadecimal one, in
    either case, names the session whose identifier is its lower-case form:
    the answer is [NotFound] when no session has it, [Forbidden] when the
    session exists but belongs to another faculty, and for the owner the
    subject, classroom, date, status and roster of the session, whatever its
    status: the redeemers that have a user document, in order, each with
    identifier, name and e-mail address, [Unknown] and [No email] standing
    for an empty one. *)
Theorem getSessionDetails_spec (req : Req.t) (st : State) (faculty : ObjectId) :
  Req.user req = Some faculty ->
  let sessionId := Req.sessionId req in
  let hexadecimal :=
    forallb (fun c => isHexDigit (toLower c)) (list_ascii_of_string sessionId) in
  let id := lowerCase sessionId in
  (String.length sessionId <> 24%nat ->
     (exists message, getSessionDetails req st = InvalidInput message)
     /\ forall st', getSessionDetails req st' = getSessionDetails req st)
  /\ (String.length sessionId = 24%nat -> hexadecimal = false ->
      getSessionDetails req st
      = json 500 (Message "Error checking session existence")
      /\ isInternalFault (getSessionDetails req st)
      /\ getSessionDetails req st <> NotFound
      /\ forall st', getSessionDetails req st' = getSessionDetails req st)
  /\ (String.length sessionId = 24%nat -> hexadecimal = true ->
      ((forall d, d ∈ db st -> Attendance._id d <> id) ->
       getSessionDetails req st = NotFound)
      /\ (forall d, d ∈ db st -> Attendance._id d = id ->
            ((forall d', d' ∈ db st -> Attendance._id d' = id ->
                         Attendance.faculty d' <> faculty) ->
             getSessionDetails req st = Forbidden /\ Forbidden <> NotFound)
            /\ (wf st -> Attendance.faculty d = faculty ->
                getSessionDetails req st
                = json 200 (SessionDetailsBody
                    (Details.mk (Attendance._id d)
                       (if String.eqb (Attendance.subject d) ""
                        then "Unknown" else Attendance.subject d)
                       (if String.eqb (Attendance.classRoom d) ""
                        then "Unknown" else Attendance.classRoom d)
                       (Attendance.sessionDate d)
                       (Attendance.status d)
                       (List.map
                          (fun u =>
                             Details.mkStudent (User._id u)
                               (if String.eqb (User.name u) ""
                                then "Unknown" else User.name u)
                               (if String.eqb (User.email u) ""
                                then "No email" else User.email u))
                          (omap (fun student =>
                                   List.find
                                     (fun u => String.eqb (User._id u) student)
                                     (users st))
                                (Attendance.markedStudents d)))))
                /\ getSessionDetails req st <> NotFound))).
Proof.
  intros Hu. cbv zeta. split; [|split].
  - intros Hlen. unfold getSessionDetails. rewrite Hu.
    unfold isValidId. apply Nat.eqb_neq in Hlen. rewrite Hlen. simpl.
    destruct (String.eqb (Req.sessionId req) ""); split; eauto.
  - intros Hlen Hhex.
    assert (forall st', getSessionDetails req st'
              = json 500 (Message "Error checking session existence")) as H.
    { intros st'. rewrite (getSessionDetails_cast req st' faculty Hu Hlen).
      by rewrite (castObjectId_None _ Hlen Hhex). }
    rewrite H. repeat split; [done|]. intros st'. by rewrite H.
  - intros Hlen Hhex. set (id := lowerCase (Req.sessionId req)).
    assert (castObjectId (Req.sessionId req) = Some id) as Hcast.
    { by apply castObjectId_Some. }
    rewrite (getSessionDetails_cast req st faculty Hu Hlen), Hcast. split.
    + intros Hnone.
      assert (Attendance.exists_ id (db st) = false) as ->; [|done].
      apply not_true_iff_false. rewrite exists_true.
      intros (d & Hd & Hid). by apply (Hnone d).
    + intros d Hin Hid.
      assert (Attendance.exists_ id (db st) = true) as ->
        by (apply exists_true; eauto).
      split.
      * intros Hother. by rewrite findOne_ownedBy_None.
      * intros Hwf Hf.
        rewrite (findOne_ownedBy_Some _ _ _ d Hwf Hin Hid Hf). done.
Qed.

Lemma getSessionDetails_spec_witness :
  Req.user (Req.mk (Some Example.prof) Example.noBody
                   "64B0C0FFEE0000000000a001" None)
    = Some Example.prof
  /\ wf (fire 121000 0 Example.redeemed)
  /\ getSessionDetails
       (Req.mk (Some Example.prof) Example.noBody
               "64B0C0FFEE0000000000a001" None)
       (fire 121000 0 Example.redeemed)
     = json 200 (SessionDetailsBody
         (Details.mk Example.sid "CS101" "A1" 1000 Attendance.expired
            [Details.mkStudent (User._id Example.ann) "Ann" "ann@example.org"])).
Proof.
  assert (wf (fire 121000 0 Example.redeemed)) as Hwf.
  { unfold wf. vm_compute. apply NoDup_singleton. }
  split; [reflexivity|]. split; [exact Hwf|].
  pose (req := Req.mk (Some Example.prof) Example.noBody
                      "64B0C0FFEE0000000000a001" None).
  destruct (proj2 (proj2 (getSessionDetails_spec req
                            (fire 121000 0 Example.redeemed)
                            Example.prof eq_refl)) eq_refl eq_refl) as [_ H].
  destruct (H (Attendance.mk Example.sid Example.prof "CS101" 1000
                 (toHex Example.seed) "A1" [User._id Example.ann]
                 Attendance.expired)) as [_ [Heq _]].
  - vm_compute. apply list_elem_of_singleton. reflexivity.
  - reflexivity.
  - exact Hwf.
  - reflexivity.
  - exact Heq.
Defined.

(** C4, as stated, fails for an identifier of the right length that is not
    hexadecimal: no session has it, and the answer is an internal fault, not
    [NotFound]. *)
Lemma non_hexadecimal_id_is_internal_fault :
  String.length "zzzzzzzzzzzzzzzzzzzzzzzz" = 24%nat
  /\ List.map Attendance._id (db Example.created) = [Example.sid]
  /\ getSessionDetails
       (Req.mk (Some Example.prof) Example.noBody
               "zzzzzzzzzzzzzzzzzzzzzzzz" None)
       Example.created
     = json 500 (Message "Error checking session existence")
  /\ json 500 (Message "Error checking session existence") <> NotFound.
Proof. vm_compute. repeat split; discriminate. Qed.

(** C10: when the requested identifier names a stored session that belongs
    to another faculty, [exportSessionToExcel] answers [NotFound], the answer
    it also gives when no session has the identifier, where
    [getSessionDetails] answers [Forbidden].  The owner of the session is not
    answered [NotFound]. *)
Theorem export_not_owned_is_NotFound (req : Req.t) (st : State)
    (faculty : ObjectId) :
  Req.user req = Some faculty ->
  String.length (Req.sessionId req) = 24%nat ->
  forallb (fun c => isHexDigit (toLower c))
          (list_ascii_of_string (Req.sessionId req)) = true ->
  let id := lowerCase (Req.sessionId req) in
  (exists d, d ∈ db st /\ Attendance._id d = id) ->
  (forall d, d ∈ db st -> Attendance._id d = id ->
             Attendance.faculty d <> faculty) ->
  exportSessionToExcel req st = NotFound
  /\ NotFound <> Forbidden
  /\ getSessionDetails req st = Forbidden
  /\ (forall st', (forall d, d ∈ db st' -> Attendance._id d <> id) ->
        exportSessionToExcel req st' = NotFound)
  /\ (forall st' d, wf st' -> d ∈ db st' -> Attendance._id d = id ->
        Attendance.faculty d = faculty ->
        exportSessionToExcel req st' <> NotFound).
Proof.
  intros Hu Hlen Hhex id (d & Hin & Hid) Hother.
  assert (castObjectId (Req.sessionId req) = Some id) as Hcast.
  { by apply castObjectId_Some. }
  split; [|split; [done|split; [|split]]].
  - unfold exportSessionToExcel. rewrite Hu, Hcast.
    by rewrite findOne_ownedBy_None.
  - by eapply getSessionDetails_other_owner.
  - intros st' Hnone. unfold exportSessionToExcel. rewrite Hu, Hcast.
    rewrite findOne_ownedBy_None; [done|].
    intros d' Hd' Hid'. by destruct (Hnone d' Hd').
  - intros st' d' Hwf Hd' Hid' Hfac. unfold exportSessionToExcel.
    rewrite Hu, Hcast, (findOne_ownedBy_Some _ _ _ d' Hwf Hd' Hid' Hfac).
    by destruct (validHeaderValue _).
Qed.

Lemma export_not_owned_is_NotFound_witness :
  Req.user (Req.mk (Some Example.other) Example.noBody Example.sid None)
    = Some Example.other
  /\ List.map (fun d => (Attendance._id d, Attendance.faculty d))
              (db Example.redeemed) = [(Example.sid, Example.prof)]
  /\ exportSessionToExcel
       (Req.mk (Some Example.other) Example.noBody Example.sid None)
       Example.redeemed = NotFound.
Proof.
  split; [reflexivity|]. split; [reflexivity|].
  refine (proj1 (export_not_owned_is_NotFound
           (Req.mk (Some Example.other) Example.noBody Example.sid None)
           Example.redeemed Example.other eq_refl eq_refl eq_refl _ _)).
  - eexists. split; [apply list_elem_of_here | reflexivity].
  - intros d Hd _. vm_compute in Hd.
    apply list_elem_of_singleton in Hd. subst d. vm_compute. discriminate.
Defined.

(** ** Faculty report: the date filter and the route *)

(** C9: the date range restricts the faculty report only when both
    [startDate] and [endDate] are given (truthy); with either one missing the
    report is the one of the same request without date bounds.  With both, the
    selected sessions are those created between the two bounds, inclusive. *)
Theorem date_filter_needs_both_bounds (req : Req.t) (st : State) :
  let startDate := Req.startDate (Req.body req) in
  let endDate := Req.endDate (Req.body req) in
  let subject := Req.subject (Req.body req) in
  (truthyDate startDate = false \/ truthyDate endDate = false ->
   getAttendanceReport req st = getAttendanceReport (withoutDates req) st
   /\ forall faculty d,
        reportQuery faculty subject startDate endDate d
        = reportQuery faculty subject None None d)
  /\ (truthyDate startDate = true -> truthyDate endDate = true ->
      forall faculty d,
        reportQuery faculty subject startDate endDate d = true <->
        reportQuery faculty subject None None d = true
        /\ date startDate <= Attendance.sessionDate d <= date endDate).
Proof.
  intros startDate endDate subject. split.
  - intros H.
    assert (truthyDate startDate && truthyDate endDate = false) as Hf.
    { destruct H as [-> | ->]; [done | apply andb_false_r]. }
    assert (forall faculty d,
              reportQuery faculty subject startDate endDate d
              = reportQuery faculty subject None None d) as Hq.
    { intros faculty d. unfold reportQuery. by rewrite Hf. }
    split; [|done].
    unfold getAttendanceReport, withoutDates. simpl.
    fold startDate endDate subject.
    destruct (Req.user req) as [faculty|]; [|done].
    unfold Attendance.find.
    by rewrite (List.filter_ext _ _ (Hq faculty)).
  - intros Hs He faculty d. unfold reportQuery. rewrite Hs, He. simpl.
    rewrite !andb_true_iff, !Z.leb_le. tauto.
Qed.

Lemma date_filter_needs_both_bounds_witness :
  truthyDate (Some (ofMillis 5000)) = true /\ truthyDate None = false
  /\ getAttendanceReport
       (Req.mk (Some Example.prof)
               (Req.mkBody None None (Plain None) (Some (ofMillis 5000)) None) "" None)
       Example.redeemed
     = getAttendanceReport
         (Req.mk (Some Example.prof) Example.noBody "" None) Example.redeemed.
Proof.
  split; [reflexivity|]. split; [reflexivity|].
  exact (proj1 (proj1 (date_filter_needs_both_bounds
                  (Req.mk (Some Example.prof)
                          (Req.mkBody None None (Plain None) (Some (ofMillis 5000)) None) "" None)
                  Example.redeemed) (or_intror eq_refl))).
Defined.

(** C8: the router registers the faculty report under GET [/report]; no POST
    route serves [/api/attendance/report], although the handler takes
    [subject], [startDate] and [endDate] from the request body (its result
    does not depend on the query string or the path parameters). *)
Theorem report_route_registered_as_GET :
  dispatch POST ["api"; "attendance"; "report"] = None
  /\ dispatch GET ["api"; "attendance"; "report"]
     = Some (mkRoute GET [Lit "report"] [auth; isFaculty] GetAttendanceReport)
  /\ forall user body sessionId sessionId' query query' st,
       getAttendanceReport (Req.mk user body sessionId query) st
       = getAttendanceReport (Req.mk user body sessionId' query') st.
Proof. repeat split. Qed.

(** ** JavaScript numbers: the ratio of a count to itself *)

Lemma roundHalfEven_exact d k : 0 < d -> JsNum.roundHalfEven (d * k) d = k.
Proof.
  intros Hd. unfold JsNum.roundHalfEven.
  rewrite (Z.mul_comm d k), Z.div_mul, Z.mod_mul by lia.
  simpl. destruct d; lia.
Qed.

Lemma div_self p : JsNum.div (JsNum.ofZ (Zpos p)) (JsNum.ofZ (Zpos p)) = 1%Q.
Proof.
  unfold JsNum.div, JsNum.ofZ, JsNum.RN, Qdiv, Qinv, Qmult, inject_Z. simpl.
  rewrite Pos.mul_1_l, Z.mul_1_r.
  unfold JsNum.roundPos, JsNum.ilog2.
  rewrite Z.sub_diag. simpl Z.max. rewrite Z.ltb_irrefl.
  change (Z.max 0 (52 - 0)) with 52. change (Z.max 0 (0 - 52)) with 0.
  rewrite Z.pow_0_r, Z.mul_1_r.
  rewrite roundHalfEven_exact by lia. reflexivity.
Qed.

Lemma percentage_full n :
  0 < n -> JsNum.percentage n n = 100%Q.
Proof.
  intros Hn. destruct n as [|p|p]; try lia.
  unfold JsNum.percentage. rewrite div_self. reflexivity.
Qed.

(** ** Insertion-ordered tables *)

Section TableFacts.
Context {V : Type}.
Implicit Types (t : list (string * V)) (k : string) (v : V).

Lemma get_set_eq k v t : get k (set k v t) = Some v.
Proof.
  induction t as [|[k' v'] rest IH]; simpl.
  - by rewrite String.eqb_refl.
  - destruct (String.eqb k' k) eqn:E; simpl.
    + by rewrite String.eqb_refl.
    + by rewrite E.
Qed.

Lemma get_set_ne k k' v t : k <> k' -> get k' (set k v t) = get k' t.
Proof.
  intros Hne. induction t as [|[k0 v0] rest IH]; simpl.
  - by apply String.eqb_neq in Hne as ->.
  - destruct (String.eqb k0 k) eqn:E; simpl.
    + apply String.eqb_eq in E. subst k0.
      by apply String.eqb_neq in Hne as ->.
    + by rewrite IH.
Qed.

Lemma get_set k k' v t :
  get k' (set k v t) = if String.eqb k k' then Some v else get k' t.
Proof.
  destruct (String.eqb k k') eqn:E.
  - apply String.eqb_eq in E. subst. apply get_set_eq.
  - apply String.eqb_neq in E. by apply get_set_ne.
Qed.

Lemma get_Some_elem k v t : get k t = Some v -> (k, v) ∈ t.
Proof.
  induction t as [|[k' v'] rest IH]; simpl; [done|].
  destruct (String.eqb k' k) eqn:E.
  - apply String.eqb_eq in E. intros [= ->]. subst. apply list_elem_of_here.
  - intros H. apply list_elem_of_further. auto.
Qed.

Lemma get_None_keys k t : get k t = None <-> k ∉ keys t.
Proof.
  induction t as [|[k' v'] rest IH]; simpl.
  - split; [intros _; apply not_elem_of_nil | done].
  - rewrite not_elem_of_cons.
    destruct (String.eqb k' k) eqn:E.
    + apply String.eqb_eq in E. split; [done|]. intros [? _]. congruence.
    + apply String.eqb_neq in E. rewrite IH. split; [|tauto].
      intros H. split; [congruence | done].
Qed.

Lemma keys_set k v t :
  keys (set k v t) = if get k t is Some _ then keys t else keys t ++ [k].
Proof.
  induction t as [|[k' v'] rest IH]; simpl; [done|].
  destruct (String.eqb k' k) eqn:E; simpl.
  - apply String.eqb_eq in E. by subst.
  - rewrite IH. by destruct (get k rest).
Qed.

Lemma NoDup_keys_set k v t : NoDup (keys t) -> NoDup (keys (set k v t)).
Proof.
  intros H. rewrite keys_set. destruct (get k t) eqn:E; [done|].
  apply get_None_keys in E. apply NoDup_app. split; [done|].
  split; [|apply NoDup_singleton].
  intros x Hx Hx'. apply list_elem_of_singleton in Hx'. by subst.
Qed.

Lemma elem_get k v t : NoDup (keys t) -> (k, v) ∈ t -> get k t = Some v.
Proof.
  induction t as [|[k' v'] rest IH]; simpl; intros Hnd Hin.
  - by apply elem_of_nil in Hin.
  - apply NoDup_cons in Hnd as [Hk Hnd].
    apply elem_of_cons in Hin as [[= -> ->]|Hin].
    + by rewrite String.eqb_refl.
    + destruct (String.eqb k' k) eqn:E; [|auto].
      apply String.eqb_eq in E. subst k'. exfalso. apply Hk.
      unfold keys. apply list_elem_of_In, in_map_iff. exists (k, v).
      split; [done | by apply list_elem_of_In].
Qed.

End TableFacts.

(** ** Student report *)

Lemma classesOf_app k rs1 rs2 :
  classesOf k (rs1 ++ rs2) = (classesOf k rs1 + classesOf k rs2)%nat.
Proof. unfold classesOf. by rewrite List.filter_app, List.length_app. Qed.

Lemma classesOf_snoc k rs r :
  classesOf k (rs ++ [r])
  = if String.eqb (Attendance.subject r) k then S (classesOf k rs)
    else classesOf k rs.
Proof.
  rewrite classesOf_app. unfold classesOf at 2. simpl.
  destruct (String.eqb (Attendance.subject r) k); simpl; lia.
Qed.

Lemma length_filter_insertDesc (p : Attendance.doc -> bool) d l :
  List.length (List.filter p (insertDesc d l))
  = List.length (List.filter p (d :: l)).
Proof.
  induction l as [|x rest IH]; [done|]. simpl in *.
  destruct (Attendance.sessionDate x <=? Attendance.sessionDate d); [done|].
  simpl. destruct (p x), (p d); simpl in *; lia.
Qed.

Lemma length_filter_sortDesc (p : Attendance.doc -> bool) l :
  List.length (List.filter p (sortDesc l)) = List.length (List.filter p l).
Proof.
  induction l as [|x rest IH]; [done|]. simpl.
  rewrite length_filter_insertDesc. simpl. destruct (p x); simpl; lia.
Qed.

Lemma addClass_step acc seen r :
  NoDup (keys acc) ->
  (forall k, get k acc = classEntry k seen) ->
  NoDup (keys (addClass acc r))
  /\ forall k, get k (addClass acc r) = classEntry k (seen ++ [r]).
Proof.
  intros Hnd Hacc. unfold addClass.
  destruct (inherited (Attendance.subject r)) eqn:Hinh.
  - split; [done|]. intros k. rewrite Hacc. unfold classEntry.
    rewrite classesOf_snoc.
    destruct (String.eqb (Attendance.subject r) k) eqn:E; [|done].
    apply String.eqb_eq in E. subst k. by rewrite Hinh.
  - set (subject := Attendance.subject r) in *.
    set (report := match get subject acc with
                   | None => set subject (StudentReport.mk 0 0 0%Q) acc
                   | Some _ => acc
                   end).
    assert (NoDup (keys report)) as Hnd'.
    { unfold report. destruct (get subject acc); [done|].
      by apply NoDup_keys_set. }
    assert (exists e, get subject report = Some e
              /\ StudentReport.totalClasses e = classesOf subject seen
              /\ StudentReport.attended e = classesOf subject seen) as (e & He & Ht & Ha).
    { unfold report. destruct (get subject acc) as [e|] eqn:E.
      - exists e. split; [done|]. rewrite Hacc in E. unfold classEntry in E.
        rewrite Hinh in E. destruct (classesOf subject seen); [done|].
        by injection E as <-.
      - eexists. rewrite get_set_eq. split; [done|].
        rewrite Hacc in E. unfold classEntry in E. rewrite Hinh in E.
        by destruct (classesOf subject seen). }
    assert (forall k, k <> subject -> get k report = get k acc) as Hother.
    { intros k Hk. unfold report. destruct (get subject acc); [done|].
      by apply get_set_ne. }
    rewrite He. split; [by apply NoDup_keys_set|].
    intros k. rewrite get_set. unfold classEntry.
    rewrite classesOf_snoc. fold subject.
    destruct (String.eqb subject k) eqn:E.
    + apply String.eqb_eq in E. subst k. rewrite Hinh, Ht, Ha.
      by rewrite percentage_full by lia.
    + apply String.eqb_neq in E. rewrite Hother by done. by rewrite Hacc.
Qed.

Lemma fold_addClass rs acc seen :
  NoDup (keys acc) ->
  (forall k, get k acc = classEntry k seen) ->
  NoDup (keys (fold_left addClass rs acc))
  /\ forall k, get k (fold_left addClass rs acc) = classEntry k (seen ++ rs).
Proof.
  revert acc seen. induction rs as [|r rs IH]; intros acc seen Hnd Hacc.
  - by rewrite app_nil_r.
  - simpl. destruct (addClass_step acc seen r Hnd Hacc) as [Hnd' Hacc'].
    destruct (IH _ _ Hnd' Hacc') as [? H]. split; [done|].
    intros k. by rewrite H, <- app_assoc.
Qed.

Lemma filter_filter {A} (p q : A -> bool) l :
  List.filter p (List.filter q l) = List.filter (fun x => q x && p x) l.
Proof.
  induction l as [|x rest IH]; [done|]. simpl.
  destruct (q x); simpl; [|done]. destruct (p x); by rewrite IH.
Qed.

Lemma length_filter_pos {A} (p : A -> bool) l :
  (0 < List.length (List.filter p l))%nat -> exists x, x ∈ l /\ p x = true.
Proof.
  induction l as [|x rest IH]; simpl; [lia|].
  destruct (p x) eqn:E.
  - intros _. exists x. split; [apply list_elem_of_here | done].
  - intros H. destruct (IH H) as (y & Hy & Hp).
    exists y. split; [by apply list_elem_of_further | done].
Qed.

(** C5: in the student report every listed subject has [totalClasses] equal
    to [attended], both being the number of stored sessions of that subject
    whose redeemer set contains the student, at least one, and an
    [attendancePercentage] of exactly 100. *)
Theorem student_report_always_full (req : Req.t) (st : State)
    (student : ObjectId) :
  Req.user req = Some student ->
  exists report,
    getStudentAttendance req st = json 200 (StudentReportBody report)
    /\ NoDup (keys report)
    /\ forall subject e, (subject, e) ∈ report ->
         let n := List.length
                    (List.filter
                       (fun d => includes student (Attendance.markedStudents d)
                                 && String.eqb (Attendance.subject d) subject)
                       (db st)) in
         StudentReport.totalClasses e = n
         /\ StudentReport.attended e = n
         /\ StudentReport.totalClasses e = StudentReport.attended e
         /\ (1 <= n)%nat
         /\ StudentReport.attendancePercentage e = 100%Q.
Proof.
  intros Hu. unfold getStudentAttendance. rewrite Hu.
  set (q := studentQuery student (Req.querySubject req)).
  set (rs := sortDesc (Attendance.find q (db st))).
  destruct (fold_addClass rs [] []) as [Hnd Hget];
    [apply NoDup_nil_2
    | intros k; unfold classEntry; by destruct (inherited k) |].
  simpl in Hget.
  eexists. split; [done|]. split; [done|].
  intros subject e Hin. cbv zeta.
  match goal with |- context [List.length ?l] => set (n := List.length l) end.
  apply (elem_get _ _ _ Hnd) in Hin. rewrite Hget in Hin.
  unfold classEntry in Hin. destruct (inherited subject); [done|].
  destruct (classesOf subject rs) as [|m] eqn:Hm; [done|].
  injection Hin as <-. simpl.
  assert (S m = n) as <-; [|repeat split; lia].
  rewrite <- Hm. unfold classesOf, rs, Attendance.find, n.
  rewrite length_filter_sortDesc, filter_filter.
  assert (truthy (Req.querySubject req) = true ->
          subject = str (Req.querySubject req)) as Hsub.
  { intros Ht.
    destruct (length_filter_pos
                (fun d => String.eqb (Attendance.subject d) subject)
                (List.filter q (db st))) as (d & Hd & Hp).
    { unfold classesOf, rs, Attendance.find in Hm.
      rewrite length_filter_sortDesc in Hm. lia. }
    apply list_elem_of_In, filter_In in Hd as [_ Hq].
    unfold q, studentQuery in Hq. rewrite Ht in Hq.
    apply andb_true_iff in Hq as [_ Hq].
    apply String.eqb_eq in Hq, Hp. congruence. }
  f_equal. apply List.filter_ext. intros d. unfold q, studentQuery.
  destruct (truthy (Req.querySubject req)); [|by rewrite andb_true_r].
  rewrite <- Hsub by done.
  by destruct (includes _ _), (String.eqb _ _).
Qed.

Lemma student_report_always_full_witness :
  Req.user (Req.mk (Some (User._id Example.ann)) Example.noBody "" None)
    = Some (User._id Example.ann)
  /\ getStudentAttendance
       (Req.mk (Some (User._id Example.ann)) Example.noBody "" None)
       Example.redeemed
     = json 200 (StudentReportBody [("CS101", StudentReport.mk 1 1 100%Q)])
  /\ exists report,
       getStudentAttendance
         (Req.mk (Some (User._id Example.ann)) Example.noBody "" None)
         Example.redeemed
       = json 200 (StudentReportBody report)
       /\ NoDup (keys report).
Proof.
  split; [reflexivity|]. split; [reflexivity|].
  destruct (student_report_always_full
              (Req.mk (Some (User._id Example.ann)) Example.noBody "" None)
              Example.redeemed (User._id Example.ann) eq_refl)
    as (report & Heq & Hnd & _).
  exists report. split; [exact Heq | exact Hnd].
Defined.

(** ** JavaScript numbers: rounding error *)

Lemma pow2_Qpower k : (JsNum.pow2 k == 2 ^ k)%Q.
Proof.
  unfold JsNum.pow2.
  destruct (0 <=? k) eqn:Hk; [apply Z.leb_le in Hk | apply Z.leb_gt in Hk].
  - by apply Zpower_Qpower.
  - transitivity (/ inject_Z (2 ^ (- k)))%Q.
    + assert (0 < 2 ^ (- k)) by (apply Z.pow_pos_nonneg; lia).
      destruct (2 ^ (- k)) as [|p|p] eqn:E; try lia. reflexivity.
    + rewrite (Zpower_Qpower 2 (- k)) by lia. rewrite <- Qpower_opp.
      replace (- - k) with k by lia. reflexivity.
Qed.

Lemma roundHalfEven_bound N D :
  0 < D -> 2 * Z.abs (JsNum.roundHalfEven N D * D - N) <= D.
Proof.
  intros HD. unfold JsNum.roundHalfEven.
  pose proof (Z.div_mod N D ltac:(lia)) as Hdm.
  pose proof (Z.mod_pos_bound N D HD) as Hr.
  destruct (Z.compare_spec (2 * (N mod D)) D) as [H|H|H];
    [destruct (Z.even (N / D))| |]; nia.
Qed.

Lemma Qpower2_pos k : (0 < 2 ^ k)%Q.
Proof. by apply Qpower_0_lt. Qed.

Lemma Qdiv_le_cross a b c d :
  (0 < b -> 0 < d -> a * d <= c * b -> a / b <= c / d)%Q.
Proof.
  intros Hb Hd H. apply Qle_shift_div_l; [done|].
  assert (a / b * d == (a * d) / b)%Q as -> by (field; lra).
  by apply Qle_shift_div_r.
Qed.

Lemma inject_pow2 k : 0 <= k -> (inject_Z (2 ^ k) == 2 ^ k)%Q.
Proof. intros Hk. by apply Zpower_Qpower. Qed.

Lemma ilog2_lower n d : 0 < n -> (2 ^ JsNum.ilog2 n d <= n # d)%Q.
Proof.
  intros Hn. unfold JsNum.ilog2.
  set (a := Z.log2 n). set (b := Z.log2 (Zpos d)).
  assert (0 <= a) as Ha by apply Z.log2_nonneg.
  assert (0 <= b) as Hb by apply Z.log2_nonneg.
  destruct (Z.log2_spec n Hn) as [Hlo _]. fold a in Hlo.
  destruct (Z.log2_spec (Zpos d) ltac:(lia)) as [_ Hhi]. fold b in Hhi.
  rewrite (Qmake_Qdiv n d).
  assert (0 < inject_Z (Zpos d))%Q as Hd by (unfold Qlt; simpl; lia).
  destruct (n * 2 ^ Z.max 0 (- (a - b)) <? Zpos d * 2 ^ Z.max 0 (a - b)) eqn:Ht;
    [clear Ht | apply Z.ltb_ge in Ht].
  - replace (a - b - 1) with (a - (b + 1)) by lia.
    rewrite Qpower_minus by done.
    apply Qdiv_le_cross; [apply Qpower2_pos | done |].
    rewrite <- !inject_pow2 by lia. rewrite <- !inject_Z_mult, <- Zle_Qle. nia.
  - replace (a - b) with (Z.max 0 (a - b) - Z.max 0 (- (a - b))) at 1 by lia.
    rewrite Qpower_minus by done.
    apply Qdiv_le_cross; [apply Qpower2_pos | done |].
    rewrite <- !inject_pow2 by lia. rewrite <- !inject_Z_mult, <- Zle_Qle. lia.
Qed.

Lemma scaled_bound (m n d A B : Q) :
  (0 < d -> 0 < A -> 0 < B ->
   2 * (n * A) <= 2 * (m * (d * B)) + d * B ->
   2 * (m * (d * B)) <= 2 * (n * A) + d * B ->
   n / d - (B / A) * (1 # 2) <= m * (B / A)
   /\ m * (B / A) <= n / d + (B / A) * (1 # 2))%Q.
Proof.
  intros Hd HA HB Hlo Hhi.
  assert (0 < A * d)%Q as Hc by (apply Qmult_lt_0_compat; lra).
  assert ((n / d - B / A * (1 # 2)) * (A * d) == n * A - d * B * (1 # 2))%Q
    as E1 by (field; lra).
  assert (m * (B / A) * (A * d) == m * (d * B))%Q as E2 by (field; lra).
  assert ((n / d + B / A * (1 # 2)) * (A * d) == n * A + d * B * (1 # 2))%Q
    as E3 by (field; lra).
  split; apply (proj1 (Qmult_le_r _ _ (A * d)%Q Hc));
    rewrite ?E1, ?E2, ?E3; clear E1 E2 E3 Hc;
    revert Hlo Hhi; generalize (m * (d * B))%Q (n * A)%Q (d * B)%Q;
    intros; lra.
Qed.

Lemma roundPos_bound n d :
  0 < n ->
  ((n # d) * (1 - eps) <= JsNum.roundPos n d
   /\ JsNum.roundPos n d <= (n # d) * (1 + eps))%Q.
Proof.
  intros Hn. unfold JsNum.roundPos.
  pose proof (ilog2_lower n d Hn) as Hlog.
  set (e := JsNum.ilog2 n d) in *.
  set (a := Z.max 0 (52 - e)). set (b := Z.max 0 (e - 52)).
  set (m := JsNum.roundHalfEven (n * 2 ^ a) (Zpos d * 2 ^ b)).
  assert (0 < 2 ^ a) as Ha by (apply Z.pow_pos_nonneg; lia).
  assert (0 < 2 ^ b) as Hb by (apply Z.pow_pos_nonneg; lia).
  pose proof (roundHalfEven_bound (n * 2 ^ a) (Zpos d * 2 ^ b) ltac:(lia)) as Hm.
  fold m in Hm.
  assert (2 * (n * 2 ^ a) <= 2 * (m * (Zpos d * 2 ^ b)) + Zpos d * 2 ^ b)
    as Hlo by lia.
  assert (2 * (m * (Zpos d * 2 ^ b)) <= 2 * (n * 2 ^ a) + Zpos d * 2 ^ b)
    as Hhi by lia.
  rewrite Zle_Qle in Hlo, Hhi.
  rewrite ?inject_Z_plus, ?inject_Z_mult, ?inject_pow2 in Hlo, Hhi by lia.
  rewrite Qred_correct, pow2_Qpower.
  assert (2 ^ (e - 52) == 2 ^ b / 2 ^ a)%Q as HH.
  { rewrite <- Qpower_minus by done. by replace (b - a) with (e - 52) by lia. }
  rewrite HH, (Qmake_Qdiv n d).
  destruct (scaled_bound (inject_Z m) (inject_Z n) (inject_Z (Zpos d))
                         (2 ^ a) (2 ^ b)) as [Hlo' Hhi'];
    [unfold Qlt; simpl; lia | apply Qpower2_pos | apply Qpower2_pos
    | exact Hlo | exact Hhi |].
  rewrite (Qmake_Qdiv n d) in Hlog.
  assert (2 ^ b / 2 ^ a * (1 # 2) == 2 ^ e * eps)%Q as Hhalf.
  { rewrite <- HH. replace (e - 52) with (e + -52) by lia.
    rewrite Qpower_plus by done.
    assert (2 ^ (-52) == 1 # 4503599627370496)%Q as -> by reflexivity.
    unfold eps. generalize (2 ^ e)%Q. intros x. ring. }
  rewrite Hhalf in Hlo', Hhi'.
  set (q := (inject_Z n / inject_Z (Zpos d))%Q) in *.
  assert (2 ^ e * eps <= q * eps)%Q.
  { apply Qmult_le_compat_r; [done | unfold eps; lra]. }
  revert H Hlo' Hhi'. generalize (2 ^ e * eps)%Q (inject_Z m * (2 ^ b / 2 ^ a))%Q.
  intros; split; unfold eps in *; lra.
Qed.

Lemma RN_bound q :
  (0 < q -> q * (1 - eps) <= JsNum.RN q /\ JsNum.RN q <= q * (1 + eps))%Q.
Proof.
  intros Hq. destruct q as [n d]. unfold JsNum.RN. simpl.
  destruct n as [|p|p]; try (unfold Qlt in Hq; simpl in Hq; lia).
  apply roundPos_bound. lia.
Qed.

Lemma percentage_rounds c t :
  0 < c <= 2 ^ 37 -> 0 < t ->
  exists n,
    JsNum.percentage c t = JsNum.ofFixed2 n
    /\ 2 * Z.abs (t * n - 10000 * c) <= t.
Proof.
  intros Hc Ht. unfold JsNum.percentage.
  set (q1 := JsNum.div (JsNum.ofZ c) (JsNum.ofZ t)).
  set (q2 := JsNum.mul q1 (JsNum.ofZ 100)).
  exists (JsNum.toFixed2 q2). split; [done|].
  set (C := inject_Z c). set (T := inject_Z t).
  assert (0 < C)%Q as HC by (unfold C, Qlt; simpl; lia).
  assert (0 < T)%Q as HT by (unfold T, Qlt; simpl; lia).
  assert (C <= inject_Z (2 ^ 37))%Q as HCmax by (unfold C; rewrite <- Zle_Qle; lia).
  set (r := (C / T)%Q).
  assert (0 < r)%Q as Hr by (apply Qlt_shift_div_l; lra).
  assert (r * T == C)%Q as HrT by (unfold r; field; lra).
  destruct (RN_bound r Hr) as [H1lo H1hi]. fold C T in H1lo, H1hi.
  change (JsNum.RN r) with q1 in H1lo, H1hi.
  assert (0 < q1)%Q as Hq1 by (unfold eps in *; lra).
  assert (0 < q1 * JsNum.ofZ 100)%Q as Hq100
    by (change (JsNum.ofZ 100) with 100%Q; lra).
  destruct (RN_bound _ Hq100) as [H2lo H2hi].
  change (JsNum.RN (q1 * JsNum.ofZ 100)) with q2 in H2lo, H2hi.
  unfold JsNum.toFixed2.
  set (n := Qfloor (q2 * 100 + (1 # 2))).
  pose proof (Qfloor_le (q2 * 100 + (1 # 2))) as Hnlo.
  pose proof (Qlt_floor (q2 * 100 + (1 # 2))) as Hnhi.
  fold n in Hnlo, Hnhi. rewrite inject_Z_plus in Hnhi.
  set (N := inject_Z n) in *.
  unfold JsNum.ofZ in *. change (inject_Z 100) with 100%Q in *.
  change (inject_Z 1) with 1%Q in *. unfold eps in *.
  change (inject_Z (2 ^ 37)) with 137438953472%Q in HCmax.
  set (k := (3 # 1000000000000)%Q).
  assert (N <= r * (10000 + k) + (1 # 2))%Q as Hup by (unfold k; lra).
  assert (r * (10000 - k) - (1 # 2) < N)%Q as Hdown by (unfold k; lra).
  assert (N * T <= (r * (10000 + k) + (1 # 2)) * T)%Q as Hup'
    by (apply Qmult_le_compat_r; lra).
  assert ((r * (10000 - k) - (1 # 2)) * T < N * T)%Q as Hdown'
    by (apply Qmult_lt_compat_r; lra).
  assert ((r * (10000 + k) + (1 # 2)) * T == C * (10000 + k) + (1 # 2) * T)%Q
    as E1 by (rewrite <- HrT; ring).
  assert ((r * (10000 - k) - (1 # 2)) * T == C * (10000 - k) - (1 # 2) * T)%Q
    as E2 by (rewrite <- HrT; ring).
  rewrite E1 in Hup'. rewrite E2 in Hdown'.
  assert (inject_Z (2 * (t * n)) == 2 * (N * T))%Q as E3
    by (rewrite !inject_Z_mult; unfold N, T; ring).
  assert (inject_Z (20000 * c + t + 1) == 20000 * C + T + 1)%Q as E4
    by (rewrite !inject_Z_plus, inject_Z_mult; unfold C, T; ring).
  assert (inject_Z (20000 * c - t - 1) == 20000 * C - T - 1)%Q as E5
    by (unfold Z.sub; rewrite !inject_Z_plus, !inject_Z_opp, inject_Z_mult;
        unfold C, T; ring).
  assert (inject_Z (2 * (t * n)) < inject_Z (20000 * c + t + 1))%Q as Zup.
  { rewrite E3, E4. clear -Hup' HCmax HC HT. revert Hup'.
    generalize (N * T)%Q. unfold k. intros x Hx. lra. }
  assert (inject_Z (20000 * c - t - 1) < inject_Z (2 * (t * n)))%Q as Zdown.
  { rewrite E3, E5. clear -Hdown' HCmax HC HT. revert Hdown'.
    generalize (N * T)%Q. unfold k. intros x Hx. lra. }
  rewrite <- Zlt_Qlt in Zup, Zdown. lia.
Qed.

Lemma roundedPercent_intro count total :
  (0 < count)%nat -> (0 < total)%nat ->
  roundedPercent count total
    (JsNum.percentage (Z.of_nat count) (Z.of_nat total)).
Proof.
  intros Hc Ht. split; [done|]. intros Hmax.
  apply percentage_rounds; lia.
Qed.

(** ** Faculty report: the aggregation *)

Lemma countStudent_step acc seen s :
  NoDup (keys acc) ->
  (forall u, get u acc = studentEntry u seen) ->
  NoDup (keys (countStudent acc s))
  /\ forall u, get u (countStudent acc s) = studentEntry u (seen ++ [s]).
Proof.
  intros Hnd Hacc. unfold countStudent.
  set (id := User._id s).
  set (students := match get id acc with
                   | None => set id (Agg.mkStudent (User.name s) (User.email s) 0) acc
                   | Some _ => acc
                   end).
  assert (NoDup (keys students)) as Hnd'.
  { unfold students. destruct (get id acc); [done|]. by apply NoDup_keys_set. }
  assert (forall u, u <> id -> get u students = get u acc) as Hother.
  { intros u Hu. unfold students. destruct (get id acc); [done|].
    by apply get_set_ne. }
  assert (exists a, get id students = Some a
            /\ Some (Agg.mkStudent (Agg.name a) (Agg.email a)
                                   (S (Agg.attendanceCount a)))
               = studentEntry id (seen ++ [s])) as (a & Ha & Hentry).
  { unfold studentEntry. rewrite List.filter_app. simpl.
    unfold isUser at 2. fold id. rewrite String.eqb_refl.
    unfold students. destruct (get id acc) as [a|] eqn:E.
    - exists a. split; [done|]. rewrite Hacc in E. unfold studentEntry in E.
      destruct (List.filter (isUser id) seen) as [|f rest]; [done|].
      injection E as <-. simpl. rewrite List.length_app. simpl.
      by rewrite Nat.add_1_r.
    - eexists. rewrite get_set_eq. split; [done|].
      rewrite Hacc in E. unfold studentEntry in E.
      by destruct (List.filter (isUser id) seen). }
  rewrite Ha. split; [by apply NoDup_keys_set|].
  intros u. rewrite get_set.
  destruct (String.eqb id u) eqn:E.
  - apply String.eqb_eq in E. by subst u.
  - apply String.eqb_neq in E. rewrite Hother by done. rewrite Hacc.
    unfold studentEntry. rewrite List.filter_app. simpl.
    unfold isUser at 3. fold id.
    apply String.eqb_neq in E. rewrite E. by rewrite app_nil_r.
Qed.

Lemma fold_countStudent ss acc seen :
  NoDup (keys acc) ->
  (forall u, get u acc = studentEntry u seen) ->
  NoDup (keys (fold_left countStudent ss acc))
  /\ forall u, get u (fold_left countStudent ss acc) = studentEntry u (seen ++ ss).
Proof.
  revert acc seen. induction ss as [|s ss IH]; intros acc seen Hnd Hacc.
  - by rewrite app_nil_r.
  - simpl. destruct (countStudent_step acc seen s Hnd Hacc) as [Hnd' Hacc'].
    destruct (IH _ _ Hnd' Hacc') as [? H]. split; [done|].
    intros u. by rewrite H, <- app_assoc.
Qed.

Lemma ofSubject_snoc k rs r :
  ofSubject k (rs ++ [r])
  = if String.eqb (Attendance.subject (record r)) k
    then ofSubject k rs ++ [r] else ofSubject k rs.
Proof.
  unfold ofSubject. rewrite List.filter_app. simpl.
  destruct (String.eqb _ _); [done | by rewrite app_nil_r].
Qed.

Lemma flat_snoc k rs r :
  flat k (rs ++ [r])
  = if String.eqb (Attendance.subject (record r)) k
    then flat k rs ++ students r else flat k rs.
Proof.
  unfold flat. rewrite ofSubject_snoc. destruct (String.eqb _ _); [|done].
  rewrite List.map_app, List.concat_app. simpl. by rewrite app_nil_r.
Qed.

Lemma datesOf_snoc rs r :
  datesOf (rs ++ [r])
  = {[ isoDate (Attendance.sessionDate (record r)) ]} ∪ datesOf rs.
Proof.
  unfold datesOf. rewrite List.map_app. simpl.
  apply set_eq. intros x.
  rewrite elem_of_union, !elem_of_list_to_set, elem_of_app, elem_of_singleton.
  rewrite list_elem_of_singleton. tauto.
Qed.

Lemma addRecord_step report seen r :
  aggregated report seen -> aggregated (addRecord report r) (seen ++ [r]).
Proof.
  intros [Hnd Hrep]. unfold addRecord.
  set (subject := Attendance.subject (record r)).
  set (report' := match get subject report with
                  | None => set subject (Agg.mk ∅ []) report
                  | Some _ => report
                  end).
  assert (NoDup (keys report')) as Hnd'.
  { unfold report'. destruct (get subject report); [done|].
    by apply NoDup_keys_set. }
  assert (forall k, k <> subject -> get k report' = get k report) as Hother.
  { intros k Hk. unfold report'. destruct (get subject report); [done|].
    by apply get_set_ne. }
  assert (exists data, get subject report' = Some data
            /\ Agg.totalSessions data = datesOf (ofSubject subject seen)
            /\ NoDup (keys (Agg.students data))
            /\ forall u, get u (Agg.students data)
                         = studentEntry u (flat subject seen))
    as (data & Hdata & Hdates & Hnds & Hst).
  { unfold report'. specialize (Hrep subject).
    destruct (get subject report) as [data|] eqn:E.
    - exists data. by destruct Hrep as (_ & ? & ? & ?).
    - eexists. rewrite get_set_eq. split; [done|]. simpl.
      unfold flat. rewrite Hrep. simpl. repeat split. apply NoDup_nil_2. }
  rewrite Hdata. split; [by apply NoDup_keys_set|].
  intros k. rewrite get_set.
  destruct (String.eqb subject k) eqn:E.
  - apply String.eqb_eq in E. subst k.
    destruct (fold_countStudent (students r) _ _ Hnds Hst) as [Hnd2 Hget2].
    rewrite ofSubject_snoc, flat_snoc. fold subject.
    rewrite String.eqb_refl. simpl. repeat split.
    + by destruct (ofSubject subject seen).
    + by rewrite datesOf_snoc, Hdates.
    + done.
    + done.
  - pose proof E as E'. apply String.eqb_neq in E'.
    rewrite Hother by done. specialize (Hrep k).
    destruct (get k report) as [d|];
      rewrite ofSubject_snoc, ?flat_snoc; fold subject; by rewrite E.
Qed.

Lemma aggregate_spec rs : aggregated (aggregate rs) rs.
Proof.
  unfold aggregate.
  assert (forall rs acc seen, aggregated acc seen ->
            aggregated (fold_left addRecord rs acc) (seen ++ rs)) as H.
  { clear. induction rs as [|r rs IH]; intros acc seen Hacc; simpl.
    - by rewrite app_nil_r.
    - replace (seen ++ r :: rs) with ((seen ++ [r]) ++ rs)
        by (by rewrite <- app_assoc).
      apply IH. by apply addRecord_step. }
  apply (H rs [] []). split; [apply NoDup_nil_2 | done].
Qed.

Lemma findUser_id us id u : findUser us id = Some u -> User._id u = id.
Proof.
  unfold findUser. intros H. apply List.find_some in H as [_ H].
  by apply String.eqb_eq in H.
Qed.

Lemma populate_ids_sub us ms x :
  x ∈ List.map User._id (omap (findUser us) ms) -> x ∈ ms.
Proof.
  induction ms as [|m rest IH]; simpl; [done|].
  destruct (findUser us m) as [u|] eqn:E; simpl.
  - apply findUser_id in E. rewrite E. rewrite !elem_of_cons. tauto.
  - intros H. apply list_elem_of_further. auto.
Qed.

Lemma populate_NoDup us ms :
  NoDup ms -> NoDup (List.map User._id (omap (findUser us) ms)).
Proof.
  induction 1 as [|m rest Hm Hnd IH]; simpl; [apply NoDup_nil_2|].
  destruct (findUser us m) as [u|] eqn:E; simpl; [|done].
  apply findUser_id in E. rewrite E. apply NoDup_cons. split; [|done].
  intros Hin. by apply populate_ids_sub in Hin.
Qed.

Lemma elem_of_insertDesc x d l : x ∈ insertDesc d l <-> x = d \/ x ∈ l.
Proof.
  induction l as [|y rest IH]; simpl.
  - by rewrite elem_of_cons.
  - destruct (Attendance.sessionDate y <=? Attendance.sessionDate d).
    + by rewrite elem_of_cons.
    + rewrite !elem_of_cons, IH. tauto.
Qed.

Lemma elem_of_sortDesc x l : x ∈ sortDesc l <-> x ∈ l.
Proof.
  induction l as [|y rest IH]; simpl; [done|].
  by rewrite elem_of_insertDesc, elem_of_cons, IH.
Qed.

Lemma count_in_record u ss :
  NoDup (List.map User._id ss) ->
  List.length (List.filter (isUser u) ss)
  = if existsb (isUser u) ss then 1%nat else 0%nat.
Proof.
  induction ss as [|s rest IH]; simpl; [done|].
  intros Hnd. apply NoDup_cons in Hnd as [Hs Hnd]. specialize (IH Hnd).
  destruct (isUser u s) eqn:E; simpl; [|done].
  apply String.eqb_eq in E.
  destruct (existsb (isUser u) rest) eqn:Hex; [|by rewrite IH].
  exfalso. apply Hs. apply existsb_exists in Hex as (s' & Hin & Hs').
  apply String.eqb_eq in Hs'. rewrite E, <- Hs'.
  apply list_elem_of_In, in_map, Hin.
Qed.

Lemma count_in_sessions u (sessions : list Populated) :
  (forall r, r ∈ sessions -> NoDup (List.map User._id (students r))) ->
  List.length (List.filter (isUser u) (List.concat (List.map students sessions)))
  = List.length (List.filter (attends u) sessions).
Proof.
  induction sessions as [|r rest IH]; simpl; [done|]. intros Hnd.
  rewrite List.filter_app, List.length_app, IH
    by (intros; apply Hnd; by apply list_elem_of_further).
  rewrite count_in_record by (apply Hnd; apply list_elem_of_here).
  unfold attends at 2. by destruct (existsb (isUser u) (students r)).
Qed.

Lemma studentEntry_Some u seen a :
  studentEntry u seen = Some a ->
  Agg.attendanceCount a = List.length (List.filter (isUser u) seen)
  /\ (0 < Agg.attendanceCount a)%nat.
Proof.
  unfold studentEntry. destruct (List.filter (isUser u) seen); [done|].
  intros [= <-]. simpl. split; [done | lia].
Qed.

Lemma studentEntry_None u (sessions : list Populated) :
  studentEntry u (List.concat (List.map students sessions)) = None <->
  forall r, r ∈ sessions -> attends u r = false.
Proof.
  unfold studentEntry.
  destruct (List.filter (isUser u) _) as [|s l] eqn:E.
  - split; [|done]. intros _ r Hr. unfold attends.
    apply not_true_iff_false. intros Hex.
    apply existsb_exists in Hex as (s & Hs & Hu).
    assert (In s (List.filter (isUser u) (List.concat (List.map students sessions))))
      as Hin; [|by rewrite E in Hin].
    apply filter_In. split; [|done]. apply in_concat.
    exists (students r). split; [|done]. apply in_map. by apply list_elem_of_In.
  - split; [done|]. intros H. exfalso.
    assert (In s (List.filter (isUser u) (List.concat (List.map students sessions))))
      as Hin by (rewrite E; by left).
    apply filter_In in Hin as [Hin Hu]. apply in_concat in Hin as (ss & Hss & Hs).
    apply in_map_iff in Hss as (r & <- & Hr).
    specialize (H r (proj2 (list_elem_of_In _ _) Hr)).
    unfold attends in H.
    assert (existsb (isUser u) (students r) = true); [|congruence].
    apply existsb_exists. eauto.
Qed.

Lemma formatReport_elem report subject e :
  (subject, e) ∈ formatReport report ->
  subject <> "__proto__"
  /\ exists data, (subject, data) ∈ report /\ e = formatSubject data.
Proof.
  unfold formatReport. intros H.
  apply list_elem_of_fmap in H as ([k data] & [= -> ->] & H).
  apply list_elem_of_In, filter_In in H as [H Hk].
  apply negb_true_iff, String.eqb_neq in Hk.
  split; [done|]. exists data. split; [by apply list_elem_of_In | done].
Qed.

Lemma formatReport_elem_2 report subject data :
  subject <> "__proto__" -> (subject, data) ∈ report ->
  (subject, formatSubject data) ∈ formatReport report.
Proof.
  intros Hk H. unfold formatReport.
  apply list_elem_of_fmap. exists (subject, data). split; [done|].
  apply list_elem_of_In, filter_In. split; [by apply list_elem_of_In|].
  by apply negb_true_iff, String.eqb_neq.
Qed.

Lemma formatReport_keys report :
  NoDup (keys report) -> NoDup (keys (formatReport report)).
Proof.
  unfold formatReport, keys.
  induction report as [|[k data] rest IH]; simpl; [done|].
  intros Hnd. apply NoDup_cons in Hnd as [Hk Hnd].
  destruct (negb (String.eqb k "__proto__")); simpl; [|auto].
  apply NoDup_cons. split; [|auto].
  intros Hin. apply Hk.
  apply list_elem_of_fmap in Hin as ([k' e] & -> & Hin).
  apply list_elem_of_fmap in Hin as ([k'' d] & [= -> ->] & Hin).
  apply list_elem_of_In, filter_In in Hin as [Hin _].
  apply list_elem_of_fmap. exists (k'', d).
  split; [done | by apply list_elem_of_In].
Qed.

Lemma Forall2_keys_map {V B} (P : string -> B -> Prop) (g : string * V -> B)
    (t : list (string * V)) :
  (forall k v, (k, v) ∈ t -> P k (g (k, v))) ->
  Forall2 P (keys t) (List.map g t).
Proof.
  induction t as [|[k v] rest IH]; intros H; simpl; constructor.
  - apply H, list_elem_of_here.
  - apply IH. intros k' v' Hin. by apply H, list_elem_of_further.
Qed.

(** What an entry of the formatted report says about the records it was
    computed from. *)
Lemma report_entry_spec rs subject e :
  (forall r, r ∈ rs -> NoDup (List.map User._id (students r))) ->
  (subject, e) ∈ formatReport (aggregate rs) ->
  FacultyReport.totalSessions e = size (datesOf (ofSubject subject rs))
  /\ (1 <= FacultyReport.totalSessions e)%nat
  /\ exists ids,
       NoDup ids
       /\ (forall u, u ∈ ids <->
             exists r, r ∈ ofSubject subject rs /\ attends u r = true)
       /\ Forall2
            (fun u row =>
               FacultyReport.attendanceCount row
               = List.length (List.filter (attends u) (ofSubject subject rs))
               /\ roundedPercent
                    (FacultyReport.attendanceCount row)
                    (FacultyReport.totalSessions e)
                    (FacultyReport.attendancePercentage row))
            ids (FacultyReport.students e).
Proof.
  intros Hnd Hin.
  apply formatReport_elem in Hin as (_ & data & Hin & ->).
  destruct (aggregate_spec rs) as [Hkeys Hrep].
  apply (elem_get _ _ _ Hkeys) in Hin. specialize (Hrep subject).
  rewrite Hin in Hrep. destruct Hrep as (Hne & Hdates & Hnds & Hst).
  set (sessions := ofSubject subject rs) in *.
  assert (forall r, r ∈ sessions -> NoDup (List.map User._id (students r)))
    as Hnd'.
  { intros r Hr. apply Hnd. unfold sessions, ofSubject in Hr.
    apply list_elem_of_In, filter_In in Hr as [Hr _].
    by apply list_elem_of_In. }
  assert (1 <= size (datesOf sessions))%nat as Hpos.
  { destruct sessions as [|r l] eqn:E; [done|].
    destruct (size (datesOf (r :: l))) eqn:Hsize; [|lia].
    apply size_empty_inv in Hsize.
    assert (isoDate (Attendance.sessionDate (record r)) ∈ datesOf (r :: l)) as H.
    { unfold datesOf. simpl. apply elem_of_union_l, elem_of_singleton. done. }
    apply Hsize in H. by apply elem_of_empty in H. }
  simpl. rewrite Hdates. split; [done|]. split; [done|].
  - exists (keys (Agg.students data)). split; [done|]. split.
    + intros u. specialize (Hst u). unfold flat in Hst. fold sessions in Hst.
      pose proof (studentEntry_None u sessions) as HNone.
      destruct (get u (Agg.students data)) as [a|] eqn:Hget.
      * split.
        -- intros _. destruct (existsb (attends u) sessions) eqn:Hex.
           ++ apply existsb_exists in Hex as (r & Hr & Ha).
              exists r. split; [by apply list_elem_of_In | done].
           ++ assert (studentEntry u (List.concat (List.map students sessions))
                      = None); [|congruence].
              apply HNone. intros r Hr. apply not_true_iff_false. intros Ha.
              assert (existsb (attends u) sessions = true); [|congruence].
              apply existsb_exists. exists r.
              split; [by apply list_elem_of_In | done].
        -- intros _. apply get_Some_elem in Hget. unfold keys.
           apply list_elem_of_fmap. by exists (u, a).
      * split.
        -- intros Hu. by apply get_None_keys in Hget.
        -- intros (r & Hr & Ha). symmetry in Hst.
           rewrite (proj1 HNone Hst r Hr) in Ha. done.
    + apply Forall2_keys_map. intros u a Hu. simpl.
      apply (elem_get _ _ _ Hnds) in Hu. rewrite Hst in Hu.
      apply studentEntry_Some in Hu as [Hu Hcount]. split.
      * rewrite Hu. by apply count_in_sessions.
      * apply roundedPercent_intro; lia.
Qed.

(** ** Faculty report *)

Lemma get_aggregate_Some rs r :
  r ∈ rs ->
  exists data, (Attendance.subject (record r), data) ∈ aggregate rs.
Proof.
  intros Hr. destruct (aggregate_spec rs) as [_ Hrep].
  specialize (Hrep (Attendance.subject (record r))).
  destruct (get _ (aggregate rs)) as [data|] eqn:E.
  - exists data. by apply get_Some_elem.
  - exfalso.
    assert (r ∈ ofSubject (Attendance.subject (record r)) rs) as Hin.
    { unfold ofSubject. apply list_elem_of_In, filter_In.
      split; [by apply list_elem_of_In | apply String.eqb_refl]. }
    rewrite Hrep in Hin. by apply elem_of_nil in Hin.
Qed.

(** *** The report in terms of the stored sessions *)

Lemma ofSubject_populate subject us ds :
  ofSubject subject (List.map (populate us) ds)
  = List.map (populate us)
      (List.filter (fun d => String.eqb (Attendance.subject d) subject) ds).
Proof.
  unfold ofSubject. induction ds as [|d rest IH]; [done|]. simpl.
  destruct (String.eqb (Attendance.subject d) subject); simpl; by rewrite IH.
Qed.

Lemma flat_populate subject us ds :
  flat subject (List.map (populate us) ds)
  = omap (findUser us)
      (List.concat
         (List.map Attendance.markedStudents
            (List.filter
               (fun d => String.eqb (Attendance.subject d) subject) ds))).
Proof.
  unfold flat. rewrite ofSubject_populate.
  induction (List.filter _ ds) as [|d rest IH]; [done|].
  simpl. by rewrite omap_app, IH.
Qed.

Lemma count_populated us (id : ObjectId) (entries : list ObjectId) :
  List.length (List.filter (isUser id) (omap (findUser us) entries))
  = match findUser us id with
    | Some _ => List.length (List.filter (String.eqb id) entries)
    | None => 0%nat
    end.
Proof.
  induction entries as [|x rest IH]; csimpl.
  - by destruct (findUser us id).
  - destruct (findUser us x) as [u|] eqn:Hx; csimpl.
    + pose proof (findUser_id _ _ _ Hx) as Hid.
      assert (isUser id u = String.eqb id x) as ->.
      { unfold isUser. rewrite Hid. apply String.eqb_sym. }
      destruct (String.eqb id x) eqn:E; csimpl.
      * apply String.eqb_eq in E. rewrite <- E in Hx.
        rewrite Hx in IH |- *. by rewrite IH.
      * rewrite IH. by destruct (findUser us id).
    + rewrite IH. destruct (String.eqb id x) eqn:E.
      * apply String.eqb_eq in E. subst x. by rewrite Hx.
      * by destruct (findUser us id).
Qed.

Lemma first_populated us (id : ObjectId) entries u rest :
  List.filter (isUser id) (omap (findUser us) entries) = u :: rest ->
  findUser us id = Some u /\ id ∈ entries.
Proof.
  intros H.
  assert (In u (List.filter (isUser id) (omap (findUser us) entries))) as Hin
    by (rewrite H; by left).
  apply filter_In in Hin as [Hin Hid]. apply String.eqb_eq in Hid.
  apply list_elem_of_In, list_elem_of_omap in Hin as (x & Hx & Hfind).
  pose proof (findUser_id _ _ _ Hfind) as Hxid. rewrite Hid in Hxid.
  by subst x.
Qed.

Lemma sum_insertDesc (f : Attendance.doc -> nat) d l :
  list_sum (List.map f (insertDesc d l)) = (f d + list_sum (List.map f l))%nat.
Proof.
  induction l as [|x rest IH]; [done|]. simpl.
  destruct (_ <=? _); simpl; [done|]. rewrite IH. lia.
Qed.

Lemma sum_sortDesc (f : Attendance.doc -> nat) l :
  list_sum (List.map f (sortDesc l)) = list_sum (List.map f l).
Proof.
  unfold sortDesc. induction l as [|d rest IH]; [done|]. simpl.
  by rewrite sum_insertDesc, IH.
Qed.

Lemma count_entries (p : Attendance.doc -> bool) (id : ObjectId) l :
  List.length
    (List.filter (String.eqb id)
       (List.concat (List.map Attendance.markedStudents (List.filter p l))))
  = list_sum
      (List.map
         (fun d => if p d
                   then List.length
                          (List.filter (String.eqb id)
                                       (Attendance.markedStudents d))
                   else 0%nat)
         l).
Proof.
  induction l as [|d rest IH]; [done|]. simpl.
  destruct (p d); simpl; [|done].
  rewrite List.filter_app, List.length_app. f_equal. exact IH.
Qed.

Lemma elem_entries (p : Attendance.doc -> bool) (x : ObjectId) l :
  x ∈ List.concat (List.map Attendance.markedStudents (List.filter p l))
  <-> exists d, d ∈ l /\ p d = true /\ x ∈ Attendance.markedStudents d.
Proof.
  split.
  - intros H. apply list_elem_of_In, in_concat in H as (ms & Hms & Hx).
    apply in_map_iff in Hms as (d & <- & Hd).
    apply filter_In in Hd as [Hd Hp].
    exists d. split; [by apply list_elem_of_In|].
    split; [done | by apply list_elem_of_In].
  - intros (d & Hd & Hp & Hx). apply list_elem_of_In, in_concat.
    exists (Attendance.markedStudents d). split; [|by apply list_elem_of_In].
    apply in_map, filter_In. split; [by apply list_elem_of_In | done].
Qed.

Lemma count_sessions (id : ObjectId) (ss : list Attendance.doc) :
  (forall d, d ∈ ss -> NoDup (Attendance.markedStudents d)) ->
  List.length
    (List.filter (String.eqb id)
       (List.concat (List.map Attendance.markedStudents ss)))
  = List.length
      (List.filter (fun d => includes id (Attendance.markedStudents d)) ss).
Proof.
  assert (forall l : list ObjectId, NoDup l ->
            List.length (List.filter (String.eqb id) l)
            = if includes id l then 1%nat else 0%nat) as Hone.
  { unfold includes. induction 1 as [|x l Hx Hnd IH]; [done|]. simpl.
    destruct (String.eqb id x) eqn:E; simpl; [|done].
    apply String.eqb_eq in E. subst x. rewrite IH.
    destruct (existsb (String.eqb id) l) eqn:Hex; [|done].
    exfalso. apply Hx. apply existsb_exists in Hex as (y & Hy & Hid).
    apply String.eqb_eq in Hid. subst y. by apply list_elem_of_In. }
  induction ss as [|d rest IH]; intros Hnd; [done|]. simpl.
  rewrite List.filter_app, List.length_app.
  pose proof (IH (fun x Hx => Hnd x (list_elem_of_further _ _ _ Hx))) as IH'.
  pose proof (Hone _ (Hnd d (list_elem_of_here _ _))) as Hd.
  etransitivity; [exact (f_equal2 Nat.add Hd IH')|].
  by destruct (includes id (Attendance.markedStudents d)).
Qed.

Lemma Forall2_omap_keys {V A B} (f : string -> option A) (g : string * V -> B)
    (P : A -> B -> Prop) (t : list (string * V)) :
  (forall k v, (k, v) ∈ t -> exists a, f k = Some a /\ P a (g (k, v))) ->
  Forall2 P (omap f (keys t)) (List.map g t).
Proof.
  induction t as [|[k v] rest IH]; intros H; simpl; [constructor|].
  destruct (H k v (list_elem_of_here _ _)) as (a & Hf & Hp).
  rewrite Hf. constructor; [done|].
  apply IH. intros k' v' Hin. by apply H, list_elem_of_further.
Qed.

(** What an entry of the report says about the stored sessions it was
    computed from, with nothing assumed about these. *)
Lemma report_entry_stored us (q : Attendance.doc -> bool)
    (ds : list Attendance.doc) subject e :
  (subject, e)
    ∈ formatReport
        (aggregate (List.map (populate us) (sortDesc (List.filter q ds)))) ->
  let sessions :=
    List.filter
      (fun d => q d && String.eqb (Attendance.subject d) subject) ds in
  let redeemers :=
    List.concat (List.map Attendance.markedStudents sessions) in
  FacultyReport.totalSessions e
  = size (list_to_set
            (List.map (fun d => Attendance.sessionDate d / 86400000) sessions)
          : gset Z)
  /\ (1 <= FacultyReport.totalSessions e)%nat
  /\ exists listed : list User.doc,
       NoDup (List.map User._id listed)
       /\ (forall u, u ∈ listed <->
             exists student, student ∈ redeemers /\ findUser us student = Some u)
       /\ Forall2
            (fun u row =>
               FacultyReport.name row = User.name u
               /\ FacultyReport.email row = User.email u
               /\ FacultyReport.attendanceCount row
                  = List.length (List.filter (String.eqb (User._id u)) redeemers)
               /\ (1 <= FacultyReport.attendanceCount row)%nat
               /\ FacultyReport.attendancePercentage row
                  = JsNum.percentage
                      (Z.of_nat (FacultyReport.attendanceCount row))
                      (Z.of_nat (FacultyReport.totalSessions e)))
            listed (FacultyReport.students e).
Proof.
  intros Hin sessions redeemers.
  set (sorted := sortDesc (List.filter q ds)) in *.
  set (rs := List.map (populate us) sorted) in *.
  set (bySubject := fun d => String.eqb (Attendance.subject d) subject).
  assert (sessions = List.filter bySubject (List.filter q ds)) as Hsessions.
  { unfold sessions. by rewrite filter_filter. }
  assert (forall d, d ∈ List.filter bySubject sorted <-> d ∈ sessions) as Helem.
  { intros d. rewrite Hsessions. unfold sorted. split; intros H.
    - apply (proj1 (list_elem_of_In _ _)), filter_In in H as [H Hp].
      apply (proj2 (list_elem_of_In _ _)), (proj1 (elem_of_sortDesc _ _)) in H.
      apply list_elem_of_In, filter_In. split; [|done].
      by apply list_elem_of_In.
    - apply (proj1 (list_elem_of_In _ _)), filter_In in H as [H Hp].
      apply (proj2 (list_elem_of_In _ _)), (proj2 (elem_of_sortDesc _ _)) in H.
      apply list_elem_of_In, filter_In. split; [|done].
      by apply list_elem_of_In. }
  apply formatReport_elem in Hin as (_ & data & Hin & ->).
  destruct (aggregate_spec rs) as [Hkeys Hrep].
  apply (elem_get _ _ _ Hkeys) in Hin. specialize (Hrep subject).
  rewrite Hin in Hrep. destruct Hrep as (Hne & Hdates & Hnds & Hst).
  unfold rs in Hne, Hdates, Hst.
  rewrite ofSubject_populate in Hne, Hdates. rewrite flat_populate in Hst.
  fold bySubject in Hne, Hdates, Hst.
  set (entries := List.concat
                    (List.map Attendance.markedStudents
                              (List.filter bySubject sorted))) in *.
  assert (forall x, x ∈ entries <-> x ∈ redeemers) as Hentries.
  { intros x. unfold entries, redeemers. rewrite Hsessions.
    rewrite !elem_entries. unfold sorted.
    split; intros (d & Hd & Hp & Hx); exists d;
      (split; [|done]); by apply elem_of_sortDesc. }
  assert (forall id : ObjectId,
            List.length (List.filter (String.eqb id) entries)
            = List.length (List.filter (String.eqb id) redeemers)) as Hcount.
  { intros id. unfold entries, redeemers. rewrite Hsessions.
    rewrite !count_entries. unfold sorted. by rewrite sum_sortDesc. }
  assert (datesOf (List.map (populate us) (List.filter bySubject sorted))
          = list_to_set
              (List.map (fun d => Attendance.sessionDate d / 86400000) sessions))
    as Hset.
  { apply set_eq. intros x. unfold datesOf. rewrite !elem_of_list_to_set.
    rewrite List.map_map. rewrite !list_elem_of_fmap.
    split; intros (d & -> & Hd); exists d; (split; [done|]); by apply Helem. }
  assert (1 <= size (datesOf (List.map (populate us)
                                       (List.filter bySubject sorted))))%nat
    as Hpos.
  { destruct (List.filter bySubject sorted) as [|d l] eqn:E; [done|].
    destruct (size (datesOf (List.map (populate us) (d :: l)))) eqn:Hsize;
      [|lia].
    apply size_empty_inv in Hsize.
    assert (isoDate (Attendance.sessionDate d)
              ∈ datesOf (List.map (populate us) (d :: l))) as H.
    { unfold datesOf. simpl. apply elem_of_union_l, elem_of_singleton. done. }
    apply Hsize in H. by apply elem_of_empty in H. }
  simpl. rewrite Hdates.
  split; [by rewrite Hset|]. split; [done|].
  exists (omap (findUser us) (keys (Agg.students data))).
  split; [by apply populate_NoDup|]. split.
  - intros u. rewrite list_elem_of_omap. split.
    + intros (id & Hid & Hfind). exists id. split; [|done].
      apply Hentries.
      destruct (get id (Agg.students data)) as [a|] eqn:Hget.
      2:{ by apply get_None_keys in Hget. }
      rewrite Hst in Hget. unfold studentEntry in Hget.
      destruct (List.filter (isUser id) _) as [|first rest] eqn:Hfil; [done|].
      by apply first_populated in Hfil as [_ ?].
    + intros (student & Hs & Hfind). exists student. split; [|done].
      destruct (get student (Agg.students data)) as [a|] eqn:Hget.
      { apply get_Some_elem in Hget. unfold keys.
        apply list_elem_of_fmap. by exists (student, a). }
      exfalso. rewrite Hst in Hget. unfold studentEntry in Hget.
      assert (In u (List.filter (isUser student)
                                (omap (findUser us) entries))) as Hin'.
      { apply filter_In. split.
        - apply list_elem_of_In, list_elem_of_omap. exists student.
          split; [by apply Hentries | done].
        - unfold isUser. apply String.eqb_eq. by apply findUser_id in Hfind. }
      by destruct (List.filter (isUser student) _).
  - apply Forall2_omap_keys. intros id a Hid.
    apply (elem_get _ _ _ Hnds) in Hid. rewrite Hst in Hid.
    pose proof (count_populated us id entries) as Hc.
    unfold studentEntry in Hid.
    destruct (List.filter (isUser id) _) as [|first rest] eqn:Hfil; [done|].
    injection Hid as <-.
    apply first_populated in Hfil as [Hfind _].
    exists first. split; [done|]. simpl.
    rewrite Hfind in Hc. simpl in Hc.
    rewrite (findUser_id _ _ _ Hfind), <- Hcount, <- Hc.
    repeat split; lia.
Qed.

(** C3: in the faculty report, for every listed subject, [totalSessions] is
    the number of distinct calendar dates of the selected sessions of that
    subject.  The rows are the students who are in the redeemer list of some
    of them and have a user document, one row each, with the name and e-mail
    address of that document; a row's [attendanceCount] is the number of
    entries the student has in those redeemer lists, which is the number of
    those sessions (not dates) whose redeemer list contains the student
    whenever no list holds a student twice; [attendancePercentage] is
    [Number((attendanceCount / totalSessions * 100).toFixed(2))], the
    two-decimal rounding of the ratio.  Hence two sessions of one subject on
    one date, both attended by a student, give [totalSessions = 1],
    [attendanceCount = 2] and 200 percent. *)
Theorem faculty_report_counts (req : Req.t) (st : State) (faculty : ObjectId) :
  Req.user req = Some faculty ->
  let b := Req.body req in
  let selectedOf (subject : string) :=
    List.filter
      (fun d => reportQuery faculty (Req.subject b) (Req.startDate b)
                            (Req.endDate b) d
                && String.eqb (Attendance.subject d) subject)
      (db st) in
  let userOf (student : ObjectId) :=
    List.find (fun u => String.eqb (User._id u) student) (users st) in
  (exists report,
     getAttendanceReport req st = json 200 (FacultyReportBody report)
     /\ NoDup (keys report)
     /\ forall subject e, (subject, e) ∈ report ->
          let sessions := selectedOf subject in
          let redeemers :=
            List.concat (List.map Attendance.markedStudents sessions) in
          FacultyReport.totalSessions e
          = size (list_to_set
                    (List.map (fun d => Attendance.sessionDate d / 86400000)
                              sessions) : gset Z)
          /\ (1 <= FacultyReport.totalSessions e)%nat
          /\ exists listed : list User.doc,
               NoDup (List.map User._id listed)
               /\ (forall u, u ∈ listed <->
                     exists student,
                       student ∈ redeemers /\ userOf student = Some u)
               /\ Forall2
                    (fun u row =>
                       FacultyReport.name row = User.name u
                       /\ FacultyReport.email row = User.email u
                       /\ FacultyReport.attendanceCount row
                          = List.length
                              (List.filter (String.eqb (User._id u)) redeemers)
                       /\ ((forall d, d ∈ sessions ->
                              NoDup (Attendance.markedStudents d)) ->
                           FacultyReport.attendanceCount row
                           = List.length
                               (List.filter
                                  (fun d => includes (User._id u)
                                              (Attendance.markedStudents d))
                                  sessions))
                       /\ roundedPercent
                            (FacultyReport.attendanceCount row)
                            (FacultyReport.totalSessions e)
                            (FacultyReport.attendancePercentage row))
                    listed (FacultyReport.students e))
  /\ (forall r1 r2 u,
        Attendance.subject (record r2) = Attendance.subject (record r1) ->
        Attendance.subject (record r1) <> "__proto__" ->
        Attendance.sessionDate (record r2) / 86400000
          = Attendance.sessionDate (record r1) / 86400000 ->
        NoDup (List.map User._id (students r1)) ->
        NoDup (List.map User._id (students r2)) ->
        (exists s1, s1 ∈ students r1 /\ User._id s1 = u) ->
        (exists s2, s2 ∈ students r2 /\ User._id s2 = u) ->
        exists e row,
          (Attendance.subject (record r1), e) ∈ formatReport (aggregate [r1; r2])
          /\ FacultyReport.totalSessions e = 1%nat
          /\ row ∈ FacultyReport.students e
          /\ FacultyReport.attendanceCount row = 2%nat
          /\ FacultyReport.attendancePercentage row = 200%Q
          /\ (100 < FacultyReport.attendancePercentage row)%Q).
Proof.
  intros Hu. cbv zeta. split.
  - exists (formatReport (aggregate (selected faculty req st))).
    split; [|split].
    + unfold getAttendanceReport. by rewrite Hu.
    + apply formatReport_keys. by destruct (aggregate_spec (selected faculty req st)).
    + intros subject e Hin. unfold selected, Attendance.find in Hin.
      apply report_entry_stored in Hin as (Htot & Hpos & listed & Hnd & Hmem & Hrows).
      cbv zeta in Htot, Hmem, Hrows.
      split; [done|]. split; [done|]. exists listed.
      split; [done|]. split; [done|].
      eapply Forall2_impl; [exact Hrows|]. simpl.
      intros u row (Hn & He & Hc & Hone & Hp).
      split; [done|]. split; [done|]. split; [done|]. split.
      * intros Hnodup. rewrite Hc. by apply count_sessions.
      * rewrite Hp. apply roundedPercent_intro; lia.
  - intros r1 r2 u Hsub Hproto Hdate Hnd1 Hnd2 (s1 & Hs1 & Hid1) (s2 & Hs2 & Hid2).
    assert (attends u r1 = true) as Ha1.
    { unfold attends. apply existsb_exists. exists s1.
      split; [by apply list_elem_of_In | by apply String.eqb_eq]. }
    assert (attends u r2 = true) as Ha2.
    { unfold attends. apply existsb_exists. exists s2.
      split; [by apply list_elem_of_In | by apply String.eqb_eq]. }
    set (k := Attendance.subject (record r1)) in *.
    destruct (get_aggregate_Some [r1; r2] r1) as (data & Hdata);
      [apply list_elem_of_here|]. fold k in Hdata.
    pose proof (formatReport_elem_2 _ _ _ Hproto Hdata) as Hin.
    destruct (report_entry_spec [r1; r2] k (formatSubject data))
      as (Htot & _ & ids & _ & Hmem & Hrows); [|done|].
    { intros r Hr. apply elem_of_cons in Hr as [->|Hr]; [done|].
      by apply list_elem_of_singleton in Hr as ->. }
    assert (ofSubject k [r1; r2] = [r1; r2]) as Hof.
    { unfold ofSubject. simpl. fold k. by rewrite Hsub, String.eqb_refl. }
    rewrite Hof in *.
    assert (u ∈ ids) as Hu'.
    { apply Hmem. exists r1. split; [apply list_elem_of_here | done]. }
    apply list_elem_of_lookup in Hu' as (i & Hi).
    destruct (Forall2_lookup_l _ _ _ _ _ Hrows Hi) as (row & Hrow & Hc & Hp & _).
    simpl in Hc. rewrite Ha1, Ha2 in Hc. simpl in Hc.
    assert (FacultyReport.totalSessions (formatSubject data) = 1%nat) as Hone.
    { rewrite Htot.
      assert (datesOf [r1; r2]
              = {[ Attendance.sessionDate (record r1) / 86400000 ]}) as ->.
      { apply set_eq. intros x. unfold datesOf, isoDate.
        rewrite elem_of_list_to_set. simpl.
        rewrite Hdate, !elem_of_cons, elem_of_nil, elem_of_singleton. tauto. }
      apply size_singleton. }
    exists (formatSubject data), row. split; [done|]. split; [done|].
    split; [by eapply list_elem_of_lookup_2|]. split; [done|].
    rewrite Hp, Hc, Hone. split; reflexivity.
Qed.

Lemma faculty_report_counts_witness :
  Req.user Example.reportReq = Some Example.prof
  /\ getAttendanceReport Example.reportReq Example.sameDay
     = json 200 (FacultyReportBody
         [("CS101",
           FacultyReport.mk 1
             [FacultyReport.mkRow "Ann" "ann@example.org" 2 200%Q;
              FacultyReport.mkRow "Bob" "bob@example.org" 1 100%Q])])
  /\ exists report,
       getAttendanceReport Example.reportReq Example.sameDay
       = json 200 (FacultyReportBody report)
       /\ NoDup (keys report).
Proof.
  split; [reflexivity|]. split; [reflexivity|].
  destruct (proj1 (faculty_report_counts Example.reportReq Example.sameDay
                     Example.prof eq_refl))
    as (report & Heq & Hnd & _).
  exists report. split; [exact Heq | exact Hnd].
Defined.

(** C3, as stated, fails on a store that two overlapping redemptions of one
    student have reached: one session, which holds the student twice, and an
    [attendanceCount] of 2. *)
Lemma overlapping_redemption_counted_twice :
  List.map (fun d => (Attendance.subject d, Attendance.markedStudents d))
    (db (run [Lookup (Example.at_ 2000) (Example.redeemReq Example.ann);
              Lookup (Example.at_ 2001) (Example.redeemReq Example.ann);
              Save 0%nat; Save 0%nat]
             Example.created))
  = [("CS101", [User._id Example.ann; User._id Example.ann])]
  /\ getAttendanceReport Example.reportReq
       (run [Lookup (Example.at_ 2000) (Example.redeemReq Example.ann);
             Lookup (Example.at_ 2001) (Example.redeemReq Example.ann);
             Save 0%nat; Save 0%nat]
            Example.created)
     = json 200 (FacultyReportBody
         [("CS101",
           FacultyReport.mk 1
             [FacultyReport.mkRow "Ann" "ann@example.org" 2 200%Q])]).
Proof. split; reflexivity. Qed.

(** The model of division and multiplication computes what the hardware
    binary64 unit computes, for all counts up to 100. *)
Lemma JsNum_agrees_with_binary64 :
  List.forallb (fun c => List.forallb (agreesWithMachine c) (upTo 100)) (upTo 100)
  = true.
Proof. vm_compute. reflexivity. Qed.

(** * Further properties *)

(** ** Creation and redemption as atomic updates *)

Lemma hexDigit_isHexDigit b :
  isHexDigit (hexDigit (Byte.to_N b / 16)) = true
  /\ isHexDigit (hexDigit (Byte.to_N b mod 16)) = true.
Proof. destruct b; split; reflexivity. Qed.

(** X1: the code printed from the random bytes has two characters per byte,
    all of them lowercase hexadecimal digits, and different byte strings
    print as different codes. *)
Theorem code_is_lowercase_hex (bytes : list Byte.byte) :
  forallb isHexDigit (list_ascii_of_string (toHex bytes)) = true
  /\ String.length (toHex bytes) = (2 * List.length bytes)%nat
  /\ forall other, toHex other = toHex bytes -> other = bytes.
Proof.
  split; [|split].
  - induction bytes as [|b rest IH]; [done|].
    cbn [toHex list_ascii_of_string forallb].
    destruct (hexDigit_isHexDigit b) as [-> ->]. by rewrite IH.
  - apply length_toHex.
  - intros other. apply toHex_inj.
Qed.

(** X2: [generateSessionQR] is all or nothing.  Any answer other than 200
    leaves the state as it was, in particular the 500 given when the store
    rejects the insertion because the identifier is taken; the answer 200
    adds exactly one session, active and without redeemers, at the end of the
    collection, and exactly one timer, for that session. *)
Theorem generateSessionQR_all_or_nothing (env : Env) (req : Req.t) (st : State) :
  let res := fst (generateSessionQR env req st) in
  let st' := snd (generateSessionQR env req st) in
  (statusCode res <> 200 -> st' = st)
  /\ (newObjectId env ∈ Attendance.ids (db st) ->
      statusCode res <> 200)
  /\ (statusCode res = 200 ->
      exists d,
        db st' = db st ++ [d]
        /\ Attendance._id d = newObjectId env
        /\ (newObjectId env ∉ Attendance.ids (db st))
        /\ Attendance.status d = Attendance.active
        /\ Attendance.markedStudents d = []
        /\ Attendance.sessionDate d = now env
        /\ issuedCode res = Some (Attendance.qrCode d)
        /\ timers st' = timers st ++ [mkTimer (now env + window) (Attendance._id d)]
        /\ users st' = users st).
Proof.
  cbv zeta. unfold generateSessionQR.
  destruct (Req.user req) as [faculty|]; [|by repeat split].
  destruct (_ || _); [by repeat split|].
  destruct (randomBytes env) as [bytes|]; [|by repeat split].
  unfold Attendance.insert. cbn [Attendance._id].
  destruct (Attendance.exists_ (newObjectId env) (db st)) eqn:E.
  - by repeat split.
  - apply exists_false in E. simpl. split; [done|]. split; [done|].
    intros _. eexists. repeat split; done.
Qed.

Lemma code_is_lowercase_hex_witness :
  toHex [Byte.x00; Byte.xff] = "00ff"
  /\ forall other, toHex other = toHex [Byte.x00; Byte.xff] ->
                   other = [Byte.x00; Byte.xff].
Proof.
  split; [reflexivity|].
  exact (proj2 (proj2 (code_is_lowercase_hex [Byte.x00; Byte.xff]))).
Defined.

Lemma generateSessionQR_all_or_nothing_witness :
  statusCode (fst (generateSessionQR (mkEnv 1000 (Some Example.seed) Example.sidBytes)
                     Example.createReq Example.empty)) = 200
  /\ exists d, db Example.created = [d]
       /\ Attendance.markedStudents d = []
       /\ timers Example.created = [mkTimer 121000 (Attendance._id d)].
Proof.
  split; [reflexivity|].
  destruct (proj2 (proj2 (generateSessionQR_all_or_nothing
                     (mkEnv 1000 (Some Example.seed) Example.sidBytes)
                     Example.createReq Example.empty)) eq_refl)
    as (d & Hdb & _ & _ & _ & Hm & _ & _ & Ht & _).
  exists d. split; [exact Hdb|]. split; [exact Hm | exact Ht].
Defined.

Lemma save_insert d (db : Attendance.collection) i s :
  NoDup (Attendance.ids db) -> db !! i = Some s ->
  Attendance._id d = Attendance._id s ->
  Attendance.save d db = <[i := d]> db.
Proof.
  intros Hnd Hi Hid. revert i Hi.
  induction db as [|x rest IH]; intros i Hi; [done|]. simpl in *.
  apply NoDup_cons in Hnd as [Hx Hnd].
  destruct (String.eqb (Attendance._id x) (Attendance._id d)) eqn:E.
  - apply String.eqb_eq in E. destruct i as [|i]; [done|]. simpl in Hi.
    exfalso. apply Hx. rewrite E, Hid.
    apply list_elem_of_In, in_map, list_elem_of_In.
    by eapply list_elem_of_lookup_2.
  - apply String.eqb_neq in E. destruct i as [|i]; simpl in *.
    + congruence.
    + f_equal. by apply IH.
Qed.

(** X3: [markAttendance] is all or nothing.  Any answer other than 200 leaves
    the state as it was; the answer 200 rewrites exactly one stored session,
    the one the code resolved to, appending the student to its redeemer set,
    and touches neither the other sessions nor the users nor the timers. *)
Theorem markAttendance_all_or_nothing (env : Env) (req : Req.t) (st : State) :
  wf st ->
  let res := fst (markAttendance env req st) in
  let st' := snd (markAttendance env req st) in
  (statusCode res <> 200 -> st' = st)
  /\ (statusCode res = 200 ->
      exists i s student,
        Req.user req = Some student
        /\ db st !! i = Some s
        /\ redeemable (Req.qrCode (Req.body req)) (now env) s = true
        /\ (student ∉ Attendance.markedStudents s)
        /\ db st' = <[i := Attendance.pushStudent student s]> (db st)
        /\ users st' = users st
        /\ timers st' = timers st).
Proof.
  intros Hwf. cbv zeta. unfold markAttendance.
  destruct (Req.user req) as [student|]; [|by split].
  destruct (negb _); [by split|].
  destruct (Attendance.findOne _ _) as [s|] eqn:E; [|by split].
  destruct (includes student (Attendance.markedStudents s)) eqn:Hi; [by split|].
  simpl. split; [done|]. intros _.
  apply findOne_Some in E as [Hin Hq]. apply includes_false in Hi.
  apply list_elem_of_lookup in Hin as (i & Hin).
  exists i, s, student. repeat split; try done.
  by apply (save_insert _ _ i s).
Qed.

Lemma markAttendance_all_or_nothing_witness :
  wf Example.created
  /\ db Example.redeemed
     = [Attendance.mk Example.sid Example.prof "CS101" 1000
          (toHex Example.seed) "A1" [User._id Example.ann] Attendance.active]
  /\ exists i s student,
       db Example.created !! i = Some s
       /\ db Example.redeemed
          = <[i := Attendance.pushStudent student s]> (db Example.created).
Proof.
  split; [exact created_wf|]. split; [reflexivity|].
  destruct (proj2 (markAttendance_all_or_nothing (Example.at_ 2000)
                     (Example.redeemReq Example.ann) Example.created created_wf)
              eq_refl)
    as (i & s & student & _ & Hi & _ & _ & Hdb & _).
  exists i, s, student. split; [exact Hi | exact Hdb].
Defined.

(** ** Time *)

Lemma redeemable_later code t t' d :
  t <= t' -> redeemable code t' d = true -> redeemable code t d = true.
Proof.
  intros Ht H. apply redeemable_spec in H as (Hc & Hw & Ha).
  apply redeemable_spec. repeat split; [done | lia | done].
Qed.

(** X4: on a given state a code that is refused as invalid or expired is
    refused the same way at every later time: waiting never revives it. *)
Theorem stale_code_stays_stale (env env' : Env) (req : Req.t) (st : State) :
  now env <= now env' ->
  markAttendance env req st = (InvalidOrExpired, st) ->
  markAttendance env' req st = (InvalidOrExpired, st).
Proof.
  intros Ht H. unfold markAttendance in *.
  destruct (Req.user req) as [student|]; [|done].
  destruct (negb _); [done|].
  destruct (Attendance.findOne (redeemable _ (now env)) (db st))
    as [s|] eqn:E.
  { destruct (includes student (Attendance.markedStudents s)); done. }
  destruct (Attendance.findOne (redeemable _ (now env')) (db st))
    as [s'|] eqn:E'; [|done].
  apply findOne_Some in E' as [Hin Hq].
  apply (redeemable_later _ _ _ _ Ht) in Hq.
  eapply findOne_None in E; [|exact Hin]. congruence.
Qed.

Lemma stale_code_stays_stale_witness :
  now (Example.at_ 121001) <= now (Example.at_ 500000)
  /\ markAttendance (Example.at_ 500000) (Example.redeemReq Example.bob)
                    Example.created
     = (InvalidOrExpired, Example.created).
Proof.
  split; [vm_compute; discriminate|].
  apply (stale_code_stays_stale (Example.at_ 121001) (Example.at_ 500000)).
  - vm_compute. discriminate.
  - reflexivity.
Defined.

(** ** From creation to redemption *)

(** What a successful creation did. *)
Lemma generateSessionQR_success env req st :
  statusCode (fst (generateSessionQR env req st)) = 200 ->
  exists faculty bytes,
    Req.user req = Some faculty
    /\ randomBytes env = Some bytes
    /\ (newObjectId env ∉ Attendance.ids (db st))
    /\ truthy (Req.subject (Req.body req)) = true
    /\ truthy (Req.classRoom (Req.body req)) = true
    /\ let d := Attendance.mk (newObjectId env) faculty
                  (str (Req.subject (Req.body req))) (now env) (toHex bytes)
                  (str (Req.classRoom (Req.body req))) [] Attendance.active in
       generateSessionQR env req st
       = (json 200 (QrGenerated "Session QR code generated successfully"
                      (toHex bytes) (newObjectId env) "2 minutes"),
          mkState (db st ++ [d]) (users st)
                  (timers st ++ [mkTimer (now env + window) (newObjectId env)])
                  (pending st)).
Proof.
  unfold generateSessionQR.
  destruct (Req.user req) as [faculty|]; [|done].
  destruct (truthy (Req.subject (Req.body req))); [|done].
  destruct (truthy (Req.classRoom (Req.body req))); [|done]. simpl.
  destruct (randomBytes env) as [bytes|]; [|done].
  unfold Attendance.insert. cbn [Attendance._id].
  destruct (Attendance.exists_ (newObjectId env) (db st)) eqn:E; [done|].
  apply exists_false in E. intros _. by exists faculty, bytes.
Qed.

Lemma findOne_app_last q (db : Attendance.collection) d :
  (forall x, x ∈ db -> q x = false) -> q d = true ->
  Attendance.findOne q (db ++ [d]) = Some d.
Proof.
  intros Hdb Hd. unfold Attendance.findOne.
  induction db as [|x rest IH]; simpl.
  - by rewrite Hd.
  - rewrite (Hdb x) by apply list_elem_of_here.
    apply IH. intros y Hy. by apply Hdb, list_elem_of_further.
Qed.

Lemma save_app_fresh d d' (db : Attendance.collection) :
  Attendance._id d ∉ Attendance.ids db ->
  Attendance._id d' = Attendance._id d ->
  Attendance.save d' (db ++ [d]) = db ++ [d'].
Proof.
  intros Hfresh Hid. induction db as [|x rest IH]; simpl.
  - by rewrite Hid, String.eqb_refl.
  - simpl in Hfresh. apply not_elem_of_cons in Hfresh as [Hx Hrest].
    rewrite Hid.
    assert (String.eqb (Attendance._id x) (Attendance._id d) = false) as ->
      by (apply String.eqb_neq; congruence).
    by rewrite IH.
Qed.

(** X5: a code just issued is honoured.  After a successful creation, if no
    older session carries the same code, any student who presents the issued
    code no later than two minutes after the creation time is marked present
    in the new session, as its first redeemer. *)
Theorem issued_code_is_redeemable (env : Env) (req : Req.t) (st : State)
    (envR : Env) (student : ObjectId) :
  let res := fst (generateSessionQR env req st) in
  let st1 := snd (generateSessionQR env req st) in
  statusCode res = 200 ->
  (forall d, d ∈ db st -> issuedCode res <> Some (Attendance.qrCode d)) ->
  now envR <= now env + window ->
  exists d,
    db st1 = db st ++ [d]
    /\ markAttendance envR
         (Req.mk (Some student)
                 (Req.mkBody None None (Plain (issuedCode res)) None None) "" None)
         st1
       = (json 200 (Message "Attendance marked successfully"),
          withDb st1 (db st ++ [Attendance.pushStudent student d])).
Proof.
  intros res st1 Hok Hcode Ht.
  destruct (generateSessionQR_success env req st Hok)
    as (faculty & bytes & Hu & Hb & Hfresh & _ & _ & Heq).
  cbv zeta in Heq. unfold res, st1 in *. rewrite Heq in *. simpl in *.
  eexists. split; [done|].
  unfold markAttendance. simpl.
  rewrite (findOne_app_last _ _ _).
  - simpl. unfold withDb. simpl. f_equal. f_equal.
    by apply save_app_fresh.
  - intros x Hx. apply not_true_iff_false. intros Hq.
    apply redeemable_spec in Hq as (Hc & _).
    apply selects_Plain in Hc. by apply (Hcode x Hx).
  - apply redeemable_spec. simpl. unfold window in *.
    split; [apply String.eqb_refl|]. split; [lia | done].
Qed.

Lemma issued_code_is_redeemable_witness :
  statusCode (fst (generateSessionQR (mkEnv 1000 (Some Example.seed) Example.sidBytes)
                     Example.createReq Example.empty)) = 200
  /\ now (Example.at_ 121000) <= 1000 + window
  /\ exists d,
       db Example.created = [d]
       /\ fst (markAttendance (Example.at_ 121000)
                 (Example.redeemReq Example.bob) Example.created)
          = json 200 (Message "Attendance marked successfully").
Proof.
  split; [reflexivity|]. split; [vm_compute; discriminate|].
  destruct (issued_code_is_redeemable
              (mkEnv 1000 (Some Example.seed) Example.sidBytes)
              Example.createReq Example.empty (Example.at_ 121000)
              (User._id Example.bob) eq_refl) as (d & Hdb & Heq).
  - intros d Hd. by apply elem_of_nil in Hd.
  - vm_compute. discriminate.
  - exists d. split; [exact Hdb|].
    exact (f_equal fst Heq).
Defined.

(** ** The expiry timer *)

Lemma save_first id (db : Attendance.collection) s d :
  Attendance.findById id db = Some s -> Attendance._id d = id ->
  Forall2 (fun x x' => x' = x \/ (x = s /\ x' = d)) db (Attendance.save d db).
Proof.
  unfold Attendance.findById, Attendance.findOne. intros H Hid.
  induction db as [|x rest IH]; [constructor|]. simpl in *. rewrite Hid.
  destruct (String.eqb (Attendance._id x) id).
  - injection H as ->. constructor; [by right|].
    clear. induction rest; constructor; auto.
  - constructor; [by left | auto].
Qed.

Lemma expireSession_changes id db :
  Forall2 (expiredBy id) db (expireSession id db).
Proof.
  assert (Forall2 (expiredBy id) db db) as Hrefl.
  { induction db; constructor; [by left | done]. }
  unfold expireSession.
  destruct (Attendance.findById id db) as [s|] eqn:E; [|done].
  destruct (Attendance.status s) eqn:Hs; [|done].
  destruct (findById_Some _ _ _ E) as [_ Hid].
  eapply Forall2_impl; [by eapply save_first|].
  intros x x' [->|[-> ->]]; [by left | by right].
Qed.

(** X6: the expiry callback changes nothing but the status of the session it
    was scheduled for: every stored session is either left as it is or is the
    active session with that identifier, now expired, with all its other
    fields (redeemer set included) as before.  A callback whose session is no
    longer found changes nothing. *)
Theorem expiry_touches_only_the_status (id : ObjectId)
    (db : Attendance.collection) :
  Forall2 (expiredBy id) db (expireSession id db)
  /\ List.map Attendance.markedStudents (expireSession id db)
     = List.map Attendance.markedStudents db
  /\ ((forall d, d ∈ db -> Attendance._id d <> id) -> expireSession id db = db).
Proof.
  pose proof (expireSession_changes id db) as H.
  split; [done|]. split.
  - induction H as [|d d' l l' Hd _ IH]; [done|]. simpl. rewrite IH. f_equal.
    by destruct Hd as [->|(_ & _ & ->)].
  - intros Hnone. unfold expireSession.
    destruct (Attendance.findById id db) as [s|] eqn:E; [|done].
    destruct (findById_Some _ _ _ E) as [Hin Hid]. by destruct (Hnone s Hin).
Qed.

Lemma expiry_touches_only_the_status_witness :
  expireSession "no such session" (db Example.redeemed) = db Example.redeemed
  /\ List.map Attendance.markedStudents
       (expireSession Example.sid (db Example.redeemed))
     = [[User._id Example.ann]].
Proof.
  split.
  - apply (proj2 (proj2 (expiry_touches_only_the_status "no such session"
                           (db Example.redeemed)))).
    intros d Hd. vm_compute in Hd. apply list_elem_of_singleton in Hd.
    subst d. vm_compute. discriminate.
  - exact (proj1 (proj2 (expiry_touches_only_the_status Example.sid
                           (db Example.redeemed)))).
Defined.

Lemma generateSessionQR_unchanged env req st :
  statusCode (fst (generateSessionQR env req st)) <> 200 ->
  snd (generateSessionQR env req st) = st.
Proof.
  unfold generateSessionQR.
  destruct (Req.user req); [|done].
  destruct (_ || _); [done|].
  destruct (randomBytes env); [|done].
  destruct (Attendance.insert _ _); done.
Qed.

Lemma timerOk_evolves st st' t :
  dbEvolves (db st) (db st') -> timerOk st t -> timerOk st' t.
Proof.
  intros Hev (d & Hin & Hid & Hdue).
  apply list_elem_of_lookup in Hin as (i & Hi).
  destruct (dbEvolves_lookup _ _ _ _ Hev Hi) as (d' & Hi' & Hdd).
  exists d'. split; [by eapply list_elem_of_lookup_2|].
  by rewrite (ev_id _ _ Hdd), (ev_sessionDate _ _ Hdd).
Qed.

Lemma NoDup_map_delete {A B} (f : A -> B) (l : list A) n :
  NoDup (List.map f l) -> NoDup (List.map f (delete n l)).
Proof.
  revert n. induction l as [|x rest IH]; intros n H; [by destruct n|].
  simpl in H. apply NoDup_cons in H as [Hx Hnd].
  destruct n as [|n]; simpl; [done|].
  apply NoDup_cons. split; [|by apply IH].
  intros Hin. apply Hx.
  apply list_elem_of_fmap in Hin as (y & -> & Hy).
  apply list_elem_of_fmap. exists y. split; [done|].
  by eapply list_elem_of_delete_inv.
Qed.

Lemma step_timersOk op st : wf st -> timersOk st -> timersOk (step op st).
Proof.
  intros Hwf [Hall Hnd].
  pose proof (step_evolves op st Hwf) as Hev.
  destruct op as [env req|env req|clock n|env req|n]; simpl in *.
  - destruct (decide (statusCode (fst (generateSessionQR env req st)) = 200))
      as [Hok|Hno].
    + destruct (generateSessionQR_success env req st Hok)
        as (faculty & bytes & _ & _ & Hfresh & _ & _ & Heq).
      cbv zeta in Heq. rewrite Heq in *. simpl in *. split; simpl.
      * apply Forall_app. split.
        -- eapply Forall_impl; [exact Hall|].
           intros t. by apply timerOk_evolves.
        -- constructor; [|constructor]. eexists. split.
           ++ apply elem_of_app. right. apply list_elem_of_here.
           ++ done.
      * rewrite List.map_app. simpl. apply NoDup_app. split; [done|].
        split; [|apply NoDup_singleton].
        intros x Hx Hx'. apply list_elem_of_singleton in Hx'. subst x.
        apply Hfresh.
        apply list_elem_of_fmap in Hx as (t & -> & Ht).
        rewrite Forall_forall in Hall.
        destruct (Hall t Ht) as (d & Hd & <- & _).
        unfold Attendance.ids. apply list_elem_of_fmap. eauto.
    + by rewrite (generateSessionQR_unchanged env req st Hno).
  - assert (timers (snd (markAttendance env req st)) = timers st) as Ht.
    { unfold markAttendance. destruct (Req.user req); [|done].
      destruct (negb _); [done|].
      destruct (Attendance.findOne _ _); [|done].
      by destruct (includes _ _). }
    split; rewrite Ht; [|done].
    eapply Forall_impl; [exact Hall|]. intros t. by apply timerOk_evolves.
  - unfold fire in *. destruct (timers st !! n) as [t|]; [|done].
    destruct (due t <=? clock); [|done]. simpl in *. split.
    + apply Forall_delete.
      eapply Forall_impl; [exact Hall|]. intros t'. by apply timerOk_evolves.
    + by apply NoDup_map_delete.
  - assert (timers (lookup env req st) = timers st) as Ht.
    { unfold lookup. by destruct (markAttendance_lookup env req st). }
    split; rewrite Ht; [|done].
    eapply Forall_impl; [exact Hall|]. intros t. by apply timerOk_evolves.
  - assert (timers (complete n st) = timers st) as Ht.
    { unfold complete. by destruct (pending st !! n). }
    split; rewrite Ht; [|done].
    eapply Forall_impl; [exact Hall|]. intros t. by apply timerOk_evolves.
Qed.

Lemma run_timersOk ops st : wf st -> timersOk st -> timersOk (run ops st).
Proof.
  revert st. induction ops as [|op ops IH]; intros st Hwf Hok; [done|].
  simpl. apply IH; [by apply step_wf | by apply step_timersOk].
Qed.

(** X7: in every state reached from an empty collection each pending timer
    belongs to a stored session, is due exactly two minutes after that
    session's creation, and is the only timer of that session.  So a timer
    that fires can change a session only by expiring it at or after the end
    of its window: the timer never cuts the window short. *)
Theorem timer_never_cuts_window_short (us : list User.doc) (ops : list Op)
    (clock : Z) (n : nat) :
  let st := run ops (mkState [] us [] []) in
  wf st /\ timersOk st
  /\ forall i d d',
       db st !! i = Some d -> db (fire clock n st) !! i = Some d' -> d' <> d ->
       Attendance.status d = Attendance.active
       /\ d' = Attendance.setStatus Attendance.expired d
       /\ Attendance.sessionDate d + window <= clock.
Proof.
  intros st.
  assert (wf st) as Hwf by (apply run_wf, NoDup_nil_2).
  assert (timersOk st) as Hok.
  { apply run_timersOk; [apply NoDup_nil_2|]. split; constructor. }
  split; [done|]. split; [done|].
  intros i d d' Hi Hi' Hne. unfold fire in Hi'.
  destruct (timers st !! n) as [t|] eqn:Ht; [|congruence].
  destruct (due t <=? clock) eqn:Hdue; [|congruence]. simpl in Hi'.
  apply Z.leb_le in Hdue.
  pose proof (Forall2_lookup_lr _ _ _ _ _ _
                (expireSession_changes (target t) (db st)) Hi Hi') as Hch.
  destruct Hch as [->|(Hid & Hs & ->)]; [done|].
  repeat split; [done|].
  destruct Hok as [Hall _]. rewrite Forall_forall in Hall.
  destruct (Hall t (list_elem_of_lookup_2 _ _ _ Ht)) as (d0 & Hd0 & Hid0 & Hd).
  assert (d0 = d) as ->.
  { eapply unique_by_id; [exact Hwf | done | by eapply list_elem_of_lookup_2 |].
    congruence. }
  lia.
Qed.

Lemma timer_never_cuts_window_short_witness :
  wf Example.redeemed
  /\ exists d,
       db Example.redeemed !! 0%nat = Some d
       /\ Attendance.status d = Attendance.active
       /\ Attendance.sessionDate d + window <= 121000.
Proof.
  destruct (timer_never_cuts_window_short [Example.ann; Example.bob]
              [Create (mkEnv 1000 (Some Example.seed) Example.sidBytes) Example.createReq;
               Redeem (Example.at_ 2000) (Example.redeemReq Example.ann)]
              121000 0%nat) as (Hwf & _ & H).
  split; [exact Hwf|].
  eexists. split; [reflexivity|].
  destruct (H 0%nat _ _ eq_refl eq_refl) as (Hs & _ & Hw).
  - vm_compute. discriminate.
  - split; [exact Hs | exact Hw].
Defined.

(** ** Faculty report: whose sessions, which subjects, how many redemptions *)








Lemma list_sum_one_hot (ks : list ObjectId) (x : ObjectId) :
  NoDup ks -> x ∈ ks ->
  list_sum (List.map (fun u : ObjectId =>
                        if String.eqb x u then 1%nat else 0%nat) ks) = 1%nat.
Proof.
  induction ks as [|k rest IH]; intros Hnd Hin; [by apply elem_of_nil in Hin|].
  apply NoDup_cons in Hnd as [Hk Hnd]. simpl.
  destruct (String.eqb x k) eqn:E.
  - apply String.eqb_eq in E. subst k.
    assert (list_sum (List.map (fun u : ObjectId =>
                                  if String.eqb x u then 1%nat else 0%nat)
                               rest) = 0%nat) as ->; [|done].
    clear -Hk. induction rest as [|y rest IH]; [done|]. simpl.
    apply not_elem_of_cons in Hk as [Hy Hrest].
    apply String.eqb_neq in Hy. rewrite Hy. simpl. auto.
  - apply String.eqb_neq in E.
    apply elem_of_cons in Hin as [?|Hin]; [done|]. simpl. auto.
Qed.

Lemma list_sum_counts (ks : list ObjectId) (seen : list User.doc) :
  NoDup ks -> (forall s, s ∈ seen -> User._id s ∈ ks) ->
  list_sum (List.map (fun u : ObjectId =>
                        List.length (List.filter (isUser u) seen)) ks)
  = List.length seen.
Proof.
  intros Hnd. induction seen as [|s rest IH]; intros Hin.
  - simpl. clear. induction ks as [|k ks IHk]; simpl; [done | exact IHk].
  - assert (forall u, List.length (List.filter (isUser u) (s :: rest))
              = ((if String.eqb (User._id s) u then 1 else 0)
                 + List.length (List.filter (isUser u) rest))%nat) as Hcons.
    { intros u. simpl. unfold isUser at 1. by destruct (String.eqb _ _). }
    rewrite (List.map_ext _ _ Hcons).
    assert (forall (f g : ObjectId -> nat) l,
              list_sum (List.map (fun u => (f u + g u)%nat) l)
              = (list_sum (List.map f l) + list_sum (List.map g l))%nat) as Hadd.
    { intros f g l. induction l as [|a l IHl]; simpl; [done|]. rewrite IHl. lia. }
    rewrite (Hadd (fun u : ObjectId =>
                     if String.eqb (User._id s) u then 1%nat else 0%nat)
                  (fun u : ObjectId =>
                     List.length (List.filter (isUser u) rest))).
    rewrite IH by (intros x Hx; by apply Hin, list_elem_of_further).
    rewrite (list_sum_one_hot ks (User._id s)); [done | done |].
    apply Hin, list_elem_of_here.
Qed.

(** X10: no redemption is lost or counted twice by the faculty report: for
    every listed subject the [attendanceCount]s of its rows add up to the
    number of (populated) redeemers over all selected sessions of that
    subject. *)
Theorem faculty_report_conserves_redemptions (req : Req.t) (st : State)
    (faculty : ObjectId) (report : list (string * FacultyReport.entry)) :
  Req.user req = Some faculty ->
  getAttendanceReport req st = json 200 (FacultyReportBody report) ->
  forall k e, (k, e) ∈ report ->
    list_sum (List.map FacultyReport.attendanceCount (FacultyReport.students e))
    = list_sum (List.map (fun r => List.length (students r))
                         (ofSubject k (selected faculty req st))).
Proof.
  intros Hu Hrep k e Hin. unfold getAttendanceReport in Hrep.
  rewrite Hu in Hrep. injection Hrep as <-.
  change (List.map (populate (users st)) _) with (selected faculty req st) in Hin.
  set (rs := selected faculty req st) in *.
  apply formatReport_elem in Hin as (_ & data & Hin & ->).
  destruct (aggregate_spec rs) as [Hkeys Hagg].
  apply (elem_get _ _ _ Hkeys) in Hin. specialize (Hagg k).
  rewrite Hin in Hagg. destruct Hagg as (_ & _ & Hnd & Hst).
  assert (list_sum (List.map (fun r => List.length (students r)) (ofSubject k rs))
          = List.length (flat k rs)) as ->.
  { unfold flat. induction (ofSubject k rs) as [|r l IH]; [done|].
    simpl. rewrite List.length_app. by rewrite IH. }
  rewrite <- (list_sum_counts (keys (Agg.students data)) (flat k rs) Hnd).
  - simpl. rewrite List.map_map. unfold keys. rewrite List.map_map. f_equal.
    apply List.map_ext_in. intros [u a] Hua. simpl.
    apply list_elem_of_In, (elem_get _ _ _ Hnd) in Hua. rewrite Hst in Hua.
    by apply studentEntry_Some in Hua as [-> _].
  - intros s Hs.
    destruct (get (User._id s) (Agg.students data)) as [a|] eqn:E.
    + apply get_Some_elem in E. unfold keys.
      apply list_elem_of_fmap. by exists (User._id s, a).
    + exfalso. rewrite Hst in E. unfold studentEntry in E.
      assert (s ∈ List.filter (isUser (User._id s)) (flat k rs)) as Hf.
      { apply list_elem_of_In, filter_In. split; [by apply list_elem_of_In|].
        apply String.eqb_refl. }
      destruct (List.filter _ _); [by apply elem_of_nil in Hf | done].
Qed.

Lemma faculty_report_conserves_redemptions_witness :
  Req.user Example.reportReq = Some Example.prof
  /\ exists e,
       ("CS101", e)
         ∈ [("CS101",
             FacultyReport.mk 1
               [FacultyReport.mkRow "Ann" "ann@example.org" 2 200%Q;
                FacultyReport.mkRow "Bob" "bob@example.org" 1 100%Q])]
       /\ list_sum (List.map FacultyReport.attendanceCount
                             (FacultyReport.students e))
          = list_sum (List.map (fun r => List.length (students r))
                        (ofSubject "CS101"
                           (selected Example.prof Example.reportReq
                                     Example.sameDay))).
Proof.
  split; [reflexivity|]. eexists. split; [apply list_elem_of_here|].
  apply (faculty_report_conserves_redemptions Example.reportReq Example.sameDay
           Example.prof _ eq_refl eq_refl "CS101").
  apply list_elem_of_here.
Defined.

(** ** Student report: which subjects, how many sessions *)

Lemma classEntry_Some k rs e :
  classEntry k rs = Some e ->
  inherited k = false
  /\ StudentReport.totalClasses e = classesOf k rs
  /\ exists d, d ∈ rs /\ Attendance.subject d = k.
Proof.
  unfold classEntry. destruct (inherited k); [done|].
  destruct (classesOf k rs) as [|n] eqn:E; [done|]. intros [= <-].
  split; [done|]. split; [done|].
  destruct (length_filter_pos
              (fun d => String.eqb (Attendance.subject d) k) rs)
    as (d & Hd & Hk); [unfold classesOf in E; lia|].
  apply String.eqb_eq in Hk. eauto.
Qed.

Lemma student_report_table req st student :
  Req.user req = Some student ->
  let rs := sortDesc (Attendance.find
                        (studentQuery student (Req.querySubject req)) (db st)) in
  getStudentAttendance req st
  = json 200 (StudentReportBody (fold_left addClass rs []))
  /\ NoDup (keys (fold_left addClass rs []))
  /\ forall k, get k (fold_left addClass rs []) = classEntry k rs.
Proof.
  intros Hu rs. unfold getStudentAttendance. rewrite Hu. split; [done|].
  apply (fold_addClass rs [] []); [apply NoDup_nil_2|].
  intros k. unfold classEntry. by destruct (inherited k).
Qed.




Lemma list_sum_classes (ks : list string) (rs : list Attendance.doc) :
  NoDup ks -> (forall d, d ∈ rs -> Attendance.subject d ∈ ks) ->
  list_sum (List.map (fun k : string => classesOf k rs) ks) = List.length rs.
Proof.
  intros Hnd. induction rs as [|d rest IH]; intros Hin.
  - simpl. clear. induction ks as [|k ks IHk]; simpl; [done | exact IHk].
  - assert (forall k : string, classesOf k (d :: rest)
              = ((if String.eqb (Attendance.subject d) k then 1 else 0)
                 + classesOf k rest)%nat) as Hcons.
    { intros k. unfold classesOf. simpl. by destruct (String.eqb _ _). }
    rewrite (List.map_ext _ _ Hcons).
    assert (forall (f g : string -> nat) l,
              list_sum (List.map (fun u : string => (f u + g u)%nat) l)
              = (list_sum (List.map f l) + list_sum (List.map g l))%nat) as Hadd.
    { intros f g l. induction l as [|a l IHl]; simpl; [done|]. rewrite IHl. lia. }
    rewrite (Hadd (fun k : string =>
                     if String.eqb (Attendance.subject d) k then 1%nat else 0%nat)
                  (fun k : string => classesOf k rest)).
    rewrite IH by (intros x Hx; by apply Hin, list_elem_of_further).
    change (List.length (d :: rest)) with (1 + List.length rest)%nat. f_equal.
    apply (list_sum_one_hot ks (Attendance.subject d) Hnd).
    apply Hin, list_elem_of_here.
Qed.

Lemma classesOf_not_inherited k rs :
  inherited k = false ->
  classesOf k (List.filter (fun d => negb (inherited (Attendance.subject d))) rs)
  = classesOf k rs.
Proof.
  intros Hk. unfold classesOf. rewrite filter_filter. f_equal.
  apply List.filter_ext. intros d.
  destruct (String.eqb (Attendance.subject d) k) eqn:E; [|apply andb_false_r].
  apply String.eqb_eq in E. by rewrite E, Hk.
Qed.

(** X12: the [totalClasses] of a student's report add up to the number of
    stored sessions that student redeemed (of the requested subject, if one
    is given), leaving out the sessions whose subject is a property name
    inherited by plain objects: those are dropped from the report. *)
Theorem student_report_conserves_sessions (req : Req.t) (st : State)
    (student : ObjectId) (report : list (string * StudentReport.entry)) :
  Req.user req = Some student ->
  getStudentAttendance req st = json 200 (StudentReportBody report) ->
  list_sum (List.map (fun '(_, e) => StudentReport.totalClasses e) report)
  = List.length
      (List.filter (fun d => negb (inherited (Attendance.subject d)))
         (Attendance.find (studentQuery student (Req.querySubject req)) (db st))).
Proof.
  intros Hu Hrep.
  destruct (student_report_table req st student Hu) as (Heq & Hnd & Hget).
  rewrite Heq in Hrep. injection Hrep as <-.
  set (rs := sortDesc _) in *.
  set (T := fold_left addClass rs []) in *.
  set (keep := fun d => negb (inherited (Attendance.subject d))).
  rewrite <- (length_filter_sortDesc keep). fold rs.
  rewrite <- (list_sum_classes (keys T) (List.filter keep rs) Hnd).
  - unfold keys. rewrite List.map_map. f_equal.
    apply List.map_ext_in. intros [k e] Hke. simpl.
    apply list_elem_of_In, (elem_get _ _ _ Hnd) in Hke. rewrite Hget in Hke.
    apply classEntry_Some in Hke as (Hinh & -> & _).
    symmetry. by apply classesOf_not_inherited.
  - intros d Hd. apply list_elem_of_In, filter_In in Hd as [Hd Hkeep].
    unfold keep in Hkeep. apply negb_true_iff in Hkeep.
    destruct (get (Attendance.subject d) T) as [e|] eqn:E.
    + apply get_Some_elem in E. unfold keys.
      apply list_elem_of_fmap. by exists (Attendance.subject d, e).
    + exfalso. rewrite Hget in E. unfold classEntry in E. rewrite Hkeep in E.
      assert (0 < classesOf (Attendance.subject d) rs)%nat as Hpos.
      { unfold classesOf. apply Nat.lt_le_trans with 1%nat; [lia|].
        clear -Hd. induction rs as [|x rest IH]; [done|]. simpl.
        destruct Hd as [->|Hd].
        - rewrite String.eqb_refl. simpl. lia.
        - destruct (String.eqb _ _); simpl; auto with lia. }
      destruct (classesOf (Attendance.subject d) rs); [lia | done].
Qed.

Lemma student_report_conserves_sessions_witness :
  Req.user (Req.mk (Some (User._id Example.ann)) Example.noBody "" None)
    = Some (User._id Example.ann)
  /\ getStudentAttendance
       (Req.mk (Some (User._id Example.ann)) Example.noBody "" None)
       Example.sameDay
     = json 200 (StudentReportBody [("CS101", StudentReport.mk 2 2 100%Q)])
  /\ list_sum (List.map (fun '(_, e) => StudentReport.totalClasses e)
                        [("CS101", StudentReport.mk 2 2 100%Q)])
     = List.length
         (List.filter (fun d => negb (inherited (Attendance.subject d)))
            (Attendance.find (studentQuery (User._id Example.ann) None)
                             (db Example.sameDay))).
Proof.
  split; [reflexivity|]. split; [reflexivity|].
  exact (student_report_conserves_sessions
           (Req.mk (Some (User._id Example.ann)) Example.noBody "" None)
           Example.sameDay (User._id Example.ann) _ eq_refl eq_refl).
Defined.

(** ** Session details and export *)

Lemma orElse_nonempty a b : b <> "" -> orElse a b <> "".
Proof.
  unfold orElse. destruct (String.eqb a "") eqn:E; [done|].
  by apply String.eqb_neq in E.
Qed.

Lemma getSessionDetails_200 req st details :
  getSessionDetails req st = json 200 (SessionDetailsBody details) ->
  exists faculty d,
    Req.user req = Some faculty
    /\ String.length (Req.sessionId req) = 24%nat
    /\ castObjectId (Req.sessionId req) = Some (lowerCase (Req.sessionId req))
    /\ Attendance.findOne (ownedBy (lowerCase (Req.sessionId req)) faculty)
                          (db st) = Some d
    /\ details
       = Details.mk (Attendance._id d)
           (orElse (Attendance.subject d) "Unknown")
           (orElse (Attendance.classRoom d) "Unknown")
           (Attendance.sessionDate d) (Attendance.status d)
           (List.map detailStudent
              (omap (findUser (users st)) (Attendance.markedStudents d))).
Proof.
  unfold getSessionDetails.
  destruct (String.eqb (Req.sessionId req) ""); [done|].
  destruct (Req.user req) as [faculty|]; [|done].
  destruct (isValidId (Req.sessionId req)) eqn:Hv; [|done]. simpl.
  destruct (castObjectId (Req.sessionId req)) as [id|] eqn:Hcast; [|done].
  pose proof (proj1 (castObjectId_Some _ _) Hcast) as (_ & _ & ->).
  destruct (Attendance.exists_ _ _); [|done]. simpl.
  destruct (Attendance.findOne _ _) as [d|] eqn:Hf; [|done].
  intros [= <-]. exists faculty, d. repeat split; try done.
  by apply Nat.eqb_eq in Hv.
Qed.

Lemma length_omap_le {A B} (f : A -> option B) l :
  (List.length (omap f l) <= List.length l)%nat.
Proof.
  induction l as [|a l IH]; [done|]. csimpl.
  destruct (f a); simpl in *; lia.
Qed.

Lemma findUser_elem us id u : findUser us id = Some u -> u ∈ us.
Proof.
  unfold findUser. intros H. apply List.find_some in H as [H _].
  by apply list_elem_of_In.
Qed.

(** X13: a session-details answer with status 200 is about the requested
    session: the request's identifier has 24 characters, the answer carries
    it in lower case, and that is the identifier of a stored session, which
    belongs to the caller.  Its subject and classroom are never empty, it
    lists no more students than the session has redeemers, and every listed
    student is a redeemer of that session with a user document, shown with a
    non-empty name and e-mail address.  Conversely the owner of a stored
    session who asks for it by its identifier, in either case of the
    letters, is answered 200. *)
Theorem session_details_shape (req : Req.t) (st : State) :
  (forall details,
     getSessionDetails req st = json 200 (SessionDetailsBody details) ->
     String.length (Req.sessionId req) = 24%nat
     /\ Details.sessionId details = lowerCase (Req.sessionId req)
     /\ Details.subject details <> ""
     /\ Details.classRoom details <> ""
     /\ exists d,
          d ∈ db st
          /\ Attendance._id d = Details.sessionId details
          /\ Req.user req = Some (Attendance.faculty d)
          /\ Details.status details = Attendance.status d
          /\ Details.sessionDate details = Attendance.sessionDate d
          /\ (List.length (Details.students details)
              <= List.length (Attendance.markedStudents d))%nat
          /\ forall s, s ∈ Details.students details ->
               Details.id s ∈ Attendance.markedStudents d
               /\ (exists u, u ∈ users st /\ User._id u = Details.id s)
               /\ Details.name s <> ""
               /\ Details.email s <> "")
  /\ (forall d, wf st -> d ∈ db st ->
        Req.user req = Some (Attendance.faculty d) ->
        String.length (Req.sessionId req) = 24%nat ->
        lowerCase (Req.sessionId req) = Attendance._id d ->
        forallb isHexDigit (list_ascii_of_string (Attendance._id d)) = true ->
        statusCode (getSessionDetails req st) = 200).
Proof.
  split.
  - intros details H.
    apply getSessionDetails_200 in H as (faculty & d & Hu & Hlen & _ & Hf & ->).
    apply findOne_Some in Hf as [Hd Ho].
    apply (proj1 (ownedBy_spec _ _ _)) in Ho as [Hid Hfac]. simpl.
    split; [done|]. split; [done|]. split; [by apply orElse_nonempty|].
    split; [by apply orElse_nonempty|].
    exists d. rewrite Hfac. repeat split; try done.
    + rewrite length_map. apply length_omap_le.
    + apply list_elem_of_fmap in H as (u & -> & Hu'). simpl.
      apply list_elem_of_omap in Hu' as (x & Hx & Hfind).
      by rewrite (findUser_id _ _ _ Hfind).
    + apply list_elem_of_fmap in H as (u & -> & Hu'). simpl.
      apply list_elem_of_omap in Hu' as (x & Hx & Hfind).
      exists u. split; [by apply findUser_elem in Hfind | done].
    + apply list_elem_of_fmap in H as (u & -> & _). simpl.
      by apply orElse_nonempty.
    + apply list_elem_of_fmap in H as (u & -> & _). simpl.
      by apply orElse_nonempty.
  - intros d Hwf Hd Hu Hlen Hlow Hhex.
    rewrite (getSessionDetails_cast req st _ Hu Hlen).
    assert (castObjectId (Req.sessionId req) = Some (Attendance._id d)) as ->.
    { apply castObjectId_Some. split; [done|]. split; [|done].
      rewrite <- Hlow in Hhex. unfold lowerCase in Hhex.
      rewrite list_ascii_of_string_of_list_ascii in Hhex.
      revert Hhex. generalize (list_ascii_of_string (Req.sessionId req)).
      intros l. induction l as [|c l IH]; [done|]. simpl.
      intros [Hc Hl]%andb_true_iff. by rewrite Hc, IH. }
    assert (Attendance.exists_ (Attendance._id d) (db st) = true) as ->
      by (apply exists_true; eauto).
    by rewrite (findOne_ownedBy_Some _ _ _ d Hwf Hd eq_refl eq_refl).
Qed.

Lemma session_details_shape_witness :
  exists details,
    getSessionDetails
      (Req.mk (Some Example.prof) Example.noBody
              "64B0C0FFEE0000000000A001" None)
      Example.redeemed
    = json 200 (SessionDetailsBody details)
    /\ Details.sessionId details = Example.sid
    /\ Details.subject details <> "".
Proof.
  eexists. split; [reflexivity|].
  pose proof (proj1 (session_details_shape
                       (Req.mk (Some Example.prof) Example.noBody
                               "64B0C0FFEE0000000000A001" None)
                       Example.redeemed) _ eq_refl) as (_ & H1 & H2 & _).
  split; [exact H1 | exact H2].
Defined.




(** A session whose subject holds a line break is shown by the details view
    and cannot be exported. *)
Lemma subject_with_a_line_break :
  let created :=
    snd (generateSessionQR
           (mkEnv 1000 (Some Example.seed) Example.sidBytes)
           (Req.mk (Some Example.prof)
                   (Req.mkBody (Some (String (ascii_of_N 10) "CS101"))
                               (Some "A1") (Plain None) None None)
                   "" None)
           Example.empty) in
  statusCode (getSessionDetails
                (Req.mk (Some Example.prof) Example.noBody Example.sid None)
                created) = 200
  /\ exportSessionToExcel
       (Req.mk (Some Example.prof) Example.noBody Example.sid None) created
     = json 500 (Fault "Error exporting to Excel").
Proof. split; reflexivity. Qed.

(** ** The router *)

Lemma stripPrefix_mount url rest :
  stripPrefix mount url = Some rest ->
  exists a b, url = a :: b :: rest
    /\ lowerCase a = "api" /\ lowerCase b = "attendance".
Proof.
  unfold mount. destruct url as [|a [|b more]]; simpl.
  - done.
  - by destruct (sameSegment "api" a).
  - destruct (sameSegment "api" a) eqn:Ha; [|done].
    destruct (sameSegment "attendance" b) eqn:Hb; [|done].
    intros [= ->]. exists a, b. split; [done|].
    unfold sameSegment in Ha, Hb.
    apply String.eqb_eq in Ha, Hb. by split.
Qed.

(** X15: the router matches letters in either case and answers HEAD through
    the routes registered with [get].  Whatever the request, a route whose
    handlers run for it lies under the mount point [/api/attendance], is
    registered for the request's method or, for a HEAD request, with [get],
    and runs [auth] first and then exactly one role guard: [isStudent] before
    the two student handlers, [isFaculty] before the four others.  The two
    handlers that write to the store are registered with [post] and so run
    for POST requests only; the four reading ones are registered with [get]
    and run for GET and HEAD requests only.  Every registered route is the
    one that runs for some request. *)
Theorem every_route_is_guarded :
  (forall (m : Method) (url : list string) (r : Route),
     dispatch m url = Some r ->
     (exists a b rest, url = a :: b :: rest
        /\ lowerCase a = "api" /\ lowerCase b = "attendance")
     /\ (method r = m \/ (method r = GET /\ m = HEAD))
     /\ guards r
        = [auth; match handler r with
                 | MarkAttendance | GetStudentAttendance => isStudent
                 | _ => isFaculty
                 end]
     /\ match handler r with
        | GenerateSessionQR | MarkAttendance => method r = POST /\ m = POST
        | _ => method r = GET /\ (m = GET \/ m = HEAD)
        end)
  /\ (forall r, r ∈ router ->
        exists url, dispatch (method r) url = Some r
          /\ (method r = GET -> dispatch HEAD url = Some r))
  /\ dispatch GET ["API"; "Attendance"; "REPORT"; ""]
     = dispatch GET ["api"; "attendance"; "report"].
Proof.
  split; [|split].
  - intros m url r. unfold dispatch.
    destruct (stripPrefix mount url) as [rest|] eqn:Hs; [|done].
    intros H. apply List.find_some in H as [Hin Hm].
    apply andb_true_iff in Hm as [Hmeth Hpath].
    split.
    { destruct (stripPrefix_mount _ _ Hs) as (a & b & ? & ? & ?). eauto 6. }
    simpl in Hin.
    repeat (destruct Hin as [<-|Hin];
            [simpl in Hmeth |- *; destruct m; try done; auto 6|]).
    done.
  - intros r Hr. unfold router in Hr.
    repeat (apply elem_of_cons in Hr as [->|Hr];
            [first [ by exists ["api"; "attendance"; "generate-qr"]
                   | by exists ["api"; "attendance"; "report"]
                   | by exists ["api"; "attendance"; "session"; "x"]
                   | by exists ["api"; "attendance"; "export"; "x"]
                   | by exists ["api"; "attendance"; "mark"]
                   | by exists ["api"; "attendance"; "my-attendance"] ]|]).
    by apply elem_of_nil in Hr.
  - reflexivity.
Qed.

Lemma every_route_is_guarded_witness :
  dispatch HEAD ["api"; "attendance"; "MY-attendance"]
    = Some (mkRoute GET [Lit "my-attendance"] [auth; isStudent]
                    GetStudentAttendance)
  /\ guards (mkRoute GET [Lit "my-attendance"] [auth; isStudent]
                     GetStudentAttendance)
     = [auth; isStudent].
Proof.
  split; [reflexivity|].
  exact (proj1 (proj2 (proj2 (proj1 every_route_is_guarded
                                HEAD ["api"; "attendance"; "MY-attendance"]
                                _ eq_refl)))).
Defined.

(** ** The sort of the report queries *)

Lemma insertDesc_Permutation d l : Permutation (insertDesc d l) (d :: l).
Proof.
  induction l as [|x rest IH]; simpl; [done|].
  destruct (_ <=? _); [done|]. rewrite IH. apply perm_swap.
Qed.

Lemma insertDesc_descending d l :
  descending l -> descending (insertDesc d l).
Proof.
  induction l as [|x rest IH]; simpl.
  - by split.
  - intros [Hx Hs].
    destruct (Attendance.sessionDate x <=? Attendance.sessionDate d) eqn:E.
    + apply Z.leb_le in E. simpl. split; [|by split].
      constructor; [done|].
      eapply Forall_impl; [exact Hx|]. simpl. intros; lia.
    + apply Z.leb_gt in E. simpl. split; [|by apply IH].
      apply Forall_forall. intros y Hy.
      apply (proj1 (elem_of_insertDesc _ _ _)) in Hy as [->|Hy]; [lia|].
      rewrite Forall_forall in Hx. by apply Hx.
Qed.

(** X16: sorting by [sessionDate: -1] neither loses nor duplicates a record,
    and in the result no record is followed by one with a later session
    date. *)
Theorem sortDesc_sorted_permutation (l : list Attendance.doc) :
  Permutation (sortDesc l) l /\ descending (sortDesc l).
Proof.
  unfold sortDesc. induction l as [|d rest [IHp IHs]]; simpl.
  - done.
  - split; [|by apply insertDesc_descending].
    rewrite insertDesc_Permutation. by constructor.
Qed.

(** ** Handlers composed *)

Lemma truthy_str v : truthy v = true -> orElse (str v) "Unknown" = str v.
Proof.
  destruct v as [s|]; [|done]. simpl. unfold orElse.
  by destruct (String.eqb s "").
Qed.

Lemma toLower_hexDigit b :
  toLower (hexDigit (Byte.to_N b / 16)) = hexDigit (Byte.to_N b / 16)
  /\ toLower (hexDigit (Byte.to_N b mod 16)) = hexDigit (Byte.to_N b mod 16).
Proof. destruct b; split; reflexivity. Qed.

(** An identifier as it prints is the canonical form the cast produces. *)
Lemma castObjectId_toHex bytes :
  String.length (toHex bytes) = 24%nat ->
  castObjectId (toHex bytes) = Some (toHex bytes).
Proof.
  intros Hlen. apply castObjectId_Some. split; [done|].
  assert (List.map toLower (list_ascii_of_string (toHex bytes))
          = list_ascii_of_string (toHex bytes)) as Hlower.
  { clear. induction bytes as [|b rest IH]; [done|].
    cbn [toHex list_ascii_of_string List.map].
    destruct (toLower_hexDigit b) as [-> ->]. by rewrite IH. }
  split.
  - clear -Hlower. induction bytes as [|b rest IH]; [done|].
    cbn [toHex list_ascii_of_string List.map forallb] in *.
    destruct (toLower_hexDigit b) as [-> ->].
    destruct (hexDigit_isHexDigit b) as [-> ->]. simpl.
    apply IH. by injection Hlower.
  - unfold lowerCase. rewrite Hlower.
    by rewrite string_of_list_ascii_of_string.
Qed.

(** X17: once a session is created, its creator reads it back through the
    details view under the identifier of the creation response: the subject
    and classroom of the request, the creation time, status [active] and no
    student.  Any other user gets [Forbidden] from the details view and
    [NotFound] from the export. *)
Theorem created_session_is_readable (env : Env) (req : Req.t) (st st' : State)
    (message code : string) (id : ObjectId) (expiresIn : string)
    (req' : Req.t) :
  generateSessionQR env req st
  = (json 200 (QrGenerated message code id expiresIn), st') ->
  String.length id = 24%nat ->
  Req.sessionId req' = id ->
  (Req.user req' = Req.user req ->
   getSessionDetails req' st'
   = json 200 (SessionDetailsBody
       (Details.mk id (str (Req.subject (Req.body req)))
                   (str (Req.classRoom (Req.body req)))
                   (now env) Attendance.active [])))
  /\ (forall other, Req.user req' = Some other -> Req.user req <> Some other ->
      getSessionDetails req' st' = Forbidden
      /\ exportSessionToExcel req' st' = NotFound).
Proof.
  intros Hgen Hlen Hid.
  destruct (generateSessionQR_success env req st)
    as (faculty & bytes & Hu & _ & Hfresh & Hs & Hc & Heq);
    [by rewrite Hgen|].
  cbv zeta in Heq. rewrite Heq in Hgen. injection Hgen as _ _ Hnew _ <-.
  set (d := Attendance.mk _ _ _ _ _ _ _ _) in *.
  assert (forall x, x ∈ db st -> Attendance._id x <> id) as Hold.
  { intros x Hx E. apply Hfresh. rewrite Hnew, <- E.
    unfold Attendance.ids. apply list_elem_of_fmap. by exists x. }
  assert (d ∈ db st ++ [d]) as Hd.
  { apply elem_of_app. right. apply list_elem_of_here. }
  assert (Attendance._id d = id) as Hdid by done.
  assert (castObjectId (Req.sessionId req') = Some id) as Hcast.
  { rewrite Hid, <- Hnew. apply castObjectId_toHex.
    fold (newObjectId env). by rewrite Hnew. }
  assert (String.length (Req.sessionId req') = 24%nat) as Hlen'
    by by rewrite Hid.
  split.
  - intros Hu'. rewrite Hu in Hu'.
    rewrite (getSessionDetails_cast req' _ faculty Hu' Hlen'), Hcast.
    simpl db. simpl users.
    assert (Attendance.exists_ id (db st ++ [d]) = true) as ->.
    { apply exists_true. by exists d. }
    rewrite (findOne_app_last (ownedBy id faculty) (db st) d).
    + simpl. rewrite !truthy_str by done. by rewrite Hnew.
    + intros x Hx. apply not_true_iff_false. intros Ho.
      apply (proj1 (ownedBy_spec _ _ _)) in Ho as [E _]. by apply (Hold x).
    + by apply ownedBy_spec.
  - intros other Hu' Hne.
    assert (forall d', d' ∈ db st ++ [d] ->
              Attendance._id d' = id ->
              Attendance.faculty d' <> other) as Hnone.
    { intros d' Hd' Hid' E. apply elem_of_app in Hd' as [Hd'|Hd'].
      - by apply (Hold d' Hd').
      - apply list_elem_of_singleton in Hd'. subst d'. simpl in E.
        apply Hne. by rewrite Hu, E. }
    split.
    + by apply (getSessionDetails_other_owner req' _ other id d).
    + unfold exportSessionToExcel. rewrite Hu', Hcast. simpl db.
      by rewrite (findOne_ownedBy_None _ _ _ Hnone).
Qed.

Lemma created_session_is_readable_witness :
  generateSessionQR (mkEnv 1000 (Some Example.seed) Example.sidBytes)
                    Example.createReq Example.empty
  = (json 200 (QrGenerated "Session QR code generated successfully"
                 (toHex Example.seed) Example.sid "2 minutes"),
     Example.created)
  /\ String.length Example.sid = 24%nat
  /\ getSessionDetails
       (Req.mk (Some Example.prof) Example.noBody Example.sid None)
       Example.created
     = json 200 (SessionDetailsBody
         (Details.mk Example.sid "CS101" "A1" 1000 Attendance.active [])).
Proof.
  split; [reflexivity|]. split; [reflexivity|].
  exact (proj1 (created_session_is_readable
                  (mkEnv 1000 (Some Example.seed) Example.sidBytes)
                  Example.createReq Example.empty Example.created _ _ _ _
                  (Req.mk (Some Example.prof) Example.noBody Example.sid None)
                  eq_refl eq_refl eq_refl) eq_refl).
Defined.

Lemma classesOf_pos d rs :
  d ∈ rs -> (0 < classesOf (Attendance.subject d) rs)%nat.
Proof.
  unfold classesOf. induction rs as [|x rest IH]; intros Hd.
  - by apply elem_of_nil in Hd.
  - simpl. apply elem_of_cons in Hd as [<-|Hd].
    + rewrite String.eqb_refl. simpl. lia.
    + destruct (String.eqb _ _); simpl; auto with lia.
Qed.

(** X18: after a successful redemption the student's own report, asked for
    without a subject or for the session's subject, has an entry for the
    subject of the redeemed session, counting at least that session, unless
    the subject is a property name inherited by plain objects. *)
Theorem redeemed_session_is_reported (env : Env) (req : Req.t) (st : State)
    (student : ObjectId) (req' : Req.t) :
  wf st ->
  Req.user req = Some student ->
  statusCode (fst (markAttendance env req st)) = 200 ->
  Req.user req' = Some student ->
  exists d,
    d ∈ db (snd (markAttendance env req st))
    /\ match Req.qrCode (Req.body req) with
       | Plain (Some code) => Attendance.qrCode d = code
       | Selector sel => sel (Attendance.qrCode d) = true
       | _ => False
       end
    /\ student ∈ Attendance.markedStudents d
    /\ (inherited (Attendance.subject d) = false ->
        (truthy (Req.querySubject req') = true ->
         str (Req.querySubject req') = Attendance.subject d) ->
        exists report e,
          getStudentAttendance req' (snd (markAttendance env req st))
          = json 200 (StudentReportBody report)
          /\ (Attendance.subject d, e) ∈ report
          /\ (1 <= StudentReport.totalClasses e)%nat
          /\ StudentReport.attended e = StudentReport.totalClasses e).
Proof.
  intros Hwf Hu Hok Hu'.
  destruct (markAttendance_success env req st student Hwf Hu Hok)
    as (i & s & _ & Hcode & _ & _ & _ & Hi).
  set (st' := snd (markAttendance env req st)) in *.
  exists (Attendance.pushStudent student s).
  assert (Attendance.pushStudent student s ∈ db st') as Hd.
  { by apply list_elem_of_lookup_2 in Hi. }
  split; [done|]. split; [by apply (proj1 (selects_spec _ _)) in Hcode|].
  assert (student ∈ Attendance.markedStudents (Attendance.pushStudent student s))
    as Hin.
  { simpl. apply elem_of_app. right. apply list_elem_of_here. }
  split; [done|]. intros Hinh Hq.
  destruct (student_report_table req' st' student Hu') as (Heq & Hnd & Hget).
  cbv zeta in Heq, Hnd, Hget.
  set (rs := sortDesc _) in *.
  assert (Attendance.pushStudent student s ∈ rs) as Hrs.
  { apply elem_of_sortDesc. unfold Attendance.find.
    apply list_elem_of_In, filter_In. split; [by apply list_elem_of_In|].
    unfold studentQuery. apply andb_true_iff. split; [by apply includes_true|].
    destruct (truthy (Req.querySubject req')) eqn:Ht; [|done].
    apply String.eqb_eq. symmetry. by apply Hq. }
  pose proof (classesOf_pos _ _ Hrs) as Hpos.
  pose proof (Hget (Attendance.subject (Attendance.pushStudent student s)))
    as Hentry.
  unfold classEntry in Hentry. rewrite Hinh in Hentry.
  destruct (classesOf _ rs) as [|n]; [lia|].
  eexists _, _. split; [exact Heq|].
  split; [by apply get_Some_elem|]. simpl. split; [lia | done].
Qed.

Lemma redeemed_session_is_reported_witness :
  wf Example.created
  /\ statusCode (fst (markAttendance (Example.at_ 2000)
                        (Example.redeemReq Example.ann) Example.created)) = 200
  /\ exists d,
       d ∈ db Example.redeemed
       /\ User._id Example.ann ∈ Attendance.markedStudents d.
Proof.
  assert (wf Example.created) as Hwf.
  { unfold wf. vm_compute. apply NoDup_singleton. }
  split; [exact Hwf|]. split; [reflexivity|].
  destruct (redeemed_session_is_reported
              (Example.at_ 2000) (Example.redeemReq Example.ann)
              Example.created (User._id Example.ann)
              (Req.mk (Some (User._id Example.ann)) Example.noBody "" None)
              Hwf eq_refl eq_refl eq_refl) as (d & Hd & _ & Hin & _).
  exists d. split; [exact Hd | exact Hin].
Defined.

Lemma flat_elem k rs x :
  x ∈ flat k rs <-> exists r, r ∈ rs
    /\ Attendance.subject (record r) = k /\ x ∈ students r.
Proof.
  unfold flat, ofSubject. split.
  - intros H. apply list_elem_of_In, in_concat in H as (l & Hl & Hx).
    apply in_map_iff in Hl as (r & <- & Hr).
    apply filter_In in Hr as [Hr Hk]. apply String.eqb_eq in Hk.
    exists r. split; [by apply list_elem_of_In|].
    split; [done | by apply list_elem_of_In].
  - intros (r & Hr & Hk & Hx). apply list_elem_of_In, in_concat.
    exists (students r). split; [|by apply list_elem_of_In].
    apply in_map, filter_In. split; [by apply list_elem_of_In|].
    by apply String.eqb_eq.
Qed.

(** X19: a successful redemption by a student who has a user document shows
    in the report of the session's faculty: whenever the report's filter
    selects the redeemed session, the report has an entry for its subject
    with a row carrying that student's name and e-mail address and a count of
    at least one.  The subject [__proto__] is the exception: it never shows
    in a report. *)
Theorem redemption_reaches_faculty_report (env : Env) (req : Req.t) (st : State)
    (student : ObjectId) (u : User.doc) (req' : Req.t) :
  wf st ->
  Req.user req = Some student ->
  statusCode (fst (markAttendance env req st)) = 200 ->
  findUser (users st) student = Some u ->
  exists d,
    d ∈ db (snd (markAttendance env req st))
    /\ match Req.qrCode (Req.body req) with
       | Plain (Some code) => Attendance.qrCode d = code
       | Selector sel => sel (Attendance.qrCode d) = true
       | _ => False
       end
    /\ (Req.user req' = Some (Attendance.faculty d) ->
        reportQuery (Attendance.faculty d) (Req.subject (Req.body req'))
          (Req.startDate (Req.body req')) (Req.endDate (Req.body req')) d = true ->
        Attendance.subject d <> "__proto__" ->
        exists report e row,
          getAttendanceReport req' (snd (markAttendance env req st))
          = json 200 (FacultyReportBody report)
          /\ (Attendance.subject d, e) ∈ report
          /\ row ∈ FacultyReport.students e
          /\ FacultyReport.name row = User.name u
          /\ FacultyReport.email row = User.email u
          /\ (1 <= FacultyReport.attendanceCount row)%nat).
Proof.
  intros Hwf Hu Hok Hfind.
  destruct (markAttendance_success env req st student Hwf Hu Hok)
    as (i & s & _ & Hcode & _ & _ & _ & Hi).
  assert (users (snd (markAttendance env req st)) = users st) as Husers.
  { destruct (markAttendance_cases env req st student Hu)
      as [[_ ->] | [(? & _ & _ & ->) | (? & _ & _ & ->)]]; done. }
  set (st' := snd (markAttendance env req st)) in *.
  set (d := Attendance.pushStudent student s).
  exists d.
  assert (d ∈ db st') as Hd by (by apply list_elem_of_lookup_2 in Hi).
  split; [done|]. split; [by apply (proj1 (selects_spec _ _)) in Hcode|].
  intros Hu' Hq Hproto.
  set (k := Attendance.subject d) in *.
  set (rs := selected (Attendance.faculty d) req' st').
  assert (getAttendanceReport req' st'
          = json 200 (FacultyReportBody (formatReport (aggregate rs)))) as Heq.
  { unfold getAttendanceReport. by rewrite Hu'. }
  assert (populate (users st') d ∈ rs) as Hr.
  { unfold rs, selected. apply list_elem_of_fmap. exists d. split; [done|].
    apply elem_of_sortDesc. unfold Attendance.find.
    apply list_elem_of_In, filter_In. split; [by apply list_elem_of_In | done]. }
  assert (u ∈ flat k rs) as Hflat.
  { apply flat_elem. exists (populate (users st') d). split; [done|].
    split; [done|]. simpl. rewrite Husers. apply list_elem_of_omap.
    exists student. split; [|done]. simpl.
    apply elem_of_app. right. apply list_elem_of_here. }
  destruct (aggregate_spec rs) as [Hnd Hagg]. specialize (Hagg k).
  destruct (get k (aggregate rs)) as [data|] eqn:Hget.
  2:{ exfalso. assert (populate (users st') d ∈ ofSubject k rs) as Hin.
      { unfold ofSubject. apply list_elem_of_In, filter_In.
        split; [by apply list_elem_of_In|]. by apply String.eqb_eq. }
      rewrite Hagg in Hin. by apply elem_of_nil in Hin. }
  destruct Hagg as (_ & _ & _ & Hstud). specialize (Hstud student).
  unfold studentEntry in Hstud.
  destruct (List.filter (isUser student) (flat k rs)) as [|first rest] eqn:Hfil.
  { exfalso. assert (In u (List.filter (isUser student) (flat k rs))) as Hin.
    { apply filter_In. split; [by apply list_elem_of_In|].
      unfold isUser. apply String.eqb_eq. by apply findUser_id in Hfind. }
    by rewrite Hfil in Hin. }
  assert (first = u) as ->.
  { assert (In first (List.filter (isUser student) (flat k rs))) as Hin
      by (rewrite Hfil; by left).
    apply filter_In in Hin as [Hin Hid]. apply String.eqb_eq in Hid.
    apply list_elem_of_In, flat_elem in Hin as (r & Hr' & _ & Hfirst).
    unfold rs, selected in Hr'.
    apply list_elem_of_fmap in Hr' as (d' & -> & _). simpl in Hfirst.
    apply list_elem_of_omap in Hfirst as (x & _ & Hx).
    pose proof (findUser_id _ _ _ Hx) as Hxid. rewrite Hid in Hxid. subst x.
    rewrite Husers, Hfind in Hx. by injection Hx. }
  exists (formatReport (aggregate rs)), (formatSubject data).
  eexists. split; [exact Heq|].
  split. { apply formatReport_elem_2; [done | by apply get_Some_elem]. }
  split.
  { simpl. apply list_elem_of_fmap.
    exists (student, Agg.mkStudent (User.name u) (User.email u)
                                   (S (List.length rest))).
    split; [reflexivity | by apply get_Some_elem]. }
  simpl. repeat split; lia.
Qed.

Lemma redemption_reaches_faculty_report_witness :
  wf Example.created
  /\ findUser (users Example.created) (User._id Example.ann) = Some Example.ann
  /\ exists d,
       d ∈ db Example.redeemed
       /\ Attendance.qrCode d = toHex Example.seed.
Proof.
  assert (wf Example.created) as Hwf.
  { unfold wf. vm_compute. apply NoDup_singleton. }
  split; [exact Hwf|]. split; [reflexivity|].
  destruct (redemption_reaches_faculty_report
              (Example.at_ 2000) (Example.redeemReq Example.ann)
              Example.created (User._id Example.ann) Example.ann
              Example.reportReq Hwf eq_refl eq_refl eq_refl)
    as (d & Hd & Hc & _).
  exists d. split; [exact Hd | exact Hc].
Defined.

(** ** Expiry and the reports *)

Lemma filter_statusless (q : Attendance.doc -> bool) l :
  (forall d, q (statusless d) = q d) ->
  List.filter q (List.map statusless l) = List.map statusless (List.filter q l).
Proof.
  intros Hq. induction l as [|d rest IH]; [done|]. simpl. rewrite Hq, IH.
  by destruct (q d).
Qed.

Lemma insertDesc_statusless d l :
  insertDesc (statusless d) (List.map statusless l)
  = List.map statusless (insertDesc d l).
Proof.
  induction l as [|x rest IH]; [done|]. simpl.
  destruct (Attendance.sessionDate x <=? Attendance.sessionDate d); [done|].
  simpl. by rewrite IH.
Qed.

Lemma sortDesc_statusless l :
  sortDesc (List.map statusless l) = List.map statusless (sortDesc l).
Proof.
  unfold sortDesc. induction l as [|d rest IH]; [done|]. simpl.
  by rewrite IH, insertDesc_statusless.
Qed.

Lemma aggregate_statusless us l acc :
  fold_left addRecord (List.map (populate us) (List.map statusless l)) acc
  = fold_left addRecord (List.map (populate us) l) acc.
Proof.
  revert acc. induction l as [|d rest IH]; intros acc; [done|]. simpl.
  rewrite IH. done.
Qed.

Lemma addClass_statusless l acc :
  fold_left addClass (List.map statusless l) acc = fold_left addClass l acc.
Proof.
  revert acc. induction l as [|d rest IH]; intros acc; [done|]. simpl.
  rewrite IH. done.
Qed.

Lemma reports_ignore_status req st st' :
  users st' = users st ->
  List.map statusless (db st') = List.map statusless (db st) ->
  getAttendanceReport req st' = getAttendanceReport req st
  /\ getStudentAttendance req st' = getStudentAttendance req st.
Proof.
  intros Husers Hdb. split.
  - unfold getAttendanceReport. destruct (Req.user req) as [faculty|]; [|done].
    cbv zeta. rewrite Husers. unfold aggregate, Attendance.find.
    set (q := reportQuery _ _ _ _).
    assert (forall d, q (statusless d) = q d) as Hq by done.
    rewrite <- (aggregate_statusless _ (sortDesc (List.filter q (db st')))).
    rewrite <- (aggregate_statusless _ (sortDesc (List.filter q (db st)))).
    by rewrite <- !sortDesc_statusless, <- !filter_statusless, Hdb.
  - unfold getStudentAttendance. destruct (Req.user req) as [student|]; [|done].
    cbv zeta. unfold Attendance.find.
    set (q := studentQuery _ _).
    assert (forall d, q (statusless d) = q d) as Hq by done.
    rewrite <- (addClass_statusless (sortDesc (List.filter q (db st')))).
    rewrite <- (addClass_statusless (sortDesc (List.filter q (db st)))).
    by rewrite <- !sortDesc_statusless, <- !filter_statusless, Hdb.
Qed.

Lemma expireSession_statusless id db :
  List.map statusless (expireSession id db) = List.map statusless db.
Proof.
  induction (expireSession_changes id db) as [|x x' l l' Hx _ IH]; [done|].
  simpl. rewrite IH. f_equal.
  destruct Hx as [->|(_ & _ & ->)]; done.
Qed.

(** X20: the firing of an expiry timer changes no report: the faculty
    report and the student report answer every request after it as they did
    before it, so expired sessions keep counting. *)
Theorem expiry_changes_no_report (clock : Z) (n : nat) (st : State)
    (req : Req.t) :
  getAttendanceReport req (fire clock n st) = getAttendanceReport req st
  /\ getStudentAttendance req (fire clock n st) = getStudentAttendance req st.
Proof.
  apply reports_ignore_status; unfold fire;
    destruct (timers st !! n) as [t|]; try done;
    destruct (due t <=? clock); try done.
  simpl. apply expireSession_statusless.
Qed.

(** ** Redemption and the reports of others *)

Lemma findById_wf (db : Attendance.collection) d :
  NoDup (Attendance.ids db) -> d ∈ db ->
  Attendance.findById (Attendance._id d) db = Some d.
Proof.
  intros Hnd Hd. destruct (Attendance.findById _ db) as [d'|] eqn:E.
  - destruct (findById_Some _ _ _ E) as [Hd' Hid].
    f_equal. by apply (unique_by_id db).
  - eapply findOne_None in E; [|exact Hd]. simpl in E.
    by rewrite String.eqb_refl in E.
Qed.

Lemma filter_sameClass (q : Attendance.doc -> bool) l l' :
  Forall2 (fun x x' => q x' = q x /\ sameClass x x') l l' ->
  Forall2 sameClass (List.filter q l) (List.filter q l').
Proof.
  induction 1 as [|x x' l l' [Hq Hc] _ IH]; [constructor|]. simpl.
  rewrite Hq. destruct (q x); [by constructor | done].
Qed.

Lemma insertDesc_sameClass d d' l l' :
  sameClass d d' -> Forall2 sameClass l l' ->
  Forall2 sameClass (insertDesc d l) (insertDesc d' l').
Proof.
  intros Hd. induction 1 as [|x x' l l' Hx Hl IH]; simpl.
  - constructor; [done | constructor].
  - pose proof Hd as [_ Hdate]. pose proof Hx as [_ Hxdate].
    rewrite Hdate, Hxdate.
    destruct (_ <=? _).
    + constructor; [done|]. by constructor.
    + constructor; [done | exact IH].
Qed.

Lemma sortDesc_sameClass l l' :
  Forall2 sameClass l l' -> Forall2 sameClass (sortDesc l) (sortDesc l').
Proof.
  unfold sortDesc. induction 1; simpl; [constructor|].
  by apply insertDesc_sameClass.
Qed.

Lemma addClass_sameClass l l' acc :
  Forall2 sameClass l l' -> fold_left addClass l acc = fold_left addClass l' acc.
Proof.
  intros H. revert acc. induction H as [|x x' l l' [Hs _] _ IH]; intros acc;
    [done|].
  simpl. rewrite IH. f_equal. unfold addClass. by rewrite Hs.
Qed.

Lemma filter_unselected (q : Attendance.doc -> bool) l l' :
  Forall2 (fun x x' => x' = x \/ (q x = false /\ q x' = false)) l l' ->
  List.filter q l = List.filter q l'.
Proof.
  induction 1 as [|x x' l l' Hx _ IH]; [done|]. simpl.
  destruct Hx as [->|[-> ->]]; by rewrite IH.
Qed.

Lemma includes_push (b a : ObjectId) l :
  b <> a -> includes b (l ++ [a]) = includes b l.
Proof.
  intros Hne. unfold includes. rewrite existsb_app. simpl.
  apply String.eqb_neq in Hne. rewrite Hne. by rewrite !orb_false_r.
Qed.

(** X21: a redemption is invisible to everybody else.  It leaves the report
    of every other student as it was, and the report of every faculty who
    owns no session that the presented [qrCode] matches: none carrying it,
    when it is a string, none it selects, when it is an object of query
    operators or an array. *)
Theorem redemption_is_invisible_to_others (env : Env) (req : Req.t)
    (st : State) (student : ObjectId) (req' : Req.t) :
  wf st ->
  Req.user req = Some student ->
  let st' := snd (markAttendance env req st) in
  (forall other, Req.user req' = Some other -> other <> student ->
     getStudentAttendance req' st' = getStudentAttendance req' st)
  /\ (forall other, Req.user req' = Some other ->
        (forall d, d ∈ db st ->
           match Req.qrCode (Req.body req) with
           | Plain (Some code) => Attendance.qrCode d = code
           | Selector sel => sel (Attendance.qrCode d) = true
           | _ => False
           end ->
           Attendance.faculty d <> other) ->
        getAttendanceReport req' st' = getAttendanceReport req' st).
Proof.
  intros Hwf Hu. cbv zeta.
  destruct (markAttendance_cases env req st student Hu)
    as [[_ ->] | [(s & _ & _ & ->) | (s & Hfind & _ & ->)]]; [done..|].
  simpl snd. apply findOne_Some in Hfind as [Hs Hred].
  pose proof (save_first (Attendance._id s) (db st) s
                (Attendance.pushStudent student s)
                (findById_wf _ _ Hwf Hs) eq_refl) as Hsave.
  set (db' := Attendance.save _ _) in *.
  split.
  - intros other Hu' Hne. unfold getStudentAttendance. rewrite Hu'. cbv zeta.
    simpl db. do 2 f_equal. symmetry.
    apply addClass_sameClass, sortDesc_sameClass.
    unfold Attendance.find. apply filter_sameClass.
    eapply Forall2_impl; [exact Hsave|]. simpl.
    intros x x' [->|[-> ->]]; [done|]. split; [|done].
    unfold studentQuery. simpl. by rewrite includes_push.
  - intros other Hu' Hown. unfold getAttendanceReport. rewrite Hu'. cbv zeta.
    simpl db. simpl users. do 5 f_equal. unfold Attendance.find.
    symmetry. f_equal. apply filter_unselected.
    eapply Forall2_impl; [exact Hsave|]. simpl.
    intros x x' [->|[-> ->]]; [by left|]. right.
    assert (Attendance.faculty s <> other) as Hfac.
    { apply Hown; [done|].
      apply redeemable_spec in Hred as (Hsel & _).
      by apply selects_spec. }
    apply String.eqb_neq in Hfac.
    unfold reportQuery. simpl. by rewrite Hfac.
Qed.

Lemma redemption_is_invisible_to_others_witness :
  wf Example.created
  /\ getStudentAttendance
       (Req.mk (Some (User._id Example.bob)) Example.noBody "" None)
       Example.redeemed
     = getStudentAttendance
         (Req.mk (Some (User._id Example.bob)) Example.noBody "" None)
         Example.created.
Proof.
  assert (wf Example.created) as Hwf.
  { unfold wf. vm_compute. apply NoDup_singleton. }
  split; [exact Hwf|].
  apply (proj1 (redemption_is_invisible_to_others
                  (Example.at_ 2000) (Example.redeemReq Example.ann)
                  Example.created (User._id Example.ann)
                  (Req.mk (Some (User._id Example.bob)) Example.noBody "" None)
                  Hwf eq_refl) (User._id Example.bob) eq_refl).
  intros E. discriminate E.
Defined.
